(** * Message routing and access control of the Discord bot front-end

    A shallow embedding of [main.py]: the persisted settings and their
    reload ([load_settings]), the command gate ([global_command_check]) and
    the message handler ([on_message]) with its mention commands, trigger
    logic, intent classification and capability dispatch.

    The handler is asynchronous Python that talks to the chat platform, to
    the memory cog and to the AI helpers.  It is embedded as a program tree
    whose nodes are the external calls, over which the module state
    (block list, pause set, whitelist, metadata store) is threaded
    explicitly; early [return] and exceptions are control outcomes.

    The rest of the module follows: what [save_settings] writes and
    [get_whitelist_str] shows, the welcome of [on_guild_join], the
    [setprefix] command with [load_prefixes] and [save_prefixes], the global
    error handler, [cleanup], the helper [center_text] of the banner, and the
    objects that the module globals and the attributes of the bot name. *)

From stdpp Require Import gmap strings list pretty.
From Stdlib Require Import ZArith Lia Ascii.

Local Open Scope string_scope.
Local Open Scope Z_scope.

(** ** Python strings *)

Module Py.

(** [s.startswith(p)] *)
Definition startswith (p s : string) : bool := String.prefix p s.

(** [p in s] for two strings: [p] starts at some position of [s]. *)
Fixpoint contains (p s : string) : bool :=
  String.prefix p s ||
  match s with
  | EmptyString => false
  | String _ s' => contains p s'
  end.

(** [s.endswith(p)] *)
Definition endswith (p s : string) : bool :=
  String.prefix (String.rev p) (String.rev s).

(** [s.endswith((p1, p2, ...))] with a tuple of suffixes *)
Definition endswith_any (ps : list string) (s : string) : bool :=
  existsb (fun p => endswith p s) ps.

(** Truth value of a string: non-empty. *)
Definition truthy (s : string) : bool :=
  match s with EmptyString => false | _ => true end.

(** Truth value of an optional string ([None] and [''] are false). *)
Definition truthy_opt (o : option string) : bool :=
  match o with Some s => truthy s | None => false end.

(** ["sep".join(l)] *)
Fixpoint join (sep : string) (l : list string) : string :=
  match l with
  | [] => ""
  | [x] => x
  | x :: l' => x ++ sep ++ join sep l'
  end.

(** [str(n)] for an integer *)
Definition str (n : Z) : string := pretty n.

Definition nl : string := String (Ascii.ascii_of_nat 10) EmptyString.

(** [s[:-3]] *)
Definition drop_last3 (s : string) : string :=
  String.rev (match String.rev s with
              | String _ (String _ (String _ r)) => r
              | _ => ""
              end).

End Py.

(** Library functions whose full behaviour (Unicode case mapping, Unicode
    white space, the regular-expression engine, integer parsing) is that of
    the Python runtime.  They are parameters of the development. *)
Record PyRuntime := {
  lower : string -> string;            (* str.lower() *)
  strip : string -> string;            (* str.strip() *)
  capitalize : string -> string;       (* str.capitalize() *)
  re_sub_merge : string -> string;     (* re.sub(r'(?i)\bmerge\b', '', s) *)
  int_of_str : string -> option Z      (* int(s); None stands for ValueError *)
}.

(** Values read from the process environment at start-up. *)
Record Config := {
  DEFAULT_PREFIX : string;
  OWNER_ID : Z;
  BOT_NAME : string
}.

(** ** Data model *)

Record Attachment := { filename : string; url : string }.

Record Channel := {
  chan_id : Z;
  chan_is_text : bool  (* isinstance(channel, (TextChannel, Thread)) *)
}.

Record Guild := { guild_id : Z; guild_name : string; channels : list Channel }.

Record Message := {
  author_id : Z;
  author_bot : bool;
  author_administrator : bool;   (* author.guild_permissions.administrator *)
  guild : option Guild;
  channel_id : Z;
  content : string;
  mentions_bot : bool;           (* bot.user in message.mentions *)
  attachments : list Attachment;
  reference : option Z           (* message.reference.message_id *)
}.

(** The invocation context of a command. *)
Record Context := {
  ctx_guild : option Guild;
  ctx_author : Z;
  ctx_channel : Z
}.

(** Embeds with their title, description, fields (name, value) and footer;
    colour and the inline layout flag are left out. *)
Record Embed := {
  title : string;
  description : string;
  fields : list (string * string);
  footer : option string
}.

Record File := { file_data : string; file_name : string }.

(** Keyword arguments of [channel.send] / [ctx.send]. *)
Record Outgoing := {
  out_content : option string;
  out_embed : option Embed;
  out_files : list File;
  out_reference : bool;                (* reference=message *)
  out_allowed_mentions : option bool;  (* AllowedMentions(replied_user=..) *)
  out_delete_after : option Z
}.

Definition send_embed (e : Embed) (ref : bool) (allowed : option bool)
    (del : option Z) : Outgoing :=
  {| out_content := None; out_embed := Some e; out_files := [];
     out_reference := ref; out_allowed_mentions := allowed;
     out_delete_after := del |}.

Definition send_files (fs : list File) (allowed : bool) : Outgoing :=
  {| out_content := None; out_embed := None; out_files := fs;
     out_reference := true; out_allowed_mentions := Some allowed;
     out_delete_after := None |}.

Definition send_text (s : string) (allowed : bool) : Outgoing :=
  {| out_content := Some s; out_embed := None; out_files := [];
     out_reference := true; out_allowed_mentions := Some allowed;
     out_delete_after := None |}.

(** Entries of [image_metadata]. *)
Inductive MetaEntry :=
| MetaMerge (prompt : string) (source_images : list string)
| MetaBatchEdit (prompt : string) (source_images : list string)
    (total_images failed_count : nat)
| MetaImg2Img (prompt : string) (seed : Z) (reference_image : string)
| MetaGeneration (prompt : string) (seed : option Z) (ai_params : option string).

(** The [settings] dictionary; its six keys are always present. *)
Record Settings := {
  s_logger : bool;
  s_paused : list Z;
  s_blocked : list Z;
  s_imgurl_enabled : bool;
  s_pinging_enabled : list (string * bool);
  s_whitelist : list (string * list Z)
}.

Definition default_settings : Settings :=
  {| s_logger := false; s_paused := []; s_blocked := [];
     s_imgurl_enabled := false; s_pinging_enabled := []; s_whitelist := [] |}.

(** A parsed [settings.json]: any of the keys may be missing.  Objects are
    kept as association lists in document order. *)
Record SettingsDoc := {
  doc_logger : option bool;
  doc_paused : option (list Z);
  doc_blocked : option (list Z);
  doc_imgurl_enabled : option bool;
  doc_pinging_enabled : option (list (string * bool));
  doc_whitelist : option (list (string * list Z))
}.

(** The module-level mutable state. *)
Record BotState := {
  settings : Settings;
  pinging_enabled : gmap Z bool;
  blocked_users : gset Z;
  paused_servers : gset Z;
  whitelisted_channels : gmap string (list Z);
  image_metadata : gmap string MetaEntry;
  custom_prefixes : gmap string string
}.

(** ** Exceptions and external calls *)

Inductive exn :=
| HTTPException (code : Z) (text : string)  (* with NotFound and Forbidden *)
| NameError (name : string)
| AttributeError (text : string)
| OtherException (text : string).

Definition is_http (e : exn) : bool :=
  match e with HTTPException _ _ => true | _ => false end.

Definition http_code (e : exn) : Z :=
  match e with HTTPException c _ => c | _ => 0 end.

(** [str(e)] *)
Definition exn_str (e : exn) : string :=
  match e with
  | HTTPException _ t => t
  | NameError n => "name '" ++ n ++ "' is not defined"
  | AttributeError t => t
  | OtherException t => t
  end.

(** Modelled from the spec: the result of [generate_image] (utils.image),
    which the specification gives as (imageBytes|None, seed, finalUrl,
    aiParams?) or the "NSFW" marker.  [GenTuple] is a tuple of at least
    three items, [GenOther] anything else. *)
Inductive ImgVal := ImgNone | ImgNSFW | ImgData (d : string).

Inductive GenResult :=
| GenOther
| GenTuple (img : ImgVal) (seed : option Z) (final_url : string)
    (ai_params : option string).

(** An external call, indexed by the type of its result. *)
Inductive call : Type -> Type :=
(* chat platform and command framework *)
| FetchMessage (channel mid : Z) : call Message
| Reply (e : Embed) : call unit
| Send (channel : Z) (o : Outgoing) : call Z
| SendLongMessage (channel : Z) (text : string) (mention_author : bool) : call unit
| Typing (channel : Z) : call unit
| GetContextValid : call bool
| ProcessCommands : call (option BotState * option exn)
(* chat cog and its memory *)
| GetMemory : call bool
| MemIsActive (channel : Z) : call bool
| MemActivate (channel : Z) : call unit
| MemDeactivate (channel : Z) : call unit
| MemHasStm (key : string) : call bool
| MemReset (key : string) : call unit
(* intent heuristics *)
| DetectGeneration (text : string) : call bool
| DetectEditing (text : string) (has_images : bool) : call bool
| DetectWebSearch (text : string) : call bool
| DetectMerge (text : string) (image_count : nat) : call bool
(* AI capabilities *)
| ClassifyPrompt (text : string) : call string
| GenerateImageMerge (prompt : string) (urls : list string)
    : call (option string * string * option string)
| GenerateImg2ImgWithRetry (prompt url : string) (seed : Z)
    : call (option string * string * option string)
| GenerateImage (prompt : string) (user_id : Z) : call GenResult
| GetValidSearchResults (query : string) : call string
| LoadContextFiles : call (string * string * string)
| GenerateAiResponse (model : string) (messages : list (string * string))
    (timeout : Z) : call (option string * option string)
| HttpGet (url : string) : call (Z * string)
| AnalyzeImage (data : string) : call string
| GenerateResponseWeb (prompt instructions : string) : call string
(* runtime *)
| RandomEntropy : call Z
| UtcNow : call (string * string)
| Print (text : string) : call unit
| ReadSettingsFile : call (option SettingsDoc).

(** The environment answers a call with a value or with an exception. *)
Inductive reply (X : Type) : Type :=
| Ok (x : X)
| Fail (e : exn).
Arguments Ok {X} x.
Arguments Fail {X} e.

(** Program trees. *)
Inductive prog (A : Type) : Type :=
| Ret (a : A)
| Call {X : Type} (c : call X) (k : reply X -> prog A).
Arguments Ret {A} a.
Arguments Call {A X} c k.

Fixpoint pbind {A B} (p : prog A) (k : A -> prog B) : prog B :=
  match p with
  | Ret a => k a
  | Call c f => Call c (fun r => pbind (f r) k)
  end.

(** How a block of statements ends: it runs to its end with a value, it
    executes [return], or it raises. *)
Inductive ctl (R A : Type) : Type :=
| Normal (a : A)
| Returned (r : R)
| Raised (e : exn).
Arguments Normal {R A} a.
Arguments Returned {R A} r.
Arguments Raised {R A} e.

(** Statements of a function returning [R]: state, control and calls. *)
Definition M (R A : Type) : Type := BotState -> prog (ctl R A * BotState).

Definition ret {R A} (a : A) : M R A := fun s => Ret (Normal a, s).
Definition do_return {R A} (r : R) : M R A := fun s => Ret (Returned r, s).
Definition raise {R A} (e : exn) : M R A := fun s => Ret (Raised e, s).

Definition bind {R A B} (m : M R A) (k : A -> M R B) : M R B :=
  fun s => pbind (m s) (fun cs =>
    match cs with
    | (Normal a, s') => k a s'
    | (Returned r, s') => Ret (Returned r, s')
    | (Raised e, s') => Ret (Raised e, s')
    end).

Definition perform {R X} (c : call X) : M R X :=
  fun s => Call c (fun r =>
    match r with
    | Ok x => Ret (Normal x, s)
    | Fail e => Ret (Raised e, s)
    end).

Definition get_state {R} : M R BotState := fun s => Ret (Normal s, s).
Definition put_state {R} (s' : BotState) : M R unit := fun _ => Ret (Normal tt, s').

(** [try: body except <class>: handler] where [catches] recognises the
    exception class. *)
Definition try_except {R A} (body : M R A) (catches : exn -> bool)
    (handler : exn -> M R A) : M R A :=
  fun s => pbind (body s) (fun cs =>
    match cs with
    | (Raised e, s') => if catches e then handler e s' else Ret (Raised e, s')
    | other => Ret other
    end).

Definition any_exception (e : exn) : bool := true.

Declare Scope prog_scope.
Delimit Scope prog_scope with prog.
Notation "x <- c ;; k" := (bind c (fun x => k))
  (at level 100, c at next level, right associativity) : prog_scope.
Notation "c ;; k" := (bind c (fun _ => k))
  (at level 100, right associativity) : prog_scope.
Local Open Scope prog_scope.

(** [if cond: body] without [else]. *)
Definition when {R} (cond : bool) (body : M R unit) : M R unit :=
  if cond then body else ret tt.

(** [for i, x in enumerate(l)] threading the loop variables [b]. *)
Fixpoint for_enumerate {R A B} (f : nat -> A -> B -> M R B) (i : nat)
    (l : list A) (b : B) : M R B :=
  match l with
  | [] => ret b
  | x :: l' => b' <- f i x b ;; for_enumerate f (S i) l' b'
  end.

(** ** Running a program *)

(** One call of an execution with the answer it got. *)
Inductive event : Type :=
| Ev {X : Type} (c : call X) (r : reply X).

(** An environment answers the [n]-th call of an execution. *)
Definition oracle : Type := nat -> forall X, call X -> reply X.

Fixpoint run {A} (w : oracle) (n : nat) (p : prog A) : list event * A :=
  match p with
  | Ret a => ([], a)
  | Call c k =>
      let r := w n _ c in
      let '(t, a) := run w (S n) (k r) in
      (Ev c r :: t, a)
  end.

Definition trace_of {A} (w : oracle) (p : prog A) : list event := (run w 0%nat p).1.
Definition result_of {A} (w : oracle) (p : prog A) : A := (run w 0%nat p).2.

Definition final_state {R A} (w : oracle) (p : prog (ctl R A * BotState)) : BotState :=
  (result_of w p).2.
Definition outcome {R A} (w : oracle) (p : prog (ctl R A * BotState)) : ctl R A :=
  (result_of w p).1.

(** ** The bot *)

Section Bot.

Variable rt : PyRuntime.
Variable cfg : Config.

(** *** Settings: [load_settings] *)

(** [settings.update(loaded)] *)
Definition update_settings (s : Settings) (d : SettingsDoc) : Settings :=
  {| s_logger := default (s_logger s) (doc_logger d);
     s_paused := default (s_paused s) (doc_paused d);
     s_blocked := default (s_blocked s) (doc_blocked d);
     s_imgurl_enabled := default (s_imgurl_enabled s) (doc_imgurl_enabled d);
     s_pinging_enabled := default (s_pinging_enabled s) (doc_pinging_enabled d);
     s_whitelist := default (s_whitelist s) (doc_whitelist d) |}.

(** [pinging_enabled.clear()] and the loop storing [int(k)] keys, skipping
    the keys on which [int] raises [ValueError]. *)
Definition load_pinging (items : list (string * bool)) : gmap Z bool :=
  fold_left (fun acc kv =>
               match int_of_str rt kv.1 with
               | Some k => <[k := kv.2]> acc
               | None => acc
               end) items ∅.

(** [whitelisted_channels.clear()] and the loop filling it again. *)
Definition load_whitelist (items : list (string * list Z)) : gmap string (list Z) :=
  fold_left (fun acc kv => <[kv.1 := kv.2]> acc) items ∅.

(** The state after [load_settings] has read [file] ([None]: the file
    does not exist). *)
Definition apply_settings_file (file : option SettingsDoc) (st : BotState) : BotState :=
  let st1 :=
    match file with
    | Some loaded =>
        let s1 := update_settings (settings st) loaded in
        {| settings := s1;
           pinging_enabled := load_pinging (s_pinging_enabled s1);
           blocked_users := blocked_users st;
           paused_servers := paused_servers st;
           whitelisted_channels := load_whitelist (s_whitelist s1);
           image_metadata := image_metadata st;
           custom_prefixes := custom_prefixes st |}
    | None =>
        {| settings := default_settings;
           pinging_enabled := pinging_enabled st;
           blocked_users := blocked_users st;
           paused_servers := paused_servers st;
           whitelisted_channels := whitelisted_channels st;
           image_metadata := image_metadata st;
           custom_prefixes := custom_prefixes st |}
    end in
  {| settings := settings st1;
     pinging_enabled := pinging_enabled st1;
     blocked_users := list_to_set (s_blocked (settings st1));
     paused_servers := list_to_set (s_paused (settings st1));
     whitelisted_channels := whitelisted_channels st1;
     image_metadata := image_metadata st1;
     custom_prefixes := custom_prefixes st1 |}.

Definition load_settings {R} : M R unit :=
  file <- perform ReadSettingsFile ;;
  st <- get_state ;;
  put_state (apply_settings_file file st).

(** *** The command gate: [global_command_check] *)

(** [guild_key in whitelisted_channels and whitelisted_channels[guild_key]] *)
Definition has_whitelist (st : BotState) (guild_key : string) : bool :=
  match whitelisted_channels st !! guild_key with
  | Some (_ :: _) => true
  | _ => false
  end.

(** [channel in whitelisted_channels[guild_key]] *)
Definition in_whitelist (st : BotState) (guild_key : string) (channel : Z) : bool :=
  match whitelisted_channels st !! guild_key with
  | Some l => bool_decide (channel ∈ l)
  | None => false
  end.

Definition mention_channel (channel : Z) : string := "<#" ++ Py.str channel ++ ">".

Definition mention_user (user : Z) : string := "<@" ++ Py.str user ++ ">".

Definition blocked_embed (author : Z) : Embed :=
  {| title := "🚫 User Blocked";
     description := "❌ **You are blocked from using this bot.**" ++ Py.nl ++ Py.nl
       ++ "📧 Contact the bot owner if you believe this is an error.";
     fields := [("🔍 Status", "Blocked"); ("👤 User", mention_user author)];
     footer := Some "User block is active." |}.

Definition paused_embed (g : Guild) : Embed :=
  {| title := "⏸️ Bot is Currently Paused";
     description := "🚫 **The bot is currently paused and not responding to commands.**"
       ++ Py.nl ++ Py.nl
       ++ "✨ This is a temporary state set by the bot administrator.";
     fields := [("🔍 Status", "Paused"); ("📋 Server", guild_name g);
                ("💡 Info", "The bot will resume when the administrator releases it")];
     footer := Some "Bot pause is active in this server." |}.

Definition not_whitelisted_embed (g : Guild) (channel : Z) : Embed :=
  {| title := "🔒 Channel Not Whitelisted";
     description := "❌ **This channel is not allowed for bot commands.**"
       ++ Py.nl ++ Py.nl ++ "🏠 **Server:** " ++ guild_name g ++ Py.nl
       ++ "📝 **Channel:** " ++ mention_channel channel;
     fields := [("ℹ️ Info", "Contact an administrator to add this channel to the whitelist")];
     footer := Some "Channel restriction is active." |}.

(** [ctx.send(embed=embed, delete_after=seconds)] *)
Definition ctx_send {R} (ctx : Context) (e : Embed) (seconds : Z) : M R Z :=
  perform (Send (ctx_channel ctx) (send_embed e false None (Some seconds))).

Definition global_command_check (ctx : Context) : M bool unit :=
  match ctx_guild ctx with
  | Some g =>
      let guild_id := guild_id g in
      load_settings ;;
      st <- get_state ;;
      when (bool_decide (ctx_author ctx ∈ blocked_users st))
        (ctx_send ctx (blocked_embed (ctx_author ctx)) 15 ;; do_return false) ;;
      when (bool_decide (guild_id ∈ paused_servers st))
        (ctx_send ctx (paused_embed g) 30 ;; do_return false) ;;
      let guild_key := Py.str guild_id in
      when (has_whitelist st guild_key)
        (when (negb (in_whitelist st guild_key (ctx_channel ctx)))
           (ctx_send ctx (not_whitelisted_embed g (ctx_channel ctx)) 30 ;;
            do_return false))
  | None => ret tt
  end ;;
  do_return true.

(** *** The message handler: [on_message] *)

Definition is_some {A} (o : option A) : bool :=
  match o with Some _ => true | None => false end.

(** [message.guild.<attr>]: an attribute access on [None] raises. *)
Definition the_guild {R} (m : Message) : M R Guild :=
  match guild m with
  | Some g => ret g
  | None => raise (AttributeError "'NoneType' object has no attribute 'id'")
  end.

(** A name bound in no enclosing scope: evaluating it raises [NameError]. *)
Definition unbound_name {R} (name : string) : M R string :=
  raise (NameError name).

(** [random.randint(lo, hi)]: an integer N with lo <= N <= hi, reduced
    from the generator's raw entropy. *)
Definition randint {R} (lo hi : Z) : M R Z :=
  e <- perform RandomEntropy ;;
  ret (lo + e mod (hi - lo + 1)).

(** [pinging_enabled.get(message.guild.id, True)] *)
Definition ping_enabled_for {R} (m : Message) : M R bool :=
  g <- the_guild m ;;
  st <- get_state ;;
  ret (default true (pinging_enabled st !! guild_id g)).

(** [image_metadata[str(sent_msg.id)] = entry] *)
Definition store_metadata {R} (sent_id : Z) (entry : MetaEntry) : M R unit :=
  st <- get_state ;;
  put_state {| settings := settings st;
               pinging_enabled := pinging_enabled st;
               blocked_users := blocked_users st;
               paused_servers := paused_servers st;
               whitelisted_channels := whitelisted_channels st;
               image_metadata := <[Py.str sent_id := entry]> (image_metadata st);
               custom_prefixes := custom_prefixes st |}.

(** [message.channel.send(..)] *)
Definition channel_send {R} (m : Message) (o : Outgoing) : M R Z :=
  perform (Send (channel_id m) o).

(** [message.reply(embed=embed, mention_author=False)] *)
Definition message_reply {R} (e : Embed) : M R unit := perform (Reply e).

(** **** Images of a message *)

Definition image_extensions : list string :=
  [".png"; ".jpg"; ".jpeg"; ".gif"; ".webp"].

Definition is_image (att : Attachment) : bool :=
  Py.endswith_any image_extensions (lower rt (filename att)).

Definition has_images_in_message (msg : Message) : bool :=
  existsb is_image (attachments msg).

Definition count_images_in_message (msg : Message) : nat :=
  length (List.filter is_image (attachments msg)).

(** The loop appending [att.url] for every image attachment. *)
Definition image_urls_of (msg : Message) : list string :=
  map url (List.filter is_image (attachments msg)).

(** The loop taking the first image attachment's [url] and breaking. *)
Definition first_image_url (msg : Message) : option string :=
  head (image_urls_of msg).

(** **** Mention commands *)

Definition is_admin (m : Message) : bool :=
  (author_id m =? OWNER_ID cfg) || (is_some (guild m) && author_administrator m).

Definition bot_display_name : string := capitalize rt (BOT_NAME cfg).

Definition activated_embed (m : Message) : Embed :=
  {| title := "🟢 Channel Activated";
     description := "✅ Bot will now **respond to ALL messages** in "
       ++ mention_channel (channel_id m) ++ Py.nl ++ Py.nl
       ++ "📝 **Note:** Bot can still respond in other channels when mentioned by name.";
     fields := [("🏠 Channel", mention_channel (channel_id m));
                ("📊 Status", "Fully Active");
                ("🔧 How to Deactivate", "Use `@" ++ bot_display_name ++ " deactivate`")];
     footer := Some "Channel activation via mention successful." |}.

Definition memory_error_embed : Embed :=
  {| title := "❌ Error";
     description := "Could not access memory system. Please try again.";
     fields := []; footer := None |}.

Definition admin_only_embed : Embed :=
  {| title := "🔒 Admin Only Command";
     description := "You need administrator permissions to use this command!";
     fields := [];
     footer := Some "This command is restricted to administrators." |}.

Definition deactivated_embed (m : Message) : Embed :=
  {| title := "🔴 Channel Deactivated";
     description := "✅ Bot will **no longer respond to all messages** in "
       ++ mention_channel (channel_id m) ++ Py.nl ++ Py.nl
       ++ "📝 **Note:** Bot can still respond when mentioned by name.";
     fields := [("🏠 Channel", mention_channel (channel_id m));
                ("📊 Status", "Normal Mode");
                ("🔧 How to Reactivate", "Use `@" ++ bot_display_name ++ " activate`")];
     footer := Some "Channel deactivation via mention successful." |}.

Definition already_inactive_embed (m : Message) : Embed :=
  {| title := "ℹ️ Already Inactive";
     description := mention_channel (channel_id m) ++ " is not currently activated.";
     fields := [("💡 Tip", "Use `@" ++ bot_display_name
                            ++ " activate` to make bot respond to all messages")];
     footer := None |}.

Definition reload_embed (g : Guild) (cleared_channels : nat) : Embed :=
  {| title := "🔄 Server Reload Complete";
     description := "✅ Bot has been **reloaded** for **" ++ guild_name g ++ "**"
       ++ Py.nl ++ Py.nl ++ "🧠 **STM (Short-term memory) cleared** for all channels";
     fields := [("🏠 Server", guild_name g);
                ("🧹 Channels Cleared", Py.str (Z.of_nat cleared_channels) ++ " channels");
                ("📊 Memory Status", "Fresh start")];
     footer := Some "Server-level reload via mention successful. Bot memory refreshed." |}.

Definition mention_activate (m : Message) : M unit unit :=
  (if is_admin m then
     chat_cog <- perform GetMemory ;;
     if chat_cog then
       perform (MemActivate (channel_id m)) ;;
       message_reply (activated_embed m)
     else message_reply memory_error_embed
   else message_reply admin_only_embed) ;;
  do_return tt.

Definition mention_deactivate (m : Message) : M unit unit :=
  (if is_admin m then
     chat_cog <- perform GetMemory ;;
     if chat_cog then
       active <- perform (MemIsActive (channel_id m)) ;;
       if active then
         perform (MemDeactivate (channel_id m)) ;;
         message_reply (deactivated_embed m)
       else message_reply (already_inactive_embed m)
     else message_reply memory_error_embed
   else message_reply admin_only_embed) ;;
  do_return tt.

(** One turn of the loop over [message.guild.channels]. *)
Definition wack_channel (g : Guild) (_ : nat) (channel : Channel)
    (cleared_channels : nat) : M unit nat :=
  if chan_is_text channel then
    let memory_key := Py.str (guild_id g) ++ "_" ++ Py.str (chan_id channel) in
    known <- perform (MemHasStm memory_key) ;;
    if known then
      perform (MemReset memory_key) ;;
      ret (S cleared_channels)
    else ret cleared_channels
  else ret cleared_channels.

Definition mention_wack (m : Message) : M unit unit :=
  (if is_admin m then
     chat_cog <- perform GetMemory ;;
     if chat_cog then
       g <- the_guild m ;;
       cleared_channels <- for_enumerate (wack_channel g) 0%nat (channels g) 0%nat ;;
       message_reply (reload_embed g cleared_channels)
     else message_reply memory_error_embed
   else message_reply admin_only_embed) ;;
  do_return tt.

(** The [if bot.user in message.mentions:] block. *)
Definition mention_commands (m : Message) : M unit unit :=
  when (mentions_bot m)
    (let content_lower := lower rt (content m) in
     if Py.contains "activate" content_lower then mention_activate m
     else if Py.contains "deactivate" content_lower then mention_deactivate m
     else if Py.contains "wack" content_lower then mention_wack m
     else ret tt).

(** **** Trigger eligibility and classification *)

(** The local variables of [on_message] that the dispatch blocks read. *)
Record Locals := {
  clean_message_content : string;
  current_images : bool;
  ref_has_images : bool;
  total_image_count : nat;
  ref_msg : option Message;
  wants_generation : bool;
  wants_editing : bool;
  wants_web_search : bool;
  wants_merge : bool
}.

Definition has_any_images (L : Locals) : bool :=
  current_images L || ref_has_images L.

(** The resolution of a reply target; platform errors are swallowed. *)
Definition fetch_reference {R} (m : Message) : M R (option Message) :=
  match reference m with
  | Some mid =>
      try_except
        (fetched <- perform (FetchMessage (channel_id m) mid) ;; ret (Some fetched))
        is_http
        (fun _ => ret None)
  | None => ret None
  end.

(** The computation of [should_respond]. *)
Definition should_respond_check {R} (m : Message) : M R bool :=
  chat_cog <- perform GetMemory ;;
  active <- (if chat_cog then perform (MemIsActive (channel_id m)) else ret false) ;;
  if active then ret true
  else
    let message_lower := lower rt (content m) in
    if Py.contains (BOT_NAME cfg) message_lower then
      match guild m with
      | Some g =>
          st <- get_state ;;
          let guild_key := Py.str (guild_id g) in
          if has_whitelist st guild_key then
            ret (in_whitelist st guild_key (channel_id m))
          else ret true
      | None => ret true  (* DM - always respond to bot name keyword *)
      end
    else ret false.

(** The four detection calls, in source order. *)
Definition classify {R} (clean : string) (cur ref : bool) (total : nat)
    (rmsg : option Message) : M R Locals :=
  let any_images := cur || ref in
  generation <- perform (DetectGeneration clean) ;;
  let wants_generation := generation && negb any_images in
  wants_editing <- perform (DetectEditing clean any_images) ;;
  wants_web_search <- perform (DetectWebSearch clean) ;;
  wants_merge <- perform (DetectMerge clean total) ;;
  ret {| clean_message_content := clean; current_images := cur;
         ref_has_images := ref; total_image_count := total; ref_msg := rmsg;
         wants_generation := wants_generation; wants_editing := wants_editing;
         wants_web_search := wants_web_search; wants_merge := wants_merge |}.

(** **** Notices of the dispatcher *)

Definition plain_embed (t d : string) : Embed :=
  {| title := t; description := d; fields := []; footer := None |}.

Definition nsfw_embed (what : string) : Embed :=
  plain_embed "🚫 NSFW Content Detected" ("NSFW content detected in " ++ what ++ ".").

Definition content_blocked_embed (subject advice : string) : Embed :=
  {| title := "🚫 Content Blocked";
     description := "❌ **NSFW content detected by Discord**" ++ Py.nl ++ Py.nl
       ++ subject ++ " explicit content that cannot be sent.";
     fields := [("🛡️ Content Policy", advice)];
     footer := Some "Content moderation is active to ensure safe usage" |}.

Definition advice_prompt : string :=
  "Please try a different prompt that complies with content guidelines".

(** [error or 'Unknown error'] *)
Definition or_unknown (error : option string) : string :=
  match error with
  | Some e => if Py.truthy e then e else "Unknown error"
  | None => "Unknown error"
  end.

(** The NSFW pre-check: [try: ... except Exception: pass]. *)
Definition nsfw_check (m : Message) (prompt what : string) : M unit unit :=
  try_except
    (nsfw <- perform (ClassifyPrompt prompt) ;;
     when (String.eqb nsfw "NSFW")
       (channel_send m (send_embed (nsfw_embed what) true None (Some 30)) ;;
        do_return tt))
    any_exception
    (fun _ => ret tt).

(** The [except discord.HTTPException as e:] handler after a failed send
    of a result. *)
Definition send_rejected (m : Message) (allowed : bool)
    (subject advice fail_title fail_text : string) (e : exn) : M unit unit :=
  (if http_code e =? 20009 then
     channel_send m (send_embed (content_blocked_embed subject advice) true (Some allowed) None)
   else
     channel_send m (send_embed (plain_embed fail_title (fail_text ++ exn_str e))
                       true (Some allowed) None)) ;;
  do_return tt.

(** The image urls of the message, then of the referenced message. *)
Definition collect_image_urls (m : Message) (rmsg : option Message) : list string :=
  (image_urls_of m ++ match rmsg with Some r => image_urls_of r | None => [] end)%list.

(** **** Merge, two images or more *)

Definition handle_merge (m : Message) (L : Locals) : M unit unit :=
  when (wants_merge L && (2 <=? total_image_count L)%nat)
    (perform (Typing (channel_id m)) ;;
     let image_urls := collect_image_urls m (ref_msg L) in
     when (2 <=? length image_urls)%nat
       (let stripped := strip rt (re_sub_merge rt (clean_message_content L)) in
        let merge_prompt :=
          if Py.truthy stripped then stripped else "combine these images" in
        nsfw_check m merge_prompt "merge request" ;;
        res <- perform (GenerateImageMerge merge_prompt image_urls) ;;
        match res with
        | (Some img_data, final_url, None) =>
            ping_enabled <- ping_enabled_for m ;;
            try_except
              (sent <- channel_send m
                 (send_files [{| file_data := img_data; file_name := "merged_image.png" |}]
                    ping_enabled) ;;
               store_metadata sent (MetaMerge merge_prompt image_urls) ;;
               do_return tt)
              is_http
              (send_rejected m ping_enabled "The merged image contains"
                 "Please try a different prompt or different source images"
                 "❌ Merge Failed" "Failed to send merged image: ")
        | (_, _, error) =>
            channel_send m
              (send_embed (plain_embed "❌ Merge Failed"
                             ("Failed to merge images: " ++ or_unknown error))
                 true None (Some 30)) ;;
            do_return tt
        end)).

(** **** Batch editing, two images or more and no merge *)

Definition image_label (i : nat) : string := "Image " ++ Py.str (Z.of_nat i + 1) ++ ": ".

(** One turn of the loop over [enumerate(image_urls)]; the loop variables
    are [(edited_files, failed_edits)]. *)
Definition edit_one (prompt : string) (i : nat) (image_url : string)
    (acc : list File * list string) : M unit (list File * list string) :=
  try_except
    (seed <- randint 100000 999999 ;;
     res <- perform (GenerateImg2ImgWithRetry prompt image_url seed) ;;
     match res with
     | (Some img_data, final_url, error) =>
         let filename := "edited_image_" ++ Py.str (Z.of_nat i + 1) ++ ".png" in
         ret (app acc.1 [{| file_data := img_data; file_name := filename |}], acc.2)
     | (None, final_url, error) =>
         ret (acc.1, app acc.2 [image_label i ++ or_unknown error])
     end)
    any_exception
    (fun e => ret (acc.1, app acc.2 [image_label i ++ exn_str e])).

Definition partial_success_embed (failed_edits : list string) : Embed :=
  let error_msg := "⚠️ Some images failed to edit:" ++ Py.nl
                   ++ Py.join Py.nl (take 3 failed_edits) in
  let error_msg :=
    if (3 <? length failed_edits)%nat
    then error_msg ++ Py.nl ++ "... and "
         ++ Py.str (Z.of_nat (length failed_edits) - 3) ++ " more"
    else error_msg in
  plain_embed "Partial Success" error_msg.

Definition batch_failed_embed (failed_edits : list string) : Embed :=
  let error_list := Py.join Py.nl (take 5 failed_edits) in
  let error_list :=
    if (5 <? length failed_edits)%nat
    then error_list ++ Py.nl ++ "... and "
         ++ Py.str (Z.of_nat (length failed_edits) - 5) ++ " more errors"
    else error_list in
  plain_embed "❌ Batch Editing Failed"
    ("Failed to edit any images:" ++ Py.nl ++ error_list).

Definition handle_batch_edit (m : Message) (L : Locals) : M unit unit :=
  when (wants_editing L && (2 <=? total_image_count L)%nat && negb (wants_merge L))
    (perform (Typing (channel_id m)) ;;
     let image_urls := collect_image_urls m (ref_msg L) in
     when (2 <=? length image_urls)%nat
       (nsfw_check m (clean_message_content L) "editing request" ;;
        results <- for_enumerate (edit_one (clean_message_content L)) 0%nat image_urls ([], []) ;;
        let edited_files := results.1 in
        let failed_edits := results.2 in
        (match edited_files with
         | _ :: _ =>
             ping_enabled <- ping_enabled_for m ;;
             try_except
               (sent <- channel_send m (send_files edited_files ping_enabled) ;;
                store_metadata sent
                  (MetaBatchEdit (clean_message_content L) image_urls
                     (length edited_files) (length failed_edits)))
               is_http
               (send_rejected m ping_enabled "One or more edited images contain"
                  advice_prompt "❌ Batch Editing Failed" "Failed to send edited images: ") ;;
             when (negb (bool_decide (failed_edits = [])))
               (channel_send m (send_embed (partial_success_embed failed_edits)
                                  false None (Some 30)) ;;
                ret tt)
         | [] =>
             channel_send m (send_embed (batch_failed_embed failed_edits)
                               true None (Some 30)) ;;
             ret tt
         end) ;;
        do_return tt)).

(** **** Single image editing *)

(** The image an edit or an analysis works on: the message's own first
    image, else the referenced message's. *)
Definition pick_image_url (m : Message) (L : Locals) : option string :=
  if current_images L then first_image_url m
  else if ref_has_images L then
    match ref_msg L with
    | Some r => first_image_url r
    | None => None
    end
  else None.

Definition handle_single_edit (m : Message) (L : Locals) : M unit unit :=
  when (wants_editing L && has_any_images L && (total_image_count L =? 1)%nat)
    (perform (Typing (channel_id m)) ;;
     match pick_image_url m L with
     | Some image_url =>
         when (Py.truthy image_url)
           (nsfw_check m (clean_message_content L) "editing request" ;;
            seed <- randint 100000 999999 ;;
            res <- perform (GenerateImg2ImgWithRetry (clean_message_content L) image_url seed) ;;
            match res with
            | (Some img_data, final_url, error) =>
                ping_enabled <- ping_enabled_for m ;;
                try_except
                  (sent <- channel_send m
                     (send_files [{| file_data := img_data; file_name := "edited_image.png" |}]
                        ping_enabled) ;;
                   store_metadata sent
                     (MetaImg2Img (clean_message_content L) seed image_url) ;;
                   do_return tt)
                  is_http
                  (send_rejected m ping_enabled "The edited image contains"
                     advice_prompt "❌ Editing Failed" "Failed to send edited image: ")
            | (None, final_url, error) =>
                channel_send m
                  (send_embed (plain_embed "❌ Editing Failed"
                                 ("Failed to edit image: " ++ or_unknown error))
                     true None (Some 30)) ;;
                do_return tt
            end)
     | None => ret tt
     end).

(** **** Corrective notices *)

Definition no_image_embed : Embed :=
  plain_embed "❌ No Image Found"
    "Image editing requires an image to be attached or referenced. Please attach an image or reply to a message with an image.".

Definition merge_needs_two : string :=
  "Image merging requires 2 or more images. Please attach multiple images or reply to messages with images.".

Definition handle_missing_images (m : Message) (L : Locals) : M unit unit :=
  when (wants_editing L && negb (has_any_images L))
    (channel_send m (send_embed no_image_embed true None (Some 30)) ;;
     do_return tt) ;;
  when (wants_merge L && (total_image_count L =? 1)%nat)
    (channel_send m
       (send_embed (plain_embed "❌ Need at least 2 images to merge" merge_needs_two)
          true None (Some 30)) ;;
     do_return tt) ;;
  when (wants_merge L && (total_image_count L <? 2)%nat)
    (channel_send m
       (send_embed (plain_embed "❌ Insufficient Images" merge_needs_two)
          true None (Some 30)) ;;
     do_return tt).

(** **** Text-to-image generation *)

Definition generation_failed_embed : Embed :=
  plain_embed "❌ Generation Failed" "Failed to generate image. Please try again.".

Definition handle_generation (m : Message) (L : Locals) : M unit unit :=
  when (wants_generation L)
    (nsfw_check m (clean_message_content L) "generation request" ;;
     perform (Typing (channel_id m)) ;;
     result <- perform (GenerateImage (clean_message_content L) (author_id m)) ;;
     match result with
     | GenTuple (ImgData img_data) seed final_url ai_params =>
         ping_enabled <- ping_enabled_for m ;;
         try_except
           (sent <- channel_send m
              (send_files [{| file_data := img_data; file_name := "generated_image.png" |}]
                 ping_enabled) ;;
            store_metadata sent
              (MetaGeneration (clean_message_content L) seed ai_params) ;;
            do_return tt)
           is_http
           (send_rejected m ping_enabled "The generated image contains"
              advice_prompt "❌ Generation Failed" "Failed to send generated image: ")
     | _ => ret tt
     end ;;
     channel_send m (send_embed generation_failed_embed true None (Some 30)) ;;
     do_return tt).

(** **** Web search *)

Definition web_system_context : string :=
  "You are a helpful AI assistant. Your ONLY job is to provide accurate information based on the search results provided. "
  ++ "CRITICAL RULES:" ++ Py.nl
  ++ "1. Use ONLY the information from the search results" ++ Py.nl
  ++ "2. Never contradict or modify the search results" ++ Py.nl
  ++ "3. If search results say something, accept it as fact" ++ Py.nl
  ++ "4. Do not use your own knowledge that conflicts with search results" ++ Py.nl
  ++ "5. Present the information exactly as found in the search results" ++ Py.nl
  ++ "6. If unsure, quote the search results directly".

Definition web_user_prompt (current_date current_time query search_results : string)
    : string :=
  "Current date: " ++ current_date ++ ", Current time: " ++ current_time ++ ". "
  ++ "User query: " ++ query ++ Py.nl ++ Py.nl
  ++ "SEARCH RESULTS (TRUST THESE COMPLETELY):" ++ Py.nl ++ search_results
  ++ Py.nl ++ Py.nl
  ++ "Answer the user's question using ONLY the search results above. "
  ++ "Trust the search results completely, even if they seem unusual.".

Definition handle_web_search (m : Message) (L : Locals) : M unit unit :=
  when (wants_web_search L)
    (perform (Typing (channel_id m)) ;;
     search_results <- perform (GetValidSearchResults (clean_message_content L)) ;;
     when (Py.truthy search_results)
       (context_files <- perform LoadContextFiles ;;
        now <- perform UtcNow ;;
        let current_date := now.1 in
        let current_time := Py.drop_last3 now.2 ++ " UTC" in
        let messages :=
          [("system", web_system_context);
           ("user", web_user_prompt current_date current_time
                      (clean_message_content L) search_results)] in
        res <- perform (GenerateAiResponse "gemini-2.0-flash" messages 30) ;;
        match res with
        | (Some response, error) =>
            when (Py.truthy response && negb (Py.truthy_opt error))
              (ping_enabled <- ping_enabled_for m ;;
               perform (SendLongMessage (channel_id m) response ping_enabled) ;;
               do_return tt)
        | (None, error) => ret tt
        end)).

(** **** Image analysis *)

Definition combined_prompt (message_content analysis : string) : string :=
  "User message: " ++ message_content ++ Py.nl ++ Py.nl
  ++ "Image analysis: " ++ analysis ++ Py.nl ++ Py.nl
  ++ "Please respond to the user's message with the image context in mind.".

(** The body of the [try:] of the analysis block.  The block reads
    [message_content], a name the function never binds (the stripped text
    is held in [clean_message_content]). *)
Definition analysis_body (m : Message) (L : Locals) : M unit unit :=
  match pick_image_url m L with
  | Some image_url =>
      when (Py.truthy image_url)
        (response <- perform (HttpGet image_url) ;;
         when (response.1 =? 200)
           (let image_data := response.2 in
            analysis <- perform (AnalyzeImage image_data) ;;
            message_content <- unbound_name "message_content" ;;
            if Py.truthy (strip rt message_content) then
              context_files <- perform LoadContextFiles ;;
              let instructions := context_files.1.1 in
              answer <- perform (GenerateResponseWeb
                                   (combined_prompt message_content analysis)
                                   instructions) ;;
              when (Py.truthy answer)
                (ping_enabled <- ping_enabled_for m ;;
                 channel_send m (send_text answer ping_enabled) ;;
                 do_return tt)
            else
              ping_enabled <- ping_enabled_for m ;;
              channel_send m (send_text analysis ping_enabled) ;;
              do_return tt))
  | None => ret tt
  end.

Definition handle_image_analysis (m : Message) (L : Locals) : M unit unit :=
  when (has_any_images L && negb (wants_editing L) && negb (wants_merge L)
        && negb (wants_generation L) && negb (wants_web_search L))
    (perform (Typing (channel_id m)) ;;
     try_except (analysis_body m L) any_exception
       (fun e => perform (Print ("Error in image analysis: " ++ exn_str e)))).

(** **** The dispatcher and the handler *)

(** [bot.process_commands(message)]: the command framework runs the checks
    (the command gate, which reloads the settings) and the command, which
    may change the module state; neither the framework nor most of the
    commands are in this module.  The environment answers with the state they
    leave, if they change it, and with the exception that escapes them, if
    any. *)
Definition process_commands {R} : M R unit :=
  res <- perform ProcessCommands ;;
  match res.1 with Some st' => put_state st' | None => ret tt end ;;
  match res.2 with Some e => raise e | None => ret tt end.

Definition dispatch (m : Message) (L : Locals) : M unit unit :=
  handle_merge m L ;;
  handle_batch_edit m L ;;
  handle_single_edit m L ;;
  handle_missing_images m L ;;
  handle_generation m L ;;
  handle_web_search m L ;;
  handle_image_analysis m L ;;
  process_commands.

(** From the prefix test to the end of the handler. *)
Definition dynamic_detection (m : Message) (current_prefix : string) : M unit unit :=
  let stripped := strip rt (content m) in
  when (Py.startswith current_prefix stripped || Py.startswith "/" stripped)
    (process_commands ;; do_return tt) ;;
  valid <- perform GetContextValid ;;
  when valid (do_return tt) ;;
  let current_images := has_images_in_message m in
  let current_image_count := count_images_in_message m in
  ref_msg <- fetch_reference m ;;
  let ref_has_images :=
    match ref_msg with Some r => has_images_in_message r | None => false end in
  let total_image_count :=
    match ref_msg with
    | Some r => if ref_has_images
                then (current_image_count + count_images_in_message r)%nat
                else current_image_count
    | None => current_image_count
    end in
  should_respond <- should_respond_check m ;;
  when (negb should_respond) (do_return tt) ;;
  let clean_message_content := strip rt (content m) in
  L <- classify clean_message_content current_images ref_has_images
         total_image_count ref_msg ;;
  dispatch m L.

(** [custom_prefixes.get(str(message.guild.id), DEFAULT_PREFIX)] *)
Definition guild_prefix (st : BotState) (g : Guild) : string :=
  default (DEFAULT_PREFIX cfg) (custom_prefixes st !! Py.str (guild_id g)).

(** The test that sends a message to command processing at once. *)
Definition is_prefixed (current_prefix : string) (m : Message) : bool :=
  Py.startswith current_prefix (strip rt (content m))
  || Py.startswith "/" (strip rt (content m)).

Definition on_message (m : Message) : M unit unit :=
  when (author_bot m || negb (is_some (guild m))) (do_return tt) ;;
  st <- get_state ;;
  when (bool_decide (author_id m ∈ blocked_users st)) (do_return tt) ;;
  g <- the_guild m ;;
  let current_prefix := guild_prefix st g in
  mention_commands m ;;
  dynamic_detection m current_prefix.

End Bot.

Arguments apply_settings_file : simpl never.
Arguments blocked_embed : simpl never.
Arguments paused_embed : simpl never.
Arguments not_whitelisted_embed : simpl never.

(** ** The command gate against its specification *)

Inductive Reason := Blocked | Paused | NotWhitelisted.

Inductive Verdict :=
| Allowed
| Denied (reason : Reason) (lifetime : Z).

(** The whitelist of a guild; no entry is an empty whitelist. *)
Definition guild_whitelist (st : BotState) (guild : Z) : list Z :=
  default [] (whitelisted_channels st !! Py.str guild).

(** The gate as the specification words it: blocked, then paused, then a
    non-empty whitelist that lacks the channel; 15 seconds for a block and
    30 seconds for the other two. *)
Definition access_gate (st : BotState) (author guild channel : Z) : Verdict :=
  if bool_decide (author ∈ blocked_users st) then Denied Blocked 15
  else if bool_decide (guild ∈ paused_servers st) then Denied Paused 30
  else if bool_decide (guild_whitelist st guild ≠ [])
          && bool_decide (channel ∉ guild_whitelist st guild)
       then Denied NotWhitelisted 30
  else Allowed.

(** The configuration on record when the gate has read [file]: the lists
    of the settings document, a key that the document lacks keeping the value
    held in the settings dictionary; without a file nothing is blocked or
    paused, and the whitelist is the one in memory.  In the whitelist a later
    entry for a guild replaces an earlier one. *)
Definition recorded_blocked (file : option SettingsDoc) (st : BotState) : list Z :=
  match file with
  | Some doc => default (s_blocked (settings st)) (doc_blocked doc)
  | None => []
  end.

Definition recorded_paused (file : option SettingsDoc) (st : BotState) : list Z :=
  match file with
  | Some doc => default (s_paused (settings st)) (doc_paused doc)
  | None => []
  end.

Definition recorded_whitelist (file : option SettingsDoc) (st : BotState)
    : gmap string (list Z) :=
  match file with
  | Some doc =>
      list_to_map (reverse (default (s_whitelist (settings st)) (doc_whitelist doc)))
  | None => whitelisted_channels st
  end.

Definition gate_notice (ctx : Context) (g : Guild) (r : Reason) : Embed :=
  match r with
  | Blocked => blocked_embed (ctx_author ctx)
  | Paused => paused_embed g
  | NotWhitelisted => not_whitelisted_embed g (ctx_channel ctx)
  end.

Arguments activated_embed : simpl never.
Arguments deactivated_embed : simpl never.
Arguments already_inactive_embed : simpl never.
Arguments reload_embed : simpl never.
Arguments memory_error_embed : simpl never.
Arguments admin_only_embed : simpl never.

(** ** Observing executions *)

(** The calls to the intent heuristics. *)
Definition is_classification (ev : event) : bool :=
  match ev with
  | Ev c _ =>
      match c with
      | DetectGeneration _ | DetectEditing _ _ | DetectWebSearch _ | DetectMerge _ _ => true
      | _ => false
      end
  end.

(** The calls to the AI capabilities (NSFW check, generation, editing,
    merging, search, chat completion, download and analysis). *)
Definition is_capability (ev : event) : bool :=
  match ev with
  | Ev c _ =>
      match c with
      | ClassifyPrompt _ | GenerateImageMerge _ _ | GenerateImg2ImgWithRetry _ _ _
      | GenerateImage _ _ | GetValidSearchResults _ | LoadContextFiles
      | GenerateAiResponse _ _ _ | HttpGet _ | AnalyzeImage _
      | GenerateResponseWeb _ _ => true
      | _ => false
      end
  end.

Definition is_process_commands (ev : event) : bool :=
  match ev with
  | Ev c _ => match c with ProcessCommands => true | _ => false end
  end.

(** [is_channel_active] answered [True]. *)
Definition answered_active (ev : event) : bool :=
  match ev with
  | Ev c r =>
      match c in call X return reply X -> bool with
      | MemIsActive _ => fun r => match r with Ok true => true | _ => false end
      | _ => fun _ => false
      end r
  end.

(** Every execution of [p] satisfies [Q] on its trace and result. *)
Fixpoint wp {A} (p : prog A) (Q : list event -> A -> Prop) : Prop :=
  match p with
  | Ret a => Q [] a
  | Call c k => forall r, wp (k r) (fun t a => Q (Ev c r :: t) a)
  end.

(** Every execution of [m] has its trace in [T]. *)
Definition holds (T : list event -> Prop) {R A} (m : M R A) : Prop :=
  forall s, wp (m s) (fun t _ => T t).

(** Trace properties that hold of the empty trace and of the concatenation
    of two traces that have them. *)
Class Closed (T : list event -> Prop) : Prop := {
  closed_nil : T [];
  closed_app : forall t1 t2, T t1 -> T t2 -> T (t1 ++ t2)%list
}.

(** Every call of every execution of [m] satisfies [P]. *)
Abbreviation safe P := (holds (fun t => forallb P t = true)).

(** ** A concrete runtime and environment, to run the handlers *)

Module Sample.

Definition lower_char (c : ascii) : ascii :=
  let n := nat_of_ascii c in
  if (65 <=? n)%nat && (n <=? 90)%nat then ascii_of_nat (n + 32) else c.

Definition upper_char (c : ascii) : ascii :=
  let n := nat_of_ascii c in
  if (97 <=? n)%nat && (n <=? 122)%nat then ascii_of_nat (n - 32) else c.

Fixpoint lower_ascii (s : string) : string :=
  match s with
  | EmptyString => EmptyString
  | String c s' => String (lower_char c) (lower_ascii s')
  end.

Definition capitalize_ascii (s : string) : string :=
  match s with
  | EmptyString => EmptyString
  | String c s' => String (upper_char c) (lower_ascii s')
  end.

Definition is_space (c : ascii) : bool :=
  let n := nat_of_ascii c in
  (n =? 32)%nat || ((9 <=? n)%nat && (n <=? 13)%nat).

Fixpoint lstrip (s : string) : string :=
  match s with
  | EmptyString => EmptyString
  | String c s' => if is_space c then lstrip s' else s
  end.

Definition strip_ascii (s : string) : string :=
  String.rev (lstrip (String.rev (lstrip s))).

Definition is_word (c : ascii) : bool :=
  let n := nat_of_ascii c in
  ((48 <=? n)%nat && (n <=? 57)%nat) || ((65 <=? n)%nat && (n <=? 90)%nat)
  || ((97 <=? n)%nat && (n <=? 122)%nat) || (n =? 95)%nat.

Definition word_at (i : nat) (s : string) : bool :=
  match String.get i s with
  | Some c => is_word c
  | None => false
  end.

(** Removal of the whole word "merge", whatever its case. *)
Fixpoint sub_merge (skip : nat) (after_word : bool) (s : string) : string :=
  match s with
  | EmptyString => EmptyString
  | String c s' =>
      match skip with
      | S k => sub_merge k (is_word c) s'
      | O =>
          if negb after_word && String.prefix "merge" (lower_ascii s) && negb (word_at 5 s)
          then sub_merge 4 true s'
          else String c (sub_merge 0 (is_word c) s')
      end
  end.

Fixpoint digits (acc : Z) (s : string) : option Z :=
  match s with
  | EmptyString => Some acc
  | String c s' =>
      let n := nat_of_ascii c in
      if (48 <=? n)%nat && (n <=? 57)%nat
      then digits (10 * acc + Z.of_nat (n - 48)) s'
      else None
  end.

Definition parse_int (s : string) : option Z :=
  match s with
  | EmptyString => None
  | String "-" EmptyString => None
  | String "-" s' => Z.opp <$> digits 0 s'
  | _ => digits 0 s
  end.

Definition runtime : PyRuntime :=
  {| lower := lower_ascii; strip := strip_ascii;
     capitalize := capitalize_ascii;
     re_sub_merge := sub_merge 0 false;
     int_of_str := parse_int |}.

(** The defaults of the source: prefix "+", no owner, name "gacha". *)
Definition config : Config :=
  {| DEFAULT_PREFIX := "+"; OWNER_ID := 0; BOT_NAME := "gacha" |}.

Definition fresh_state : BotState :=
  {| settings := default_settings; pinging_enabled := ∅; blocked_users := ∅;
     paused_servers := ∅; whitelisted_channels := ∅; image_metadata := ∅;
     custom_prefixes := ∅ |}.

(** An environment in which every call succeeds with a plain answer: the
    memory cog is there, no channel is activated, the heuristics detect
    nothing, prompts are safe and the capabilities deliver. *)
Definition calm (X : Type) (c : call X) : reply X :=
  match c in call X return reply X with
  | FetchMessage _ _ => Fail (HTTPException 10008 "Unknown Message")
  | Reply _ => Ok tt
  | Send _ _ => Ok 9001
  | SendLongMessage _ _ _ => Ok tt
  | Typing _ => Ok tt
  | GetContextValid => Ok false
  | ProcessCommands => Ok (None, None)
  | GetMemory => Ok true
  | MemIsActive _ => Ok false
  | MemActivate _ => Ok tt
  | MemDeactivate _ => Ok tt
  | MemHasStm _ => Ok false
  | MemReset _ => Ok tt
  | DetectGeneration _ => Ok false
  | DetectEditing _ _ => Ok false
  | DetectWebSearch _ => Ok false
  | DetectMerge _ _ => Ok false
  | ClassifyPrompt _ => Ok "SAFE"
  | GenerateImageMerge _ _ => Ok (Some "png-bytes", "https://cdn/merged.png", None)
  | GenerateImg2ImgWithRetry _ _ _ => Ok (Some "png-bytes", "https://cdn/edited.png", None)
  | GenerateImage _ _ =>
      Ok (GenTuple (ImgData "png-bytes") (Some 424242) "https://cdn/generated.png" None)
  | GetValidSearchResults _ => Ok ""
  | LoadContextFiles => Ok ("instructions", "personality", "backstory")
  | GenerateAiResponse _ _ _ => Ok (Some "answer", None)
  | HttpGet _ => Ok (200, "png-bytes")
  | AnalyzeImage _ => Ok "a cat on a sofa"
  | GenerateResponseWeb _ _ => Ok "nice cat"
  | RandomEntropy => Ok 0
  | UtcNow => Ok ("2025-01-01", "2025-01-01 00:00:00.000000")
  | Print _ => Ok tt
  | ReadSettingsFile => Ok None
  end.

Definition calm_world : oracle := fun _ X c => calm X c.

Definition lobby : Guild :=
  {| guild_id := 77; guild_name := "Lobby";
     channels := [{| chan_id := 5; chan_is_text := true |}] |}.

(** A plain guild message by user 1000 in channel 5 of [lobby]. *)
Definition guild_message (text : string) : Message :=
  {| author_id := 1000; author_bot := false; author_administrator := false;
     guild := Some lobby; channel_id := 5; content := text;
     mentions_bot := false; attachments := []; reference := None |}.

End Sample.

(** ** Scenarios *)

Module Scenario.

Import Sample.

Definition png (name : string) : Attachment :=
  {| filename := name; url := "https://cdn/" ++ name |}.

(** An administrator mentions the bot in channel 5: "@bot deactivate". *)
Definition deactivate_request : Message :=
  {| author_id := 2000; author_bot := false; author_administrator := true;
     guild := Some lobby; channel_id := 5; content := "<@42> deactivate";
     mentions_bot := true; attachments := []; reference := None |}.

(** Channel activation is on: [is_channel_active] answers [True]. *)
Definition active_world : oracle :=
  fun _ X c =>
    match c in call X return reply X with
    | MemIsActive _ => Ok true
    | c' => calm _ c'
    end.

(** A direct message that names the bot. *)
Definition direct_message : Message :=
  {| author_id := 1000; author_bot := false; author_administrator := false;
     guild := None; channel_id := 8; content := "gacha hello";
     mentions_bot := false; attachments := []; reference := None |}.

Definition direct_command : Context :=
  {| ctx_guild := None; ctx_author := 1000; ctx_channel := 8 |}.

(** A command by user 1000 in channel 5 of [lobby]. *)
Definition lobby_command : Context :=
  {| ctx_guild := Some lobby; ctx_author := 1000; ctx_channel := 5 |}.

(** A settings file that blocks user 1000 and pauses guild 77. *)
Definition strict_file : SettingsDoc :=
  {| doc_logger := None; doc_paused := Some [77]; doc_blocked := Some [1000];
     doc_imgurl_enabled := None; doc_pinging_enabled := None;
     doc_whitelist := Some [("77", [6])] |}.

Definition strict_world : oracle :=
  fun _ X c =>
    match c in call X return reply X with
    | ReadSettingsFile => Ok (Some strict_file)
    | c' => calm _ c'
    end.

(** The generation heuristic fires. *)
Definition generation_world : oracle :=
  fun _ X c =>
    match c in call X return reply X with
    | DetectGeneration _ => Ok true
    | c' => calm _ c'
    end.

(** The generation heuristic fires and the channel is activated. *)
Definition active_generation_world : oracle :=
  fun _ X c =>
    match c in call X return reply X with
    | DetectGeneration _ => Ok true
    | MemIsActive _ => Ok true
    | c' => calm _ c'
    end.

(** Guild 77 is paused. *)
Definition paused_state : BotState :=
  {| settings := default_settings; pinging_enabled := ∅; blocked_users := ∅;
     paused_servers := {[77]}; whitelisted_channels := ∅; image_metadata := ∅;
     custom_prefixes := ∅ |}.

(** Guild 77 whitelists channel 6 only. *)
Definition whitelisted_state : BotState :=
  {| settings := default_settings; pinging_enabled := ∅; blocked_users := ∅;
     paused_servers := ∅; whitelisted_channels := {["77" := [6]]};
     image_metadata := ∅; custom_prefixes := ∅ |}.

(** User 1000 is blocked. *)
Definition blocking_state : BotState :=
  {| settings := default_settings; pinging_enabled := ∅; blocked_users := {[1000]};
     paused_servers := ∅; whitelisted_channels := ∅; image_metadata := ∅;
     custom_prefixes := ∅ |}.

(** A question about an attached picture, naming the bot. *)
Definition photo_question : Message :=
  {| author_id := 1000; author_bot := false; author_administrator := false;
     guild := Some lobby; channel_id := 5; content := "gacha what is this";
     mentions_bot := false; attachments := [png "cat.png"]; reference := None |}.

(** A picture without any text. *)
Definition photo_only : Message :=
  {| author_id := 1000; author_bot := false; author_administrator := false;
     guild := Some lobby; channel_id := 5; content := "";
     mentions_bot := false; attachments := [png "cat.png"]; reference := None |}.

(** "gacha draw this again" with a picture attached. *)
Definition photo_draw_request : Message :=
  {| author_id := 1000; author_bot := false; author_administrator := false;
     guild := Some lobby; channel_id := 5; content := "gacha draw this again";
     mentions_bot := false; attachments := [png "cat.png"]; reference := None |}.

(** The editing heuristic fires. *)
Definition editing_world : oracle :=
  fun _ X c =>
    match c in call X return reply X with
    | DetectEditing _ _ => Ok true
    | RandomEntropy => Ok 1234567
    | c' => calm _ c'
    end.

(** "gacha edit this" with one picture, and with two. *)
Definition photo_edit_request : Message :=
  {| author_id := 1000; author_bot := false; author_administrator := false;
     guild := Some lobby; channel_id := 5; content := "gacha edit this";
     mentions_bot := false; attachments := [png "cat.png"]; reference := None |}.

Definition photos_edit_request : Message :=
  {| author_id := 1000; author_bot := false; author_administrator := false;
     guild := Some lobby; channel_id := 5; content := "gacha edit this";
     mentions_bot := false; attachments := [png "a.png"; png "b.png"];
     reference := None |}.

(** Editing is wanted and the platform refuses every file as explicit. *)
Definition rejecting_world : oracle :=
  fun _ X c =>
    match c in call X return reply X with
    | DetectEditing _ _ => Ok true
    | Send _ o =>
        match out_files o with
        | [] => Ok 9002
        | _ => Fail (HTTPException 20009 "Cannot send explicit content")
        end
    | c' => calm _ c'
    end.

(** Editing is wanted and the edit of "b.png" fails. *)
Definition half_failing_world : oracle :=
  fun _ X c =>
    match c in call X return reply X with
    | DetectEditing _ _ => Ok true
    | GenerateImg2ImgWithRetry _ u _ =>
        if String.eqb u "https://cdn/b.png"
        then Ok (None, "", Some "model overloaded")
        else Ok (Some "png-bytes", "https://cdn/edited.png", None)
    | c' => calm _ c'
    end.

(** The local variables with which [photo_edit_request] reaches dispatch
    under [editing_world]. *)
Definition photo_edit_locals : Locals :=
  {| clean_message_content := "gacha edit this"; current_images := true;
     ref_has_images := false; total_image_count := 1; ref_msg := None;
     wants_generation := false; wants_editing := true;
     wants_web_search := false; wants_merge := false |}.

(** The local variables with which "gacha draw a cat" reaches dispatch
    under [generation_world]. *)
Definition draw_locals : Locals :=
  {| clean_message_content := "gacha draw a cat"; current_images := false;
     ref_has_images := false; total_image_count := 0; ref_msg := None;
     wants_generation := true; wants_editing := false;
     wants_web_search := false; wants_merge := false |}.

(** "gacha merge these" with a single picture. *)
Definition photo_merge_request : Message :=
  {| author_id := 1000; author_bot := false; author_administrator := false;
     guild := Some lobby; channel_id := 5; content := "gacha merge these";
     mentions_bot := false; attachments := [png "cat.png"]; reference := None |}.

(** The merge heuristic fires. *)
Definition merge_world : oracle :=
  fun _ X c =>
    match c in call X return reply X with
    | DetectMerge _ _ => Ok true
    | c' => calm _ c'
    end.

(** The local variables with which [photos_edit_request] reaches dispatch
    under [half_failing_world]. *)
Definition photos_edit_locals : Locals :=
  {| clean_message_content := "gacha edit this"; current_images := true;
     ref_has_images := false; total_image_count := 2; ref_msg := None;
     wants_generation := false; wants_editing := true;
     wants_web_search := false; wants_merge := false |}.

(** A member without rights mentions the bot: "@bot activate". *)
Definition member_activate_request : Message :=
  {| author_id := 1000; author_bot := false; author_administrator := false;
     guild := Some lobby; channel_id := 5; content := "<@42> activate";
     mentions_bot := true; attachments := []; reference := None |}.

(** A state with a block, a pause, a muted guild and a whitelist. *)
Definition tuned_state : BotState :=
  {| settings := default_settings;
     pinging_enabled := {[ 77 := false ]};
     blocked_users := {[ 1000 ]};
     paused_servers := {[ 78 ]};
     whitelisted_channels := {[ "77" := [5; 6] ]};
     image_metadata := ∅;
     custom_prefixes := ∅ |}.

(** Guild 77 has set the empty prefix. *)
Definition empty_prefix_state : BotState :=
  {| settings := default_settings; pinging_enabled := ∅; blocked_users := ∅;
     paused_servers := ∅; whitelisted_channels := ∅; image_metadata := ∅;
     custom_prefixes := {["77" := ""]} |}.





(** The channel is activated, the generation heuristic fires, and command
    processing leaves user 1000 blocked (as a reload of the settings by the
    command gate may). *)
Definition commands_world : oracle :=
  fun _ X c =>
    match c in call X return reply X with
    | ProcessCommands => Ok (Some blocking_state, None)
    | c' => active_generation_world 0%nat _ c'
    end.

End Scenario.

(** ** Classes of calls and shapes of traces *)

(** A call that is neither classification nor a capability call. *)
Definition undispatched (ev : event) : bool :=
  negb (is_classification ev || is_capability ev).

(** An undispatched call that does not hand over to command processing
    either. *)
Definition idle (ev : event) : bool :=
  undispatched ev && negb (is_process_commands ev).

Arguments mention_commands : simpl never.
Arguments dynamic_detection : simpl never.
Arguments classify : simpl never.
Arguments dispatch : simpl never.
Arguments should_respond_check : simpl never.
Arguments fetch_reference : simpl never.
Arguments has_whitelist : simpl never.
Arguments in_whitelist : simpl never.
Arguments guild_prefix : simpl never.

(** The name-keyword trigger cannot fire: the bot's name is absent from the
    text, or the guild has a non-empty whitelist that lacks the channel. *)
Definition not_eligible (rt : PyRuntime) (cfg : Config) (st : BotState)
    (m : Message) : Prop :=
  Py.contains (BOT_NAME cfg) (lower rt (content m)) = false \/
  exists g, guild m = Some g /\ has_whitelist st (Py.str (guild_id g)) = true /\
            in_whitelist st (Py.str (guild_id g)) (channel_id m) = false.

(** A message sent to the channel. *)
Definition is_send (ev : event) : bool :=
  match ev with
  | Ev c _ => match c with Send _ _ | SendLongMessage _ _ _ => true | _ => false end
  end.

Arguments handle_merge : simpl never.
Arguments handle_batch_edit : simpl never.
Arguments handle_single_edit : simpl never.
Arguments handle_missing_images : simpl never.
Arguments handle_generation : simpl never.
Arguments handle_web_search : simpl never.
Arguments handle_image_analysis : simpl never.
Arguments analysis_body : simpl never.
Arguments nsfw_check : simpl never.
Arguments send_rejected : simpl never.

(** The calls made before classification: command context, memory cog,
    mention replies and the resolution of a reply target. *)
Definition is_prelude (ev : event) : bool :=
  match ev with
  | Ev c _ =>
      match c with
      | FetchMessage _ _ | Reply _ | GetContextValid | GetMemory | MemIsActive _
      | MemActivate _ | MemDeactivate _ | MemHasStm _ | MemReset _ => true
      | _ => false
      end
  end.

(** The reply target was resolved and carries an image. *)
Definition fetched_with_images (rt : PyRuntime) (ev : event) : bool :=
  match ev with
  | Ev c r =>
      match c in call X return reply X -> bool with
      | FetchMessage _ _ =>
          fun r => match r with
                   | Ok fetched => has_images_in_message rt fetched
                   | Fail _ => false
                   end
      | _ => fun _ => false
      end r
  end.

Definition classification_events (clean : string) (any_images : bool) (total : nat)
    (g e s mg : bool) : list event :=
  [Ev (DetectGeneration clean) (Ok g);
   Ev (DetectEditing clean any_images) (Ok e);
   Ev (DetectWebSearch clean) (Ok s);
   Ev (DetectMerge clean total) (Ok mg)].

Definition classified (ev : event) : bool :=
  match ev with
  | Ev c r =>
      match c in call X return reply X -> bool with
      | DetectMerge _ _ => fun r => match r with Ok _ => true | Fail _ => false end
      | _ => fun _ => false
      end r
  end.

Definition before_dispatch (ev : event) : bool :=
  is_prelude ev || is_process_commands ev
  || (is_classification ev && negb (classified ev)).

Record reaches_dispatch (rt : PyRuntime) (m : Message) (pre : list event)
    (g : bool) (L : Locals) : Prop := {
  rd_pre : forallb is_prelude pre = true;
  rd_clean : clean_message_content L = strip rt (content m);
  rd_current : current_images L = has_images_in_message rt m;
  rd_ref : ref_has_images L
           = match ref_msg L with
             | Some r => has_images_in_message rt r
             | None => false
             end;
  rd_fetched : existsb (fetched_with_images rt) pre = ref_has_images L;
  rd_total : total_image_count L
             = match ref_msg L with
               | Some r => if has_images_in_message rt r
                           then (count_images_in_message rt m
                                 + count_images_in_message rt r)%nat
                           else count_images_in_message rt m
               | None => count_images_in_message rt m
               end;
  rd_generation : wants_generation L = g && negb (has_any_images L)
}.

(** The calls the dispatch blocks make. *)
Definition is_dispatch_call (ev : event) : bool :=
  match ev with
  | Ev c _ =>
      match c with
      | Send _ _ | SendLongMessage _ _ _ | Typing _ | ProcessCommands
      | ClassifyPrompt _ | GenerateImageMerge _ _ | GenerateImg2ImgWithRetry _ _ _
      | GenerateImage _ _ | GetValidSearchResults _ | LoadContextFiles
      | GenerateAiResponse _ _ _ | HttpGet _ | AnalyzeImage _
      | GenerateResponseWeb _ _ | RandomEntropy | UtcNow | Print _ => true
      | _ => false
      end
  end.

(** A step of the text-to-image branch: the generation call, or one of the
    "Generation Failed" notices. *)
Definition is_generation_step (ev : event) : bool :=
  match ev with
  | Ev c _ =>
      match c with
      | GenerateImage _ _ => true
      | Send _ o =>
          match out_embed o with
          | Some e => String.eqb (title e) "❌ Generation Failed"
          | None => false
          end
      | _ => false
      end
  end.

(** Two embeds with the same title and description. *)
Definition same_text (e e' : Embed) : bool :=
  String.eqb (title e) (title e') && String.eqb (description e) (description e').

(** A notice that only the text-to-image branch sends: that of its NSFW
    pre-check, and that for a picture the platform rejected.  (Its notices
    titled "Generation Failed" are among the steps above.) *)
Definition is_generation_send (ev : event) : bool :=
  match ev with
  | Ev c _ =>
      match c with
      | Send _ o =>
          match out_embed o with
          | Some e =>
              same_text e (nsfw_embed "generation request")
              || same_text e (content_blocked_embed "The generated image contains"
                                advice_prompt)
          | None => false
          end
      | _ => false
      end
  end.

(** A call of the dispatcher that is no step and no notice of the generation
    branch. *)
Definition outside_generation (ev : event) : bool :=
  is_dispatch_call ev && negb (is_generation_step ev) && negb (is_generation_send ev).

(** A call of the NSFW pre-check. *)
Definition is_nsfw_check (ev : event) : bool :=
  match ev with
  | Ev c _ => match c with ClassifyPrompt _ => true | _ => false end
  end.

(** The editing heuristic answered yes. *)
Definition editing_wanted (ev : event) : bool :=
  match ev with
  | Ev c r =>
      match c in call X return reply X -> bool with
      | DetectEditing _ _ => fun r => match r with Ok true => true | _ => false end
      | _ => fun _ => false
      end r
  end.

Arguments no_image_embed : simpl never.

(** The notices sent after the platform refused a result: the explicit
    content notice and the "Failed to send ..." notices. *)
Definition is_send_failure_notice (e : Embed) : bool :=
  String.eqb (title e) "🚫 Content Blocked"
  || Py.startswith "Failed to send" (description e).

(** A notice of the dispatcher has the lifetime the code gives it: none
    after a refused send, 30 seconds otherwise. *)
Definition notice_lifetime_ok (ev : event) : bool :=
  match ev with
  | Ev c _ =>
      match c with
      | Send _ o =>
          match out_embed o with
          | Some e =>
              if is_send_failure_notice e
              then negb (is_some (out_delete_after o))
              else match out_delete_after o with
                   | Some seconds => seconds =? 30
                   | None => false
                   end
          | None => true
          end
      | _ => true
      end
  end.

(** The answer of a draw of entropy. *)
Definition entropy_of (ev : event) : option Z :=
  match ev with
  | Ev c r =>
      match c in call X return reply X -> option Z with
      | RandomEntropy => fun r => match r with Ok e => Some e | Fail _ => None end
      | _ => fun _ => None
      end r
  end.

(** The seed handed to an edit call. *)
Definition edit_seed (ev : event) : option Z :=
  match ev with
  | Ev c _ =>
      match c with
      | GenerateImg2ImgWithRetry _ _ seed => Some seed
      | _ => None
      end
  end.

(** What [random.randint(100000, 999999)] makes of a draw. *)
Definition seed_of_entropy (e : Z) : Z := 100000 + e mod (999999 - 100000 + 1).

(** Every edit call of the trace comes right after a draw of its own, and
    its seed is the one made of that draw, within 100000..999999.  [prev]
    is the draw answered by the call just before the trace, if any. *)
Fixpoint seeded (prev : option Z) (t : list event) : bool :=
  match t with
  | [] => true
  | ev :: t' =>
      match edit_seed ev with
      | Some seed =>
          match prev with
          | Some e => (seed =? seed_of_entropy e) && (100000 <=? seed) && (seed <=? 999999)
          | None => false
          end
      | None => true
      end && seeded (entropy_of ev) t'
  end.

(** The seeds of the edit calls of a trace, in order. *)
Definition edit_seeds (t : list event) : list Z := omap edit_seed t.

(** A send of files that the platform accepted as message [id]. *)
Definition file_sent (id : Z) (ev : event) : bool :=
  match ev with
  | Ev c r =>
      match c in call X return reply X -> bool with
      | Send _ o =>
          fun r => match r with
                   | Ok sent => is_some (head (out_files o)) && (sent =? id)
                   | Fail _ => false
                   end
      | _ => fun _ => false
      end r
  end.

(** ** Further observations on executions *)

(** What a successful generation call handed back: the prompt it was given,
    and the seed and parameters that came with the image. *)
Definition generation_answer (ev : event) : option (string * option Z * option string) :=
  match ev with
  | Ev c r =>
      match c in call X return reply X -> option (string * option Z * option string) with
      | GenerateImage prompt _ =>
          fun r => match r with
                   | Ok (GenTuple (ImgData _) seed _ ai_params) =>
                       Some (prompt, seed, ai_params)
                   | _ => None
                   end
      | _ => fun _ => None
      end r
  end.

(** The merge heuristic answered yes. *)
Definition merge_wanted (ev : event) : bool :=
  match ev with
  | Ev c r =>
      match c in call X return reply X -> bool with
      | DetectMerge _ _ => fun r => match r with Ok true => true | _ => false end
      | _ => fun _ => false
      end r
  end.

Definition is_merge_call (ev : event) : bool :=
  match ev with
  | Ev c _ => match c with GenerateImageMerge _ _ => true | _ => false end
  end.

Definition is_draw (ev : event) : bool :=
  match ev with
  | Ev c _ => match c with RandomEntropy => true | _ => false end
  end.

Definition is_memory_call (ev : event) : bool :=
  match ev with
  | Ev c _ =>
      match c with
      | GetMemory | MemIsActive _ | MemActivate _ | MemDeactivate _
      | MemHasStm _ | MemReset _ => true
      | _ => false
      end
  end.

Definition is_reset (ev : event) : bool :=
  match ev with
  | Ev c _ => match c with MemReset _ => true | _ => false end
  end.

(** One of the three mention keywords occurs in the lowered text. *)
Definition has_mention_keyword (rt : PyRuntime) (m : Message) : bool :=
  Py.contains "activate" (lower rt (content m))
  || Py.contains "deactivate" (lower rt (content m))
  || Py.contains "wack" (lower rt (content m)).

(** The corrective notice for a merge request that lacks images. *)
Definition merge_shortfall_embed (images : nat) : Embed :=
  plain_embed (if (images =? 1)%nat
               then "❌ Need at least 2 images to merge"
               else "❌ Insufficient Images")
    merge_needs_two.

Arguments merge_shortfall_embed : simpl never.
Arguments generation_failed_embed : simpl never.

(** A merge call is given two image urls or more. *)
Definition merge_call_ok (ev : event) : bool :=
  match ev with
  | Ev c _ =>
      match c with
      | GenerateImageMerge _ urls => (2 <=? length urls)%nat
      | _ => true
      end
  end.

(** The calls of a mention command: the memory cog and the reply. *)
Definition is_mention_step (ev : event) : bool :=
  is_memory_call ev
  || match ev with
     | Ev c _ => match c with Reply _ => true | _ => false end
     end.

(** The memory cog was found. *)
Definition memory_available (ev : event) : bool :=
  match ev with
  | Ev c r =>
      match c in call X return reply X -> bool with
      | GetMemory => fun r => match r with Ok true => true | _ => false end
      | _ => fun _ => false
      end r
  end.

(** ** Settings, further: [save_settings] and [get_whitelist_str] *)

(** The [settings] dictionary after the four assignments of [save_settings],
    which is what [json.dump] receives.  [list(..)] of a set and the items of
    a dictionary are enumerated in the order of [elements] and [map_to_list];
    no property below depends on that order. *)
Definition saved_settings (st : BotState) : Settings :=
  {| s_logger := s_logger (settings st);
     s_paused := elements (paused_servers st);
     s_blocked := elements (blocked_users st);
     s_imgurl_enabled := s_imgurl_enabled (settings st);
     s_pinging_enabled :=
       (fun kv => (Py.str kv.1, kv.2)) <$> map_to_list (pinging_enabled st);
     s_whitelist := map_to_list (whitelisted_channels st) |}.

(** The document [json.load] returns for a file written from [s]: all six
    keys are present. *)
Definition settings_document (s : Settings) : SettingsDoc :=
  {| doc_logger := Some (s_logger s);
     doc_paused := Some (s_paused s);
     doc_blocked := Some (s_blocked s);
     doc_imgurl_enabled := Some (s_imgurl_enabled s);
     doc_pinging_enabled := Some (s_pinging_enabled s);
     doc_whitelist := Some (s_whitelist s) |}.

(** [get_whitelist_str] *)
Definition get_whitelist_str (st : BotState) (guild_id : Z) : string :=
  let guild_key := Py.str guild_id in
  match whitelisted_channels st !! guild_key with
  | Some (ch :: chs) => Py.join ", " (mention_channel <$> ch :: chs)
  | _ => "No channels whitelisted."
  end.

(** ** The start-up banner: [center_text] *)

(** [s * n] for a string and an integer: the empty string when [n <= 0].
    Strings are sequences of code points here, as [len] counts them. *)
Definition str_times {A} (s : list A) (n : Z) : list A :=
  mjoin (replicate (Z.to_nat n) s).

(** [center_text], the helper of [print_banner]; [//] rounds down. *)
Definition center_text {A} (text : list A) (width : Z) (fill_char : list A) : list A :=
  let text_len := Z.of_nat (length text) in
  let padding := width - text_len in
  let left_pad := padding `div` 2 in
  let right_pad := padding - left_pad in
  (str_times fill_char left_pad ++ text ++ str_times fill_char right_pad)%list.

(** ** Joining a guild: [on_guild_join] *)

(** A text channel of the guild joined, with
    [permissions_for(guild.me).send_messages]. *)
Record TextChannel := {
  tc_id : Z;
  tc_name : string;
  tc_send_messages : bool
}.

Record JoinedGuild := {
  jg_guild : Guild;
  text_channels : list TextChannel;
  system_channel : option TextChannel
}.

Definition preferred_names : list string :=
  ["general"; "chat"; "main"; "welcome"; "lobby"; "talk"].

(** ANSI colours of [colorama]. *)
Module Fore.
Definition esc : string := String (Ascii.ascii_of_nat 27) EmptyString.
Definition RED : string := esc ++ "[31m".
Definition GREEN : string := esc ++ "[32m".
Definition YELLOW : string := esc ++ "[33m".
Definition CYAN : string := esc ++ "[36m".
Definition RESET_ALL : string := esc ++ "[0m".
End Fore.

Section Join.

Variable rt : PyRuntime.
Variable cfg : Config.
(** [bot.user.name] *)
Variable bot_user_name : string.

Definition is_preferred (ch : TextChannel) : bool :=
  bool_decide (lower rt (tc_name ch) ∈ preferred_names).

(** The three searches that set [target_channel]: the first text channel
    with a preferred name the bot may write to, else the first text channel
    it may write to, else the system channel if it may write there. *)
Definition welcome_channel (g : JoinedGuild) : option TextChannel :=
  let target_channel :=
    List.find (fun ch => is_preferred ch && tc_send_messages ch) (text_channels g) in
  let target_channel :=
    match target_channel with
    | Some ch => Some ch
    | None => List.find tc_send_messages (text_channels g)
    end in
  match target_channel with
  | Some ch => Some ch
  | None =>
      match system_channel g with
      | Some ch => if tc_send_messages ch then Some ch else None
      | None => None
      end
  end.

(** The welcome embed; colour and thumbnail are left out. *)
Definition welcome_embed (g : Guild) (current_prefix : string) : Embed :=
  {| title := "👋 Hello " ++ guild_name g ++ "!";
     description :=
       "Thanks for adding **" ++ bot_user_name
       ++ "** to your server! I'm an AI-powered bot with chat, image generation, and web search capabilities.";
     fields :=
       [("🚀 Quick Start",
         "• **Mention me** `@" ++ bot_user_name ++ "` to chat with me" ++ Py.nl
         ++ "• **Activate full mode**: `@" ++ bot_user_name
         ++ " activate` to make me respond to every message" ++ Py.nl
         ++ "• **Get help**: `" ++ current_prefix
         ++ "help` or `/help` to see all commands");
        ("✨ Key Features",
         "🤖 **AI Chat** - Intelligent conversations with memory" ++ Py.nl
         ++ "🎨 **Image Generation** - Create images from text" ++ Py.nl
         ++ "🌐 **Web Search** - Real-time web search with AI responses" ++ Py.nl
         ++ "🔧 **Customizable** - Set custom prefixes, whitelist channels");
        ("🔧 Admin Commands",
         "`" ++ current_prefix ++ "setprefix <prefix>` - Change bot prefix" ++ Py.nl
         ++ "`" ++ current_prefix
         ++ "whitelist add/remove <channel>` - Manage allowed channels" ++ Py.nl
         ++ "`@" ++ bot_user_name ++ " activate/deactivate` - Toggle full response mode")];
     footer := Some ("Use " ++ current_prefix
                     ++ "help for a complete command list • Made with ❤️") |}.

Definition on_guild_join (g : JoinedGuild) : M unit unit :=
  try_except
    (match welcome_channel g with
     | Some target_channel =>
         st <- get_state ;;
         let current_prefix := guild_prefix cfg st (jg_guild g) in
         perform (Send (tc_id target_channel)
                    (send_embed (welcome_embed (jg_guild g) current_prefix)
                       false None None)) ;;
         perform (Print (Fore.GREEN ++ "✓ Sent welcome message to "
                         ++ guild_name (jg_guild g) ++ " in #"
                         ++ tc_name target_channel ++ Fore.RESET_ALL))
     | None =>
         perform (Print (Fore.YELLOW
                         ++ "⚠️ Could not find a suitable channel to send welcome message in "
                         ++ guild_name (jg_guild g) ++ Fore.RESET_ALL))
     end)
    any_exception
    (fun e =>
       perform (Print (Fore.RED ++ "✘ Error sending welcome message to "
                       ++ guild_name (jg_guild g) ++ ": " ++ exn_str e
                       ++ Fore.RESET_ALL))).

End Join.

Arguments welcome_embed : simpl never.
Arguments welcome_channel : simpl never.

(** ** Observations on the command gate *)

(** A notice that went out and removes itself: an embed sent with
    [delete_after], answered with the id of the new message. *)
Definition expiring_notice_sent (ev : event) : bool :=
  match ev with
  | Ev c r =>
      match c in call X return reply X -> bool with
      | Send _ o =>
          fun r => is_some (out_embed o) && is_some (out_delete_after o)
                   && match r with Ok _ => true | Fail _ => false end
      | _ => fun _ => false
      end r
  end.

(** The call was answered with exception [e]. *)
Definition failed_with (e : exn) (ev : event) : Prop :=
  match ev with
  | Ev c r => match r with Fail e' => e' = e | Ok _ => False end
  end.

(** ** Observations on the welcome *)

Definition is_print (ev : event) : bool :=
  match ev with
  | Ev c _ => match c with Print _ => true | _ => false end
  end.

(** An embed sent with no other argument, and the channel it went to. *)
Definition bare_embed_sent (ev : event) : option (Z * Embed) :=
  match ev with
  | Ev c _ =>
      match c with
      | Send channel o =>
          match o with
          | {| out_content := None; out_embed := Some e; out_files := [];
               out_reference := false; out_allowed_mentions := None;
               out_delete_after := None |} => Some (channel, e)
          | _ => None
          end
      | _ => None
      end
  end.

(** The channel an embed was sent to. *)
Definition embed_sent_to (ev : event) : option Z :=
  match ev with
  | Ev c _ =>
      match c with
      | Send channel o => if is_some (out_embed o) then Some channel else None
      | _ => None
      end
  end.

(** ** Further observations: merge, web search *)

(** The merge heuristic answered yes, for two images or more. *)
Definition merge_granted (ev : event) : bool :=
  match ev with
  | Ev c r =>
      match c in call X return reply X -> bool with
      | DetectMerge _ n =>
          fun r => match r with Ok true => (2 <=? n)%nat | _ => false end
      | _ => fun _ => false
      end r
  end.

(** A call of the merge branch. *)
Definition is_merge_step (ev : event) : bool :=
  match ev with
  | Ev c _ =>
      match c with
      | Typing _ | ClassifyPrompt _ | GenerateImageMerge _ _ | Send _ _ => true
      | _ => false
      end
  end.

(** The text of a web answer sent with [send_long_message]. *)
Definition long_message (ev : event) : option string :=
  match ev with
  | Ev c _ =>
      match c with
      | SendLongMessage _ text _ => Some text
      | _ => None
      end
  end.

(** The response of the chat model, when it came without an error. *)
Definition ai_response (ev : event) : option string :=
  match ev with
  | Ev c r =>
      match c in call X return reply X -> option string with
      | GenerateAiResponse _ _ _ =>
          fun r => match r with
                   | Ok (Some response, error) =>
                       if Py.truthy response && negb (Py.truthy_opt error)
                       then Some response else None
                   | _ => None
                   end
      | _ => fun _ => None
      end r
  end.

(** ** The state a block leaves *)

(** [s'] differs from [s] in the metadata store at most. *)
Definition same_configuration (s s' : BotState) : Prop :=
  settings s' = settings s /\
  pinging_enabled s' = pinging_enabled s /\
  blocked_users s' = blocked_users s /\
  paused_servers s' = paused_servers s /\
  whitelisted_channels s' = whitelisted_channels s /\
  custom_prefixes s' = custom_prefixes s.

(** The state that command processing left, when it changed the state. *)
Definition commands_left (ev : event) : option BotState :=
  match ev with
  | Ev c r =>
      match c in call X return reply X -> option BotState with
      | ProcessCommands =>
          fun r => match r with Ok (Some st', _) => Some st' | _ => None end
      | _ => fun _ => None
      end r
  end.

(** The state to compare with after the calls [t]: the one the last
    command processing left, and [st] if there is none. *)
Definition reference_state (st : BotState) (t : list event) : BotState :=
  default st (last (omap commands_left t)).

(** Every execution of [m] keeps the configuration of the reference state:
    what it changes, it changes in the metadata store or through command
    processing. *)
Definition tracks (st : BotState) {R A} (m : M R A) : Prop :=
  forall s t0,
    same_configuration (reference_state st t0) s ->
    wp (m s) (fun t cs => same_configuration (reference_state st (t0 ++ t)) cs.2).

(** ** Commands, files and shutdown *)

(** [get_prefix]: the prefix the command framework asks for a message. *)
Definition get_prefix (cfg : Config) (st : BotState) (m : Message) : string :=
  match guild m with
  | None => DEFAULT_PREFIX cfg
  | Some g => guild_prefix cfg st g
  end.

(** The calls of the commands and of the shutdown: those of the handler,
    the prefix file, the writing of the settings file and the closing of the
    AI sessions.  The prefix file is taken to hold an object of strings, as
    [save_prefixes] writes it. *)
Inductive syscall : Type -> Type :=
| Plain {X : Type} (c : call X) : syscall X
| PrefixFileExists : syscall bool                       (* os.path.exists(PREFIX_FILE) *)
| ReadPrefixFile : syscall (gmap string string)         (* open(.., "r") and json.load *)
| MakePrefixDir : syscall unit                          (* os.makedirs(.., exist_ok=True) *)
| WritePrefixFile (doc : gmap string string) : syscall unit  (* open(.., "w") and json.dump *)
| WriteSettingsFile (doc : Settings) : syscall unit
| ImportCleanupTask : syscall bool   (* the import in [cleanup]; [false]: ImportError *)
| ShutdownCleanupTask : syscall unit.

Inductive sprog (A : Type) : Type :=
| SRet (a : A)
| SCall {X : Type} (c : syscall X) (k : reply X -> sprog A).
Arguments SRet {A} a.
Arguments SCall {A X} c k.

Fixpoint spbind {A B} (p : sprog A) (k : A -> sprog B) : sprog B :=
  match p with
  | SRet a => k a
  | SCall c f => SCall c (fun r => spbind (f r) k)
  end.

(** A block of the handler's kind, run among these calls. *)
Fixpoint lift_prog {A} (p : prog A) : sprog A :=
  match p with
  | Ret a => SRet a
  | Call c k => SCall (Plain c) (fun r => lift_prog (k r))
  end.

Definition SM (R A : Type) : Type := BotState -> sprog (ctl R A * BotState).

Definition lift {R A} (m : M R A) : SM R A := fun s => lift_prog (m s).

Definition sbind {R A B} (m : SM R A) (k : A -> SM R B) : SM R B :=
  fun s => spbind (m s) (fun cs =>
    match cs with
    | (Normal a, s') => k a s'
    | (Returned r, s') => SRet (Returned r, s')
    | (Raised e, s') => SRet (Raised e, s')
    end).

Definition sperform {R X} (c : syscall X) : SM R X :=
  fun s => SCall c (fun r =>
    match r with
    | Ok x => SRet (Normal x, s)
    | Fail e => SRet (Raised e, s)
    end).

Definition stry_except {R A} (body : SM R A) (catches : exn -> bool)
    (handler : exn -> SM R A) : SM R A :=
  fun s => spbind (body s) (fun cs =>
    match cs with
    | (Raised e, s') => if catches e then handler e s' else SRet (Raised e, s')
    | other => SRet other
    end).

Declare Scope sys_scope.
Delimit Scope sys_scope with sys.
Notation "x <- c ;; k" := (sbind c (fun x => k))
  (at level 100, c at next level, right associativity) : sys_scope.
Notation "c ;; k" := (sbind c (fun _ => k))
  (at level 100, right associativity) : sys_scope.

Definition swhen {R} (cond : bool) (body : SM R unit) : SM R unit :=
  if cond then body else lift (ret tt).

Inductive sevent : Type :=
| SEv {X : Type} (c : syscall X) (r : reply X).

Definition soracle : Type := nat -> forall X, syscall X -> reply X.

Fixpoint srun {A} (w : soracle) (n : nat) (p : sprog A) : list sevent * A :=
  match p with
  | SRet a => ([], a)
  | SCall c k =>
      let r := w n _ c in
      let res := srun w (S n) (k r) in
      (SEv c r :: res.1, res.2)
  end.

(** Every execution of [p] satisfies [Q] on its trace and result. *)
Fixpoint swp {A} (p : sprog A) (Q : list sevent -> A -> Prop) : Prop :=
  match p with
  | SRet a => Q [] a
  | SCall c k => forall r, swp (k r) (fun t a => Q (SEv c r :: t) a)
  end.

(** The invocation of a command: its context, [str(ctx.author)] and
    [ctx.message.content]. *)
Record Invocation := {
  inv_ctx : Context;
  inv_author : string;
  inv_content : string
}.

(** Errors of the command framework, by the classes the handlers test. *)
Inductive CommandError :=
| CommandNotFound (text : string)
| MissingRequiredArgument (param_name text : string)
| BadArgument (text : string)
| CommandOnCooldown (retry_after_2f text : string)  (* the delay, printed [:.2f] *)
| MissingPermissions (text : string)                (* a [CheckFailure] *)
| CheckFailure (text : string)
| OtherCommandError (text : string).

(** [str(error)] *)
Definition error_str (error : CommandError) : string :=
  match error with
  | CommandNotFound t | MissingRequiredArgument _ t | BadArgument t
  | CommandOnCooldown _ t | MissingPermissions t | CheckFailure t
  | OtherCommandError t => t
  end.

(** [ctx.send(text)] *)
Definition send_plain (text : string) : Outgoing :=
  {| out_content := Some text; out_embed := None; out_files := [];
     out_reference := false; out_allowed_mentions := None;
     out_delete_after := None |}.

Section Commands.

Variable cfg : Config.
(** [len(s)]: the number of code points of [s]. *)
Variable len : string -> nat.

Local Open Scope sys_scope.

Definition with_prefixes (st : BotState) (p : gmap string string) : BotState :=
  {| settings := settings st;
     pinging_enabled := pinging_enabled st;
     blocked_users := blocked_users st;
     paused_servers := paused_servers st;
     whitelisted_channels := whitelisted_channels st;
     image_metadata := image_metadata st;
     custom_prefixes := p |}.

Definition with_settings (st : BotState) (s : Settings) : BotState :=
  {| settings := s;
     pinging_enabled := pinging_enabled st;
     blocked_users := blocked_users st;
     paused_servers := paused_servers st;
     whitelisted_channels := whitelisted_channels st;
     image_metadata := image_metadata st;
     custom_prefixes := custom_prefixes st |}.

(** [custom_prefixes = p] and [custom_prefixes[key] = value] *)
Definition set_custom_prefixes {R} (p : gmap string string) : SM R unit :=
  st <- lift get_state ;; lift (put_state (with_prefixes st p)).

Definition load_prefixes {R} : SM R unit :=
  stry_except
    (found <- sperform PrefixFileExists ;;
     swhen found
       (doc <- sperform ReadPrefixFile ;; set_custom_prefixes doc))
    any_exception
    (fun e =>
       sperform (Plain (Print (Fore.YELLOW
                               ++ "⚠️ Warning: Could not load custom prefixes: "
                               ++ exn_str e ++ Fore.RESET_ALL))) ;;
       set_custom_prefixes ∅).

Definition save_prefixes {R} : SM R unit :=
  stry_except
    (sperform MakePrefixDir ;;
     st <- lift get_state ;;
     sperform (WritePrefixFile (custom_prefixes st)))
    any_exception
    (fun e =>
       sperform (Plain (Print (Fore.RED
                               ++ "❌ Error: Could not save custom prefixes: "
                               ++ exn_str e ++ Fore.RESET_ALL)))).

Definition save_settings {R} : SM R unit :=
  st <- lift get_state ;;
  lift (put_state (with_settings st (saved_settings st))) ;;
  sperform (WriteSettingsFile (saved_settings st)).

(** [ctx.guild.<attr>]: an attribute access on [None] raises. *)
Definition ctx_the_guild {R} (ctx : Context) (attr : string) : SM R Guild :=
  match ctx_guild ctx with
  | Some g => lift (ret g)
  | None =>
      lift (raise (AttributeError ("'NoneType' object has no attribute '" ++ attr ++ "'")))
  end.

Definition ctx_send_text {R} (ctx : Context) (text : string) : SM R Z :=
  sperform (Plain (Send (ctx_channel ctx) (send_plain text))).

(** The body of the [setprefix] command; the permission check is the
    framework's. *)
Definition set_prefix (inv : Invocation) (new_prefix : option string) : SM unit unit :=
  let ctx := inv_ctx inv in
  match new_prefix with
  | None =>
      g <- ctx_the_guild ctx "id" ;;
      st <- lift get_state ;;
      let current_prefix := guild_prefix cfg st g in
      ctx_send_text ctx ("Current prefix: `" ++ current_prefix ++ "`" ++ Py.nl
                         ++ "Use `" ++ current_prefix
                         ++ "setprefix <new_prefix>` to change it.") ;;
      lift (do_return tt)
  | Some new_prefix =>
      swhen (5 <? len new_prefix)%nat
        (ctx_send_text ctx "Prefix must be 5 characters or less." ;;
         lift (do_return tt)) ;;
      g <- ctx_the_guild ctx "id" ;;
      st <- lift get_state ;;
      lift (put_state
              (with_prefixes st (<[Py.str (guild_id g) := new_prefix]> (custom_prefixes st)))) ;;
      save_prefixes ;;
      ctx_send_text ctx ("Prefix has been set to `" ++ new_prefix
                         ++ "` for this server.") ;;
      st <- lift get_state ;;
      swhen (s_logger (settings st))
        (sperform (Plain (Print (Fore.YELLOW ++ "[LOG] " ++ inv_author inv ++ " ("
                                 ++ Py.str (ctx_author ctx) ++ ") set prefix to '"
                                 ++ new_prefix ++ "' in " ++ guild_name g ++ " ("
                                 ++ Py.str (guild_id g) ++ ")" ++ Fore.RESET_ALL))))
  end.

Definition missing_argument_embed (param_name : string) : Embed :=
  {| title := "Missing Required Argument";
     description := "Parameter: " ++ param_name;
     fields := []; footer := None |}.

Definition on_command_error (inv : Invocation) (error : CommandError) : SM unit unit :=
  let ctx := inv_ctx inv in
  st <- lift get_state ;;
  swhen (s_logger (settings st))
    (sperform (Plain (Print (Fore.RED ++ "[ERR] Command '" ++ inv_content inv
                             ++ "' by " ++ inv_author inv ++ " ("
                             ++ Py.str (ctx_author ctx) ++ ") failed: "
                             ++ error_str error ++ Fore.RESET_ALL)))) ;;
  match error with
  | CommandNotFound _ => lift (do_return tt)
  | MissingRequiredArgument param_name _ =>
      lift (ctx_send ctx (missing_argument_embed param_name) 30) ;; lift (ret tt)
  | BadArgument _ =>
      ctx_send_text ctx ("Bad argument: " ++ error_str error) ;; lift (ret tt)
  | CommandOnCooldown retry_after_2f _ =>
      ctx_send_text ctx ("Command on cooldown. Try again in " ++ retry_after_2f
                         ++ " seconds.") ;;
      lift (ret tt)
  | MissingPermissions _ | CheckFailure _ => lift (do_return tt)
  | OtherCommandError _ =>
      ctx_send_text ctx ("An error occurred: " ++ error_str error) ;; lift (ret tt)
  end.

(** The protected block of [cleanup]; the result is [false] when the
    import failed with [ImportError].  The print of the [except ImportError]
    clause is made by [cleanup] outside the protected block, as the clauses of
    a [try] do not protect one another.  An [ImportError] raised by the task
    itself is not told apart from its other exceptions. *)
Definition close_sessions : SM unit bool :=
  stry_except
    (imported <- sperform ImportCleanupTask ;;
     swhen imported
       (sperform ShutdownCleanupTask ;;
        sperform (Plain (Print (Fore.GREEN ++ "✓ Successfully closed all AI sessions"
                                ++ Fore.RESET_ALL)))) ;;
     lift (ret imported))
    any_exception
    (fun e =>
       sperform (Plain (Print (Fore.RED ++ "✘ Error during AI session cleanup: "
                               ++ exn_str e ++ Fore.RESET_ALL))) ;;
       lift (ret true)).

Definition save_all : SM unit unit :=
  save_settings ;;
  save_prefixes ;;
  sperform (Plain (Print (Fore.GREEN ++ "✓ All settings saved" ++ Fore.RESET_ALL))).

Definition cleanup : SM unit unit :=
  imported <- close_sessions ;;
  swhen (negb imported)
    (sperform (Plain (Print (Fore.YELLOW
                             ++ "⚠ No shutdown_cleanup_task found in ai.py, skipping session close"
                             ++ Fore.RESET_ALL)))) ;;
  save_all.

End Commands.

Arguments save_prefixes : simpl never.
Arguments save_settings : simpl never.

(** ** Observing the commands *)

Definition strace_of {A} (w : soracle) (p : sprog A) : list sevent := (srun w 0%nat p).1.

Definition sfinal_state {R A} (w : soracle) (p : sprog (ctl R A * BotState)) : BotState :=
  (srun w 0%nat p).2.2.

Definition soutcome {R A} (w : soracle) (p : sprog (ctl R A * BotState)) : ctl R A :=
  (srun w 0%nat p).2.1.

(** A write of the prefix file, with the object written. *)
Definition prefix_write (ev : sevent) : option (gmap string string) :=
  match ev with
  | SEv c _ => match c with WritePrefixFile doc => Some doc | _ => None end
  end.

(** A message sent by a command. *)
Definition is_command_send (ev : sevent) : bool :=
  match ev with
  | SEv c _ =>
      match c with
      | Plain c' => match c' with Send _ _ => true | _ => false end
      | _ => false
      end
  end.

Definition is_command_print (ev : sevent) : bool :=
  match ev with
  | SEv c _ =>
      match c with
      | Plain c' => match c' with Print _ => true | _ => false end
      | _ => false
      end
  end.

(** A print that was answered with an exception. *)
Definition print_failed (ev : sevent) : bool :=
  match ev with
  | SEv c r =>
      is_command_print (SEv c r) && match r with Fail _ => true | Ok _ => false end
  end.

(** All custom prefixes have five code points or less. *)
Definition prefixes_short (len : string -> nat) (st : BotState) : Prop :=
  map_Forall (fun _ p => (len p <= 5)%nat) (custom_prefixes st).

(** A write of the settings file, with the dictionary written and whether
    the write went through. *)
Definition settings_write (ev : sevent) : option (Settings * bool) :=
  match ev with
  | SEv c r =>
      match c with
      | WriteSettingsFile doc =>
          Some (doc, match r with Ok _ => true | Fail _ => false end)
      | _ => None
      end
  end.

(** The classes of error that [on_command_error] passes over in silence. *)
Definition is_silenced (error : CommandError) : bool :=
  match error with
  | CommandNotFound _ | MissingPermissions _ | CheckFailure _ => true
  | _ => false
  end.

(** ** A concrete environment for the commands *)

Module Desk.

(** Every file operation succeeds; the prefix file gives guild 77 the
    prefix "!". *)
Definition quiet (X : Type) (c : syscall X) : reply X :=
  match c in syscall X return reply X with
  | Plain c' => Sample.calm _ c'
  | PrefixFileExists => Ok true
  | ReadPrefixFile => Ok {[ "77" := "!" ]}
  | MakePrefixDir => Ok tt
  | WritePrefixFile _ => Ok tt
  | WriteSettingsFile _ => Ok tt
  | ImportCleanupTask => Ok true
  | ShutdownCleanupTask => Ok tt
  end.

Definition quiet_world : soracle := fun _ X c => quiet X c.

(** The disk is full and the AI sessions do not close. *)
Definition failing_world : soracle :=
  fun _ X c =>
    match c in syscall X return reply X with
    | WritePrefixFile _ => Fail (OtherException "No space left on device")
    | WriteSettingsFile _ => Fail (OtherException "No space left on device")
    | ShutdownCleanupTask => Fail (OtherException "session is closed")
    | c' => quiet _ c'
    end.

(** User 1000 ("ann") invokes [setprefix] in channel 5 of the lobby. *)
Definition setprefix_invocation : Invocation :=
  {| inv_ctx := Scenario.lobby_command; inv_author := "ann";
     inv_content := "+setprefix !" |}.

End Desk.

(** ** Names and objects *)

(** [custom_prefixes] and [settings] are rebound by [load_prefixes] and by
    the branch of [load_settings] for a missing file, while the bot object
    keeps the objects it was given; the other collections are only ever
    changed in place.  Here the dictionaries have an identity: a store of
    prefix tables by identity, and the identities that the two module
    globals and the two attributes of the bot name. *)
Record Names := {
  next_id : nat;                              (* the next new object *)
  prefix_tables : gmap nat (gmap string string);
  custom_prefixes_id : nat;                   (* the global [custom_prefixes] *)
  settings_id : nat;                          (* the global [settings] *)
  bot_custom_prefixes_id : nat;               (* [bot.custom_prefixes] *)
  bot_settings_id : nat                       (* [bot.settings] *)
}.

(** What [load_prefixes] finds. *)
Inductive PrefixFile :=
| NoPrefixFile
| PrefixDocument (doc : gmap string string)
| UnreadablePrefixFile.   (* the read failed and the warning was printed *)

(** The module once imported: [custom_prefixes = {}], [settings = {..}],
    [bot.custom_prefixes = custom_prefixes], [bot.settings = settings]. *)
Definition module_start : Names :=
  {| next_id := 2; prefix_tables := {[ 0%nat := ∅ ]};
     custom_prefixes_id := 0; settings_id := 1;
     bot_custom_prefixes_id := 0; bot_settings_id := 1 |}.

(** [custom_prefixes = <a new dictionary>] *)
Definition rebind_custom_prefixes (d : gmap string string) (s : Names) : Names :=
  {| next_id := S (next_id s);
     prefix_tables := <[next_id s := d]> (prefix_tables s);
     custom_prefixes_id := next_id s;
     settings_id := settings_id s;
     bot_custom_prefixes_id := bot_custom_prefixes_id s;
     bot_settings_id := bot_settings_id s |}.

(** [load_prefixes] on the names. *)
Definition load_prefixes_names (file : PrefixFile) (s : Names) : Names :=
  match file with
  | NoPrefixFile => s
  | PrefixDocument doc => rebind_custom_prefixes doc s
  | UnreadablePrefixFile => rebind_custom_prefixes ∅ s
  end.

(** [load_settings] on the names: an existing file is merged into the
    dictionary in place, a missing one makes [settings] a new dictionary. *)
Definition load_settings_names (file_exists : bool) (s : Names) : Names :=
  if file_exists then s
  else {| next_id := S (next_id s);
          prefix_tables := prefix_tables s;
          custom_prefixes_id := custom_prefixes_id s;
          settings_id := next_id s;
          bot_custom_prefixes_id := bot_custom_prefixes_id s;
          bot_settings_id := bot_settings_id s |}.

(** [attach_settings_to_bot]: of the two names, [bot.settings] alone. *)
Definition attach_settings_to_bot (s : Names) : Names :=
  {| next_id := next_id s;
     prefix_tables := prefix_tables s;
     custom_prefixes_id := custom_prefixes_id s;
     settings_id := settings_id s;
     bot_custom_prefixes_id := bot_custom_prefixes_id s;
     bot_settings_id := settings_id s |}.

(** The first three statements of [on_ready]. *)
Definition on_ready_names (prefix_file : PrefixFile) (settings_file_exists : bool)
    (s : Names) : Names :=
  attach_settings_to_bot
    (load_settings_names settings_file_exists (load_prefixes_names prefix_file s)).

(** [custom_prefixes[key] = value] in [set_prefix]: the object is changed
    in place. *)
Definition store_prefix (s : Names) (kv : string * string) : Names :=
  {| next_id := next_id s;
     prefix_tables :=
       <[custom_prefixes_id s :=
           <[kv.1 := kv.2]> (default ∅ (prefix_tables s !! custom_prefixes_id s))]>
         (prefix_tables s);
     custom_prefixes_id := custom_prefixes_id s;
     settings_id := settings_id s;
     bot_custom_prefixes_id := bot_custom_prefixes_id s;
     bot_settings_id := bot_settings_id s |}.

(** The table read through [custom_prefixes] and through
    [bot.custom_prefixes]. *)
Definition global_table (s : Names) : gmap string string :=
  default ∅ (prefix_tables s !! custom_prefixes_id s).

Definition bot_table (s : Names) : gmap string string :=
  default ∅ (prefix_tables s !! bot_custom_prefixes_id s).

(** * Properties *)

(** ** C7: the command gate *)

Lemma whitelist_test_spec st guild channel :
  has_whitelist st (Py.str guild) && negb (in_whitelist st (Py.str guild) channel)
  = bool_decide (guild_whitelist st guild ≠ [])
    && bool_decide (channel ∉ guild_whitelist st guild).
Proof.
  unfold has_whitelist, in_whitelist, guild_whitelist.
  destruct (whitelisted_channels st !! Py.str guild) as [[|x l]|]; cbn; try done.
  destruct (decide (channel ∈ x :: l)) as [Hin|Hin].
  - rewrite (bool_decide_eq_true_2 _ Hin). cbn.
    symmetry. apply bool_decide_eq_false_2. tauto.
  - rewrite (bool_decide_eq_false_2 _ Hin). cbn.
    symmetry. by apply bool_decide_eq_true_2.
Qed.

Lemma fold_left_insert `{Countable K} {V} (l : list (K * V)) (acc : gmap K V) :
  fold_left (fun acc kv => <[kv.1 := kv.2]> acc) l acc
  = list_to_map (reverse l) ∪ acc.
Proof.
  revert acc. induction l as [|[k v] l IH]; intros acc.
  - cbn. by rewrite (left_id_L ∅ (∪)).
  - cbn [fold_left]. rewrite IH, reverse_cons, list_to_map_app. cbn.
    rewrite <- (assoc_L (∪)). f_equal.
    by rewrite <- insert_union_l, (left_id_L ∅ (∪)).
Qed.

Lemma reloaded_configuration (rt : PyRuntime) (file : option SettingsDoc)
    (st : BotState) :
  let st1 := apply_settings_file rt file st in
  blocked_users st1 = list_to_set (recorded_blocked file st) /\
  paused_servers st1 = list_to_set (recorded_paused file st) /\
  whitelisted_channels st1 = recorded_whitelist file st.
Proof.
  unfold apply_settings_file, recorded_blocked, recorded_paused, recorded_whitelist.
  destruct file as [doc|]; cbn; [|done].
  split; [done|]. split; [done|].
  unfold load_whitelist. by rewrite fold_left_insert, (right_id_L ∅ (∪)).
Qed.

(** C7. A command invoked in a guild first reloads the persisted settings,
    then is judged on the reloaded state: after the reload the block list,
    the pause set and the whitelist are those on record in the settings file
    just read; a blocked author is refused with a notice removed after 15
    seconds, a paused guild with a notice removed after 30 seconds, a channel
    outside a non-empty whitelist with a notice removed after 30 seconds, in
    that order; otherwise the check returns [True]. *)
Theorem global_command_check_gate (rt : PyRuntime) (w : oracle) (st : BotState)
    (ctx : Context) (g : Guild) (file : option SettingsDoc) :
  ctx_guild ctx = Some g ->
  w 0%nat _ ReadSettingsFile = Ok file ->
  let st1 := apply_settings_file rt file st in
  let p := global_command_check rt ctx st in
  final_state w p = st1 /\
  blocked_users (final_state w p) = list_to_set (recorded_blocked file st) /\
  paused_servers (final_state w p) = list_to_set (recorded_paused file st) /\
  whitelisted_channels (final_state w p) = recorded_whitelist file st /\
  match access_gate (final_state w p) (ctx_author ctx) (guild_id g) (ctx_channel ctx) with
  | Allowed =>
      trace_of w p = [Ev ReadSettingsFile (Ok file)] /\ outcome w p = Returned true
  | Denied r lifetime =>
      exists ans,
        trace_of w p =
          [Ev ReadSettingsFile (Ok file);
           Ev (Send (ctx_channel ctx)
                 (send_embed (gate_notice ctx g r) false None (Some lifetime))) ans]
        /\ outcome w p = match ans with
                         | Ok _ => Returned false
                         | Fail e => Raised e
                         end
  end.
Proof.
  intros Hg Hfile st1 p. subst p.
  destruct (reloaded_configuration rt file st) as (Hb & Hp & Hw). fold st1 in Hb, Hp, Hw.
  assert (Hst : final_state w (global_command_check rt ctx st) = st1).
  { unfold final_state, result_of.
    unfold global_command_check, load_settings, ctx_send, when, bind, perform,
      get_state, put_state, do_return, ret.
    rewrite Hg. cbn. rewrite Hfile. cbn. fold st1.
    destruct (bool_decide (ctx_author ctx ∈ blocked_users st1)); cbn.
    { by destruct (w 1%nat Z _). }
    destruct (bool_decide (guild_id g ∈ paused_servers st1)); cbn.
    { by destruct (w 1%nat Z _). }
    destruct (has_whitelist st1 (Py.str (guild_id g))); cbn; [|done].
    destruct (in_whitelist st1 (Py.str (guild_id g)) (ctx_channel ctx)); cbn; [done|].
    by destruct (w 1%nat Z _). }
  rewrite Hst. split; [done|]. split; [exact Hb|]. split; [exact Hp|].
  split; [exact Hw|].
  unfold outcome, trace_of, result_of, access_gate.
  pose proof (whitelist_test_spec st1 (guild_id g) (ctx_channel ctx)) as Hwl.
  unfold global_command_check, load_settings, ctx_send, when, bind, perform,
    get_state, put_state, do_return, ret.
  rewrite Hg. cbn. rewrite Hfile. cbn. fold st1.
  destruct (bool_decide (ctx_author ctx ∈ blocked_users st1)); cbn.
  { destruct (w 1%nat Z _); cbn; eexists; done. }
  destruct (bool_decide (guild_id g ∈ paused_servers st1)); cbn.
  { destruct (w 1%nat Z _); cbn; eexists; done. }
  rewrite <- Hwl.
  destruct (has_whitelist st1 (Py.str (guild_id g))); cbn; [|done].
  destruct (in_whitelist st1 (Py.str (guild_id g)) (ctx_channel ctx)); cbn; [done|].
  destruct (w 1%nat Z _); cbn; eexists; done.
Qed.

(** C7, at a concrete command: user 1000 is blocked by the settings file
    just read and by nothing in memory; after the reload the block list,
    the pause set and the whitelist are those of the file, and the command is
    refused with the 15 second notice. *)
Lemma global_command_check_gate_witness :
  let w := Scenario.strict_world in
  let ctx := Scenario.lobby_command in
  let p := global_command_check Sample.runtime ctx Sample.fresh_state in
  ctx_guild ctx = Some Sample.lobby /\
  w 0%nat _ ReadSettingsFile = Ok (Some Scenario.strict_file) /\
  blocked_users Sample.fresh_state = ∅ /\
  blocked_users (final_state w p) = list_to_set [1000] /\
  paused_servers (final_state w p) = list_to_set [77] /\
  whitelisted_channels (final_state w p) = list_to_map [("77", [6])] /\
  exists ans,
    trace_of w p =
      [Ev ReadSettingsFile (Ok (Some Scenario.strict_file));
       Ev (Send 5 (send_embed (blocked_embed 1000) false None (Some 15))) ans]
    /\ outcome w p = match ans with
                     | Ok _ => Returned false
                     | Fail e => Raised e
                     end.
Proof.
  intros w ctx p.
  split; [reflexivity|]. split; [reflexivity|]. split; [reflexivity|].
  destruct (global_command_check_gate Sample.runtime Scenario.strict_world
              Sample.fresh_state Scenario.lobby_command Sample.lobby
              (Some Scenario.strict_file) eq_refl eq_refl)
    as (_ & Hb & Hp & Hw & Hgate).
  split; [exact Hb|]. split; [exact Hp|]. split; [exact Hw|].
  exact Hgate.
Defined.

(** ** Reasoning about executions *)

Lemma wp_mono {A} (p : prog A) (Q Q' : list event -> A -> Prop) :
  (forall t a, Q t a -> Q' t a) -> wp p Q -> wp p Q'.
Proof.
  revert Q Q'. induction p as [a|X c k IH]; cbn; intros Q Q' HQ Hp.
  - by apply HQ.
  - intros r. eapply IH; [|apply Hp]. cbn. intros t a. apply HQ.
Qed.

(** A run under any environment is one of the executions [wp] speaks of. *)
Lemma wp_run {A} (p : prog A) (Q : list event -> A -> Prop) (w : oracle) (n : nat) :
  wp p Q -> Q (run w n p).1 (run w n p).2.
Proof.
  revert Q n. induction p as [a|X c k IH]; cbn; intros Q n Hp; [done|].
  specialize (IH _ _ (S n) (Hp (w n X c))).
  by destruct (run w (S n) (k (w n X c))).
Qed.

Lemma wp_pbind {A B} (p : prog A) (k : A -> prog B) (Q : list event -> B -> Prop) :
  wp p (fun t a => wp (k a) (fun t' b => Q (t ++ t')%list b)) -> wp (pbind p k) Q.
Proof.
  revert Q. induction p as [a|X c f IH]; cbn; intros Q Hp; [done|].
  intros r. apply IH, Hp.
Qed.

Lemma wp_bind {R A B} (m : M R A) (k : A -> M R B) (s : BotState)
    (Q : list event -> ctl R B * BotState -> Prop) :
  wp (m s) (fun t cs =>
              match cs with
              | (Normal a, s') => wp (k a s') (fun t' r => Q (t ++ t')%list r)
              | (Returned r, s') => Q t (Returned r, s')
              | (Raised e, s') => Q t (Raised e, s')
              end) ->
  wp (bind m k s) Q.
Proof.
  intros Hm. unfold bind. apply wp_pbind. eapply wp_mono; [|exact Hm].
  intros t [[a|r|e] s']; cbn; rewrite ?app_nil_r; auto.
Qed.

Lemma wp_try_except {R A} (body : M R A) (catches : exn -> bool)
    (handler : exn -> M R A) (s : BotState)
    (Q : list event -> ctl R A * BotState -> Prop) :
  wp (body s) (fun t cs =>
                 match cs with
                 | (Raised e, s') =>
                     if catches e
                     then wp (handler e s') (fun t' r => Q (t ++ t')%list r)
                     else Q t (Raised e, s')
                 | other => Q t other
                 end) ->
  wp (try_except body catches handler s) Q.
Proof.
  intros Hm. unfold try_except. apply wp_pbind. eapply wp_mono; [|exact Hm].
  intros t [[a|r|e] s']; cbn; rewrite ?app_nil_r; auto.
  destruct (catches e); cbn; rewrite ?app_nil_r; auto.
Qed.

(** *** Properties of every execution of a block *)

#[export] Instance forallb_closed (P : event -> bool) :
  Closed (fun t => forallb P t = true).
Proof.
  split; [done|]. intros t1 t2 H1 H2. by rewrite forallb_app, H1, H2.
Qed.

Section Holds.

Context (T : list event -> Prop) `{!Closed T} {R : Type}.

Lemma holds_ret {A} (a : A) : holds T (ret (R:=R) a).
Proof. intros s. apply closed_nil. Qed.

Lemma holds_do_return {A} (r : R) : holds T (do_return (A:=A) r).
Proof. intros s. apply closed_nil. Qed.

Lemma holds_raise {A} (e : exn) : holds T (raise (R:=R) (A:=A) e).
Proof. intros s. apply closed_nil. Qed.

Lemma holds_get_state : holds T (get_state (R:=R)).
Proof. intros s. apply closed_nil. Qed.

Lemma holds_put_state s' : holds T (put_state (R:=R) s').
Proof. intros s. apply closed_nil. Qed.

Lemma holds_perform {X} (c : call X) :
  (forall r, T [Ev c r]) -> holds T (perform (R:=R) c).
Proof. intros Hc s r. cbn. destruct r; cbn; apply Hc. Qed.

Lemma holds_bind {A B} (m : M R A) (k : A -> M R B) :
  holds T m -> (forall a, holds T (k a)) -> holds T (bind m k).
Proof.
  intros Hm Hk s. apply wp_bind. eapply wp_mono; [|apply Hm].
  intros t [[a|r|e] s'] Ht; cbn; auto.
  eapply wp_mono; [|apply Hk]. cbn. intros t' _ Ht'. by apply closed_app.
Qed.

Lemma holds_try_except {A} (body : M R A) (catches : exn -> bool)
    (handler : exn -> M R A) :
  holds T body -> (forall e, holds T (handler e)) ->
  holds T (try_except body catches handler).
Proof.
  intros Hm Hh s. apply wp_try_except. eapply wp_mono; [|apply Hm].
  intros t [[a|r|e] s'] Ht; cbn; auto.
  destruct (catches e); auto.
  eapply wp_mono; [|apply Hh]. cbn. intros t' _ Ht'. by apply closed_app.
Qed.

Lemma holds_when (cond : bool) (body : M R unit) :
  holds T body -> holds T (when cond body).
Proof. intros Hb. destruct cond; cbn; [done|apply holds_ret]. Qed.

Lemma holds_for_enumerate {A B} (f : nat -> A -> B -> M R B) (i : nat)
    (l : list A) (b : B) :
  (forall i x b, holds T (f i x b)) -> holds T (for_enumerate f i l b).
Proof.
  intros Hf. revert i b. induction l as [|x l IH]; intros i b; cbn.
  - apply holds_ret.
  - apply holds_bind; [apply Hf|]. intros b'. apply IH.
Qed.

End Holds.

(** A block run under any environment. *)
Lemma holds_run (T : list event -> Prop) {R A} (m : M R A) (w : oracle)
    (s : BotState) :
  holds T m -> T (trace_of w (m s)).
Proof. intros Hm. unfold trace_of. by apply (wp_run _ _ w 0%nat (Hm s)). Qed.

(** ** Python's substring test on the mention keywords *)

Lemma contains_tail (p : string) (a : ascii) (s : string) :
  Py.contains p s = true -> Py.contains p (String a s) = true.
Proof. intros H. cbn [Py.contains]. rewrite H. apply orb_true_r. Qed.

Lemma prefix_contains (p s : string) :
  String.prefix p s = true -> Py.contains p s = true.
Proof. intros H. destruct s; cbn [Py.contains]; by rewrite H. Qed.

Lemma prefix_cons_inv (a : ascii) (p s : string) :
  String.prefix (String a p) s = true ->
  exists s', s = String a s' /\ String.prefix p s' = true.
Proof.
  destruct s as [|b s]; [done|].
  change (String.prefix (String a p) (String b s))
    with (if Ascii.ascii_dec a b then String.prefix p s else false).
  destruct (Ascii.ascii_dec a b) as [->|]; [eauto|done].
Qed.

(** Wherever "deactivate" occurs, "activate" occurs two characters later. *)
Lemma contains_deactivate_activate (s : string) :
  Py.contains "deactivate" s = true -> Py.contains "activate" s = true.
Proof.
  induction s as [|a s IH]; [done|].
  cbn [Py.contains]. intros H. apply orb_true_iff in H as [H|H].
  - apply prefix_cons_inv in H as (s1 & E1 & H).
    apply prefix_cons_inv in H as (s2 & E2 & H).
    injection E1 as -> ->. subst s1. apply orb_true_iff. right.
    by apply contains_tail, prefix_contains.
  - rewrite (IH H). apply orb_true_r.
Qed.

(** ** Mention commands *)

(** The test for "activate" comes first and holds whenever "deactivate"
    occurs, so a mention carrying "deactivate" runs the activation branch. *)
Lemma mention_commands_deactivate (rt : PyRuntime) (cfg : Config) (m : Message) :
  Py.contains "deactivate" (lower rt (content m)) = true ->
  mention_commands rt cfg m = when (mentions_bot m) (mention_activate rt cfg m).
Proof.
  intros H. unfold mention_commands.
  by rewrite (contains_deactivate_activate _ H).
Qed.

(** C2, at the failing input.  An administrator sends "@bot deactivate" in
    an activated channel: the handler asks the memory to activate the
    channel and replies "Channel Activated"; the channel is never
    deactivated. *)
Theorem deactivate_mention_runs_activate :
  let m := Scenario.deactivate_request in
  let p := on_message Sample.runtime Sample.config m Sample.fresh_state in
  mentions_bot m = true /\
  is_admin Sample.config m = true /\
  Py.contains "deactivate" (lower Sample.runtime (content m)) = true /\
  trace_of Scenario.active_world p =
    [Ev GetMemory (Ok true);
     Ev (MemActivate 5) (Ok tt);
     Ev (Reply (activated_embed Sample.runtime Sample.config m)) (Ok tt)] /\
  outcome Scenario.active_world p = Returned tt.
Proof. vm_compute. repeat split; reflexivity. Qed.

(** ** Direct messages *)

(** The first statement of [on_message] returns on a guild-less message. *)
Lemma on_message_ignores_direct_messages (rt : PyRuntime) (cfg : Config)
    (m : Message) (st : BotState) :
  guild m = None -> on_message rt cfg m st = Ret (Returned tt, st).
Proof.
  intros Hg. unfold on_message, bind, when. rewrite Hg.
  by destruct (author_bot m).
Qed.

(** C4, at the failing input.  The command gate lets a guild-less command
    through and the trigger logic holds a direct message naming the bot
    eligible, yet [on_message] returns on it at once: no call is made. *)
Theorem direct_message_is_dropped :
  let m := Scenario.direct_message in
  let p := on_message Sample.runtime Sample.config m Sample.fresh_state in
  outcome Sample.calm_world
    (global_command_check Sample.runtime Scenario.direct_command Sample.fresh_state)
  = Returned true /\
  outcome Sample.calm_world
    (should_respond_check (R:=unit) Sample.runtime Sample.config m Sample.fresh_state)
  = Normal true /\
  trace_of Sample.calm_world p = [] /\
  outcome Sample.calm_world p = Returned tt.
Proof. vm_compute. repeat split; reflexivity. Qed.

(** ** Blocks that never dispatch *)

Ltac safe_step :=
  lazymatch goal with
  | |- Closed _ => typeclasses eauto
  | |- holds _ (bind _ _) => apply holds_bind; [typeclasses eauto| |intros ?]
  | |- holds _ (ret _) => apply holds_ret
  | |- holds _ (do_return _) => apply holds_do_return
  | |- holds _ (raise _) => apply holds_raise
  | |- holds _ get_state => apply holds_get_state
  | |- holds _ (put_state _) => apply holds_put_state
  | |- holds _ (perform _) => apply holds_perform; intros ?; reflexivity
  | |- holds _ (when false _) => apply holds_ret
  | |- holds _ (when _ _) => apply holds_when
  | |- holds _ (try_except _ _ _) =>
      apply holds_try_except; [typeclasses eauto| |intros ?]
  | |- holds _ (for_enumerate _ _ _ _) =>
      apply holds_for_enumerate; [typeclasses eauto|intros ? ? ?]
  | |- holds _ (match ?x with _ => _ end) => destruct x
  end.

Ltac safe_auto := repeat (safe_step; cbv beta zeta).

(** ** Messages that do not trigger the dispatcher *)

Lemma wp_True {A} (p : prog A) (Q : list event -> A -> Prop) :
  (forall t a, Q t a) -> wp p Q.
Proof. revert Q. induction p as [a|X c k IH]; cbn; intros Q HQ; auto. Qed.

Lemma prelude_idle (t : list event) :
  forallb is_prelude t = true -> forallb idle t = true.
Proof.
  rewrite !forallb_forall. intros H ev Hev. specialize (H ev Hev).
  by destruct ev as [X [] r].
Qed.

Lemma idle_undispatched (t : list event) :
  forallb idle t = true -> forallb undispatched t = true.
Proof.
  rewrite !forallb_forall. intros H ev Hev. specialize (H ev Hev).
  unfold idle in H. by apply andb_true_iff in H as [H _].
Qed.

Lemma should_respond_not_eligible (rt : PyRuntime) (cfg : Config) (m : Message) (st : BotState) :
  not_eligible rt cfg st m ->
  wp (should_respond_check (R:=unit) rt cfg m st)
    (fun t cs => forallb is_prelude t = true /\ cs.2 = st /\
                 (existsb answered_active t = false -> cs.1 <> Normal true)).
Proof.
  intros Hne. unfold should_respond_check.
  cbn. intros [[|]|e]; cbn; [|..].
  - intros [[|]|e]; cbn; [done| |done].
    destruct Hne as [->|(g & -> & Hw & Hin)]; cbn; [done|].
    destruct (Py.contains _ _); cbn; [rewrite Hw; cbn; rewrite Hin|]; done.
  - destruct Hne as [->|(g & -> & Hw & Hin)]; cbn; [done|].
    destruct (Py.contains _ _); cbn; [rewrite Hw; cbn; rewrite Hin|]; done.
  - done.
Qed.

Lemma fetch_reference_wp (rt : PyRuntime) (m : Message) (st : BotState) :
  wp (fetch_reference (R:=unit) m st)
    (fun t cs =>
       forallb is_prelude t = true /\ existsb answered_active t = false /\ cs.2 = st /\
       match cs.1 with
       | Normal found =>
           existsb (fetched_with_images rt) t
           = match found with
             | Some fetched => has_images_in_message rt fetched
             | None => false
             end
       | _ => True
       end).
Proof.
  unfold fetch_reference. destruct (reference m) as [mid|]; cbn; [|done].
  intros [r|e]; cbn; [by rewrite orb_false_r|]. by destruct (is_http e).
Qed.

Lemma wack_loop_wp (g : Guild) (l : list Channel) (i b : nat) (s : BotState) :
  wp (for_enumerate (wack_channel g) i l b s)
    (fun t cs => forallb is_prelude t = true /\ cs.2 = s).
Proof.
  revert i b. induction l as [|ch l IH]; intros i b; cbn [for_enumerate]; [done|].
  apply wp_bind. unfold wack_channel. destruct (chan_is_text ch); cbn.
  - intros [[|]|e]; cbn; [|..].
    + intros [[]|e]; cbn; [|done].
      eapply wp_mono; [|apply IH]. cbn. intros t cs [H1 H2]. rewrite H1. done. 
    + eapply wp_mono; [|apply IH]. cbn. intros t cs [H1 H2]. rewrite H1. done. 
    + done.
  - eapply wp_mono; [|apply IH]. cbn. intros t cs [H1 H2]. rewrite H1. done. 
Qed.

Lemma mention_commands_wp (rt : PyRuntime) (cfg : Config) (m : Message) (s : BotState) :
  wp (mention_commands rt cfg m s)
    (fun t cs => forallb is_prelude t = true /\ cs.2 = s /\
                 match cs.1 with Normal _ => t = [] | _ => True end).
Proof.
  unfold mention_commands, when. destruct (mentions_bot m); [|done]. cbv zeta.
  destruct (Py.contains "activate" _).
  { unfold mention_activate, message_reply. destruct (is_admin cfg m); cbn.
    - intros [[|]|e]; cbn; [|..].
      + intros [[]|e]; cbn; [|done]. intros [[]|e]; cbn; done.
      + intros [[]|e]; cbn; done.
      + done.
    - intros [[]|e]; cbn; done. }
  destruct (Py.contains "deactivate" _).
  { unfold mention_deactivate, message_reply. destruct (is_admin cfg m); cbn.
    - intros [[|]|e]; cbn; [|..].
      + intros [[|]|e]; cbn; [|..].
        * intros [[]|e]; cbn; [|done]. intros [[]|e]; cbn; done.
        * intros [[]|e]; cbn; done.
        * done.
      + intros [[]|e]; cbn; done.
      + done.
    - intros [[]|e]; cbn; done. }
  destruct (Py.contains "wack" _); [|done].
  unfold mention_wack, message_reply, the_guild. destruct (is_admin cfg m); cbn.
  - intros [[|]|e]; cbn; [|..].
    + destruct (guild m) as [g|]; cbn; [|done].
      apply wp_pbind, wp_bind. eapply wp_mono; [|apply wack_loop_wp].
      intros t [[a|r|e] s'] [H1 H2]; cbn in H2; subst s'; cbn;
        [|rewrite app_nil_r; done..].
      intros [[]|e]; cbn; rewrite !forallb_app, H1; done.
    + intros [[]|e]; cbn; done.
    + done.
  - intros [[]|e]; cbn; done.
Qed.

Lemma dynamic_detection_not_eligible (rt : PyRuntime) (cfg : Config) (m : Message)
    (prefix : string) (st : BotState) :
  not_eligible rt cfg st m ->
  wp (dynamic_detection rt cfg m prefix st)
    (fun t cs =>
       existsb answered_active t = false ->
       forallb undispatched t = true /\
       (is_prefixed rt prefix m = false ->
        forallb idle t = true /\ cs.1 <> Normal tt)).
Proof.
  intros Hne. unfold dynamic_detection, is_prefixed, when. cbv zeta.
  destruct (Py.startswith prefix _ || Py.startswith "/" _); cbn.
  { intros [[[s'|] [e|]]|e]; cbn; done. }
  intros [[|]|e]; cbn; [done| |done].
  apply wp_pbind. eapply wp_mono; [|apply (fetch_reference_wp rt)].
  intros t1 [[rmsg|r|e] s1] (H1 & A1 & E1 & _); apply prelude_idle in H1;
    cbn in E1; subst s1; cbn;
    [|rewrite app_nil_r; auto using idle_undispatched..].
  apply wp_bind. eapply wp_mono; [|by apply should_respond_not_eligible].
  intros t2 [[[|]|r|e] s2] (H2 & E2 & N2); apply prelude_idle in H2;
    cbn in E2, N2; subst s2; cbn;
    [|rewrite ?app_nil_r, ?forallb_app, ?H1, ?H2,
        ?(idle_undispatched _ H1), ?(idle_undispatched _ H2); done..].
  apply wp_True. intros t3 a Hex. exfalso.
  rewrite !existsb_app in Hex. apply orb_false_iff in Hex as [_ Hex].
  apply orb_false_iff in Hex as [Hex _]. by apply N2.
Qed.

Lemma on_message_not_eligible (rt : PyRuntime) (cfg : Config) (m : Message)
    (st : BotState) (g : Guild) :
  guild m = Some g ->
  not_eligible rt cfg st m ->
  wp (on_message rt cfg m st)
    (fun t cs =>
       existsb answered_active t = false ->
       forallb undispatched t = true /\
       (is_prefixed rt (guild_prefix cfg st g) m = false ->
        forallb idle t = true /\ cs.1 <> Normal tt)).
Proof.
  intros Hg Hne. unfold on_message, when, the_guild. rewrite Hg.
  destruct (author_bot m); cbn; [done|].
  destruct (bool_decide (author_id m ∈ blocked_users st)); cbn; [done|].
  apply wp_pbind. eapply wp_mono; [|apply mention_commands_wp].
  intros t1 [[[]|r|e] s1] (H1 & E1 & N1); apply prelude_idle in H1;
    cbn in E1, N1; subst; cbn;
    [|rewrite ?app_nil_r; auto using idle_undispatched..].
  eapply wp_mono; [|by apply dynamic_detection_not_eligible].
  cbn. intros t2 cs H2. exact H2.
Qed.

(** ** C1: what the message handler checks before it dispatches *)

(** A blocked author's message ends the handler before any call. *)
Lemma on_message_blocked (rt : PyRuntime) (cfg : Config) (m : Message)
    (st : BotState) :
  author_id m ∈ blocked_users st ->
  on_message rt cfg m st = Ret (Returned tt, st).
Proof.
  intros Hb. unfold on_message, bind, when, get_state, do_return, ret.
  destruct (author_bot m || negb (is_some (guild m))); cbn; [done|].
  by rewrite (bool_decide_eq_true_2 _ Hb).
Qed.

(** C1, as the code has it.  Of the gate, the message handler evaluates the
    block check before anything else: a blocked author's message makes no
    call at all.  The whitelist is consulted for the name-keyword trigger
    only: in a channel outside a non-empty whitelist nothing is classified
    or dispatched unless the memory reports the channel as activated.  (The
    pause state is not read by the handler.) *)
Theorem block_check_precedes_dispatch (rt : PyRuntime) (cfg : Config)
    (w : oracle) (st : BotState) (m : Message) (g : Guild) :
  guild m = Some g ->
  let t := trace_of w (on_message rt cfg m st) in
  (author_id m ∈ blocked_users st -> t = []) /\
  (guild_whitelist st (guild_id g) ≠ [] ->
   channel_id m ∉ guild_whitelist st (guild_id g) ->
   existsb answered_active t = false ->
   forallb undispatched t = true).
Proof.
  intros Hg t. subst t. split.
  - intros Hb. by rewrite on_message_blocked.
  - intros Hne Hnin Hact.
    pose proof (whitelist_test_spec st (guild_id g) (channel_id m)) as Hwl.
    rewrite (bool_decide_eq_true_2 _ Hne), (bool_decide_eq_true_2 _ Hnin) in Hwl.
    apply andb_true_iff in Hwl as [Hw Hin]. apply negb_true_iff in Hin.
    assert (Hel : not_eligible rt cfg st m) by (right; eauto).
    pose proof (wp_run _ _ w 0%nat (on_message_not_eligible rt cfg m st g Hg Hel)) as H.
    cbn beta in H. by apply H.
Qed.

(** C1 at concrete messages: with user 1000 blocked the handler makes no
    call; with channel 5 outside the whitelist of guild 77 and not activated
    nothing is classified or dispatched. *)
Lemma block_check_precedes_dispatch_witness :
  let m := Sample.guild_message "gacha draw a cat" in
  guild m = Some Sample.lobby /\
  (1000 ∈ blocked_users Scenario.blocking_state /\
   trace_of Scenario.generation_world
     (on_message Sample.runtime Sample.config m Scenario.blocking_state) = []) /\
  (guild_whitelist Scenario.whitelisted_state 77 ≠ [] /\
   (5 ∉ guild_whitelist Scenario.whitelisted_state 77) /\
   existsb answered_active
     (trace_of Scenario.generation_world
        (on_message Sample.runtime Sample.config m Scenario.whitelisted_state)) = false /\
   forallb undispatched
     (trace_of Scenario.generation_world
        (on_message Sample.runtime Sample.config m Scenario.whitelisted_state)) = true).
Proof.
  intros m.
  assert (Hg : guild m = Some Sample.lobby) by reflexivity.
  assert (Hb : 1000 ∈ blocked_users Scenario.blocking_state) by (vm_compute; reflexivity).
  assert (Hw : guild_whitelist Scenario.whitelisted_state 77 ≠ []) by (vm_compute; discriminate).
  assert (Hn : 5 ∉ guild_whitelist Scenario.whitelisted_state 77).
  { vm_compute. intros H. apply list_elem_of_In in H. cbn in H. destruct H as [H|[]]. discriminate. }
  split; [exact Hg|]. split; [split; [exact Hb|]|split; [exact Hw|split; [exact Hn|split; [reflexivity|]]]].
  - exact (proj1 (block_check_precedes_dispatch Sample.runtime Sample.config
             Scenario.generation_world Scenario.blocking_state m Sample.lobby Hg) Hb).
  - exact (proj2 (block_check_precedes_dispatch Sample.runtime Sample.config
             Scenario.generation_world Scenario.whitelisted_state m Sample.lobby Hg)
             Hw Hn eq_refl).
Defined.

(** C1 as stated fails.  In a paused guild a message naming the bot is
    classified and reaches the generation capability; so does a message in
    an activated channel that the guild's whitelist does not contain. *)
Lemma paused_or_unlisted_message_is_dispatched :
  let m := Sample.guild_message "gacha draw a cat" in
  (access_gate Scenario.paused_state 1000 77 5 = Denied Paused 30 /\
   existsb is_capability
     (trace_of Scenario.generation_world
        (on_message Sample.runtime Sample.config m Scenario.paused_state)) = true) /\
  (access_gate Scenario.whitelisted_state 1000 77 5 = Denied NotWhitelisted 30 /\
   existsb is_capability
     (trace_of Scenario.active_generation_world
        (on_message Sample.runtime Sample.config m Scenario.whitelisted_state)) = true).
Proof. vm_compute. repeat split; reflexivity. Qed.

(** ** C9: messages that are not trigger-eligible *)

(** C9, as the code has it.  A guild message that is no prefixed command,
    does not carry the bot's name and whose channel the memory does not
    report as activated is neither classified nor dispatched, and the
    handler ends before its closing [process_commands] call: no call to
    command processing is made. *)
Theorem untriggered_message_returns (rt : PyRuntime) (cfg : Config) (w : oracle)
    (st : BotState) (m : Message) (g : Guild) :
  guild m = Some g ->
  is_prefixed rt (guild_prefix cfg st g) m = false ->
  Py.contains (BOT_NAME cfg) (lower rt (content m)) = false ->
  let p := on_message rt cfg m st in
  existsb answered_active (trace_of w p) = false ->
  forallb idle (trace_of w p) = true /\ outcome w p <> Normal tt.
Proof.
  intros Hg Hpre Hname p Hact. subst p.
  assert (Hel : not_eligible rt cfg st m) by (by left).
  pose proof (wp_run _ _ w 0%nat (on_message_not_eligible rt cfg m st g Hg Hel)) as H.
  cbn beta in H. by apply H.
Qed.

(** C9 at a concrete message: "draw a cat" in a channel that is not
    activated. *)
Lemma untriggered_message_returns_witness :
  let m := Sample.guild_message "draw a cat" in
  let p := on_message Sample.runtime Sample.config m Sample.fresh_state in
  guild m = Some Sample.lobby /\
  is_prefixed Sample.runtime
    (guild_prefix Sample.config Sample.fresh_state Sample.lobby) m = false /\
  Py.contains (BOT_NAME Sample.config) (lower Sample.runtime (content m)) = false /\
  existsb answered_active (trace_of Sample.calm_world p) = false /\
  forallb idle (trace_of Sample.calm_world p) = true /\
  outcome Sample.calm_world p <> Normal tt.
Proof.
  intros m p.
  split; [reflexivity|]. split; [reflexivity|]. split; [reflexivity|].
  split; [reflexivity|].
  exact (untriggered_message_returns Sample.runtime Sample.config Sample.calm_world
           Sample.fresh_state m Sample.lobby eq_refl eq_refl eq_refl eq_refl).
Defined.

(** C9 as stated fails: on "draw a cat" in a channel that is not activated
    the handler asks for the command context, the memory cog and the
    channel's activation, and returns; [process_commands] is not called. *)
Lemma untriggered_message_skips_command_processing :
  let m := Sample.guild_message "draw a cat" in
  let p := on_message Sample.runtime Sample.config m Sample.fresh_state in
  attachments m = [] /\
  trace_of Sample.calm_world p =
    [Ev GetContextValid (Ok false); Ev GetMemory (Ok true); Ev (MemIsActive 5) (Ok false)] /\
  existsb is_process_commands (trace_of Sample.calm_world p) = false /\
  outcome Sample.calm_world p = Returned tt.
Proof. vm_compute. repeat split; reflexivity. Qed.

(** ** C3: the image analysis block *)

(** Whatever the environment answers, the analysis block sends nothing and
    never returns from the handler: after a successful download and
    analysis it reads the unbound name [message_content], and the
    [NameError] is caught by the block's own [except Exception]. *)
Lemma image_analysis_never_replies (rt : PyRuntime) (m : Message) (L : Locals)
    (s : BotState) :
  wp (handle_image_analysis rt m L s)
    (fun t cs => existsb is_send t = false /\ cs.2 = s /\
                 match cs.1 with Returned _ => False | _ => True end).
Proof.
  unfold handle_image_analysis, analysis_body, when, unbound_name.
  destruct (_ && _); [|done]. cbn.
  intros [[]|e]; cbn; [|done].
  destruct (pick_image_url rt m L) as [image_url|]; cbn; [|done].
  destruct (Py.truthy image_url); cbn; [|done].
  intros [[status data]|e]; cbn.
  - destruct (status =? 200); cbn.
    + intros [analysis|e]; cbn; intros [[]|e']; cbn; done.
    + done.
  - intros [[]|e']; cbn; done.
Qed.

(** C3, at the failing inputs.  A picture with the question "gacha what is
    this", and a picture without text in an activated channel; no intent is
    detected, the download answers 200 and the analysis succeeds.  In both
    runs the block prints the [NameError], nothing is sent, and the handler
    goes on to command processing. *)
Theorem image_analysis_reply_is_lost :
  let p1 := on_message Sample.runtime Sample.config Scenario.photo_question
              Sample.fresh_state in
  let p2 := on_message Sample.runtime Sample.config Scenario.photo_only
              Sample.fresh_state in
  let lost :=
    [Ev (Typing 5) (Ok tt);
     Ev (HttpGet "https://cdn/cat.png") (Ok (200, "png-bytes"));
     Ev (AnalyzeImage "png-bytes") (Ok "a cat on a sofa");
     Ev (Print "Error in image analysis: name 'message_content' is not defined") (Ok tt);
     Ev ProcessCommands (Ok (None, None))] in
  (drop 7 (trace_of Sample.calm_world p1) = lost /\
   existsb is_send (trace_of Sample.calm_world p1) = false /\
   outcome Sample.calm_world p1 = Normal tt) /\
  (drop 7 (trace_of Scenario.active_world p2) = lost /\
   existsb is_send (trace_of Scenario.active_world p2) = false /\
   outcome Scenario.active_world p2 = Normal tt).
Proof. vm_compute. repeat split; reflexivity. Qed.

(** ** The way to the dispatcher *)

Lemma prelude_before_dispatch (t : list event) :
  forallb is_prelude t = true -> forallb before_dispatch t = true.
Proof.
  rewrite !forallb_forall. intros H ev Hev. specialize (H ev Hev).
  unfold before_dispatch. by rewrite H.
Qed.

Lemma should_respond_check_wp (rt : PyRuntime) (cfg : Config) (m : Message) (st : BotState) :
  wp (should_respond_check (R:=unit) rt cfg m st)
    (fun t cs => forallb is_prelude t = true /\
                 existsb (fetched_with_images rt) t = false /\ cs.2 = st).
Proof.
  unfold should_respond_check. cbn.
  assert (Hname : wp ((if Py.contains (BOT_NAME cfg) (lower rt (content m))
      then
       match guild m with
       | Some g => 
       st0 <- get_state;;
       (if has_whitelist st0 (Py.str (guild_id g))
        then ret (R:=unit) (in_whitelist st0 (Py.str (guild_id g)) (channel_id m))
        else ret true)
       | None => ret true end
      else ret false) st) (fun t cs => t = [] /\ cs.2 = st)).
  { destruct (Py.contains _ _); [|done]. destruct (guild m); [|done]. cbn.
    by destruct (has_whitelist _ _). }
  intros [[|]|e]; cbn; [|..].
  - intros [[|]|e]; cbn; [done| |done].
    eapply wp_mono; [|exact Hname]. by intros t cs [-> ->].
  - eapply wp_mono; [|exact Hname]. by intros t cs [-> ->].
  - done.
Qed.

Lemma classify_wp (clean : string) (cur ref : bool) (total : nat)
    (rmsg : option Message) (st : BotState) :
  wp (classify (R:=unit) clean cur ref total rmsg st)
    (fun t cs =>
       cs.2 = st /\
       match cs.1 with
       | Normal L =>
           exists g,
             t = classification_events clean (cur || ref) total g (wants_editing L)
                   (wants_web_search L) (wants_merge L) /\
             L = {| clean_message_content := clean; current_images := cur;
                    ref_has_images := ref; total_image_count := total;
                    ref_msg := rmsg; wants_generation := g && negb (cur || ref);
                    wants_editing := wants_editing L;
                    wants_web_search := wants_web_search L;
                    wants_merge := wants_merge L |}
       | Returned _ => False
       | Raised _ => forallb before_dispatch t = true
       end).
Proof.
  unfold classify. cbn.
  intros [g|?]; cbn; [|done]. intros [e|?]; cbn; [|done].
  intros [s|?]; cbn; [|done]. intros [mg|?]; cbn; [|done].
  split; [done|]. by exists g.
Qed.

Lemma on_message_cases (rt : PyRuntime) (cfg : Config) (m : Message) (st : BotState)
    (Q : list event -> ctl unit unit * BotState -> Prop) :
  (forall t c s', forallb before_dispatch t = true ->
                  match c with Normal _ => False | _ => True end ->
                  (existsb is_process_commands t = false -> s' = st) ->
                  Q t (c, s')) ->
  (forall pre g L,
     reaches_dispatch rt m pre g L ->
     wp (dispatch rt m L st)
       (fun t' r =>
          Q (pre ++ classification_events (clean_message_content L) (has_any_images L)
                      (total_image_count L) g (wants_editing L) (wants_web_search L)
                      (wants_merge L) ++ t')%list r)) ->
  wp (on_message rt cfg m st) Q.
Proof.
  intros Hearly Hdisp. unfold on_message, when, the_guild.
  destruct (author_bot m || negb (is_some (guild m))) eqn:Hguard; cbn.
  { by apply Hearly. }
  destruct (bool_decide (author_id m ∈ blocked_users st)); cbn.
  { by apply Hearly. }
  destruct (guild m) as [g|] eqn:Hg; cbn; [|by apply Hearly].
  assert (Hquiet : forall t c, forallb before_dispatch t = true ->
            match c with Normal _ => False | _ => True end -> Q t (c, st)).
  { intros t c Ht Hc. by apply Hearly. }
  apply wp_pbind. eapply wp_mono; [|apply mention_commands_wp].
  intros t1 [[[]|r|e] s1] (H1 & E1 & N1); cbn in E1, N1; subst; cbn.
  2,3: rewrite app_nil_r; apply Hquiet; [by apply prelude_before_dispatch|done].
  clear H1 Hguard.
  unfold dynamic_detection, when. cbv zeta.
  destruct (Py.startswith _ _ || Py.startswith "/" _); cbn.
  { intros [[[s'|] [e|]]|e]; cbn; by apply Hearly. }
  intros [[|]|e]; cbn; [by apply Hquiet| |by apply Hquiet].
  apply wp_pbind. eapply wp_mono; [|apply (fetch_reference_wp rt)].
  intros t1 [[rmsg|r|e] s1] (H1 & _ & E1 & F1); cbn in E1, F1; subst s1; cbn.
  2,3: rewrite app_nil_r; apply Hquiet; [by cbn; apply prelude_before_dispatch|done].
  apply wp_bind. eapply wp_mono; [|apply should_respond_check_wp].
  intros t2 [[[|]|r|e] s2] (H2 & F2 & E2); cbn in E2; subst s2; cbn.
  2,3,4: rewrite ?app_nil_r; apply Hquiet; [|done]; cbn;
    rewrite ?forallb_app, ?(prelude_before_dispatch _ H1),
      ?(prelude_before_dispatch _ H2); done.
  apply wp_bind. eapply wp_mono; [|apply classify_wp].
  intros t3 [[L|r|e] s3] [E3 HL]; cbn in E3, HL; subst s3; cbn.
  3: { apply Hquiet; [|done]. cbn.
       by rewrite !forallb_app, (prelude_before_dispatch _ H1),
         (prelude_before_dispatch _ H2), HL. }
  2: done.
  destruct HL as (g0 & -> & HL).
  assert (Hrd : reaches_dispatch rt m (Ev GetContextValid (Ok false) :: t1 ++ t2)%list g0 L).
  { rewrite HL. split; cbn; try done.
    - by rewrite forallb_app, H1, H2.
    - by rewrite existsb_app, F1, F2, orb_false_r.
    - by destruct rmsg. }
  eapply wp_mono; [|apply (Hdisp _ g0 L Hrd)]. cbn. intros t' r HQ.
  rewrite HL in HQ. cbn in HQ. rewrite <- app_assoc in HQ. exact HQ.
Qed.

(** ** The dispatcher *)

Ltac unfold_dispatch :=
  unfold dispatch, process_commands, handle_merge, handle_batch_edit, handle_single_edit,
    handle_missing_images, handle_generation, handle_web_search,
    handle_image_analysis, analysis_body, nsfw_check, send_rejected, edit_one,
    unbound_name, randint, ping_enabled_for, store_metadata, channel_send,
    the_guild.

Lemma dispatch_calls (rt : PyRuntime) (m : Message) (L : Locals) :
  safe is_dispatch_call (dispatch rt m L).
Proof. unfold_dispatch. safe_auto. Qed.

(** ** C6: images foreclose generation *)

Lemma classify_with_images (w : oracle) (n : nat) (clean : string) (cur ref : bool)
    (total : nat) (rmsg : option Message) (s : BotState) (L : Locals) :
  cur || ref = true ->
  (run w n (classify (R:=unit) clean cur ref total rmsg s)).2.1 = Normal L ->
  wants_generation L = false.
Proof.
  intros Hany HL.
  pose proof (wp_run _ _ w n (classify_wp clean cur ref total rmsg s)) as H.
  cbn beta in H. destruct H as [_ H]. rewrite HL in H.
  destruct H as (g & _ & ->). cbn. rewrite Hany. apply andb_false_r.
Qed.

(** With [wants_generation] false the generation block makes no call. *)
Lemma generation_skipped (w : oracle) (n : nat) (m : Message) (L : Locals)
    (s : BotState) :
  wants_generation L = false ->
  run w n (handle_generation m L s) = ([], (Normal tt, s)).
Proof. intros Hg. unfold handle_generation, when. by rewrite Hg. Qed.

Lemma dispatch_without_generation (rt : PyRuntime) (m : Message) (L : Locals) :
  wants_generation L = false ->
  safe outside_generation (dispatch rt m L).
Proof. intros Hg. unfold_dispatch. rewrite Hg. safe_auto. Qed.

(** With no intent to generate, edit or merge, the dispatcher makes no NSFW
    pre-check either. *)
Lemma dispatch_without_intent (rt : PyRuntime) (m : Message) (L : Locals) :
  wants_generation L = false -> wants_editing L = false -> wants_merge L = false ->
  safe (fun ev => outside_generation ev && negb (is_nsfw_check ev)) (dispatch rt m L).
Proof.
  intros Hg He Hm. unfold_dispatch. rewrite Hg, He, Hm. cbn [andb]. safe_auto.
Qed.

Lemma before_dispatch_no_generation (t : list event) :
  forallb before_dispatch t = true ->
  forallb (fun ev => negb (is_generation_step ev)) t = true /\
  existsb is_generation_send t = false /\
  existsb is_nsfw_check t = false.
Proof.
  induction t as [|ev t IH]; [done|]. cbn [forallb existsb]. intros H.
  apply andb_true_iff in H as [Hev Ht]. destruct (IH Ht) as (-> & -> & ->).
  by destruct ev as [X [] r].
Qed.

Lemma dispatch_call_not_fetched (rt : PyRuntime) (t : list event) :
  forallb is_dispatch_call t = true -> existsb (fetched_with_images rt) t = false.
Proof.
  induction t as [|ev t IH]; cbn; [done|]. intros H.
  apply andb_true_iff in H as [Hev Ht]. rewrite (IH Ht), orb_false_r.
  by destruct ev as [X [] r].
Qed.

Lemma forallb_negb_existsb {A} (P : A -> bool) (l : list A) :
  forallb (fun x => negb (P x)) l = true -> existsb P l = false.
Proof.
  induction l as [|x l IH]; cbn; [done|]. intros H.
  apply andb_true_iff in H as [Hx Hl]. rewrite (IH Hl).
  by destruct (P x).
Qed.

Lemma outside_generation_spec (t : list event) :
  forallb outside_generation t = true ->
  forallb (fun ev => negb (is_generation_step ev)) t = true /\
  existsb is_generation_send t = false.
Proof.
  induction t as [|ev t IH]; [done|]. cbn [forallb existsb]. intros H.
  apply andb_true_iff in H as [Hev Ht]. destruct (IH Ht) as (-> & ->).
  unfold outside_generation in Hev.
  apply andb_true_iff in Hev as [Hev Hs]. apply andb_true_iff in Hev as [_ Hg].
  rewrite Hg. by destruct (is_generation_send ev).
Qed.

Lemma on_message_images (rt : PyRuntime) (cfg : Config) (m : Message) (st : BotState) :
  wp (on_message rt cfg m st)
    (fun t _ =>
       has_images_in_message rt m = true \/ existsb (fetched_with_images rt) t = true ->
       forallb (fun ev => negb (is_generation_step ev)) t = true /\
       existsb is_generation_send t = false /\
       (existsb is_nsfw_check t = true ->
        existsb merge_wanted t = true \/ existsb editing_wanted t = true)).
Proof.
  apply on_message_cases.
  - intros t c s0 Ht _ _ _.
    destruct (before_dispatch_no_generation t Ht) as (H1 & H2 & H3).
    split; [done|]. split; [done|]. intros H. by rewrite H3 in H.
  - intros pre g L HL.
    destruct (before_dispatch_no_generation pre
                (prelude_before_dispatch _ (rd_pre _ _ _ _ _ HL))) as (P1 & P2 & P3).
    destruct (has_any_images L) eqn:Hany.
    + assert (Hg : wants_generation L = false).
      { rewrite (rd_generation _ _ _ _ _ HL), Hany. apply andb_false_r. }
      set (cls := classification_events _ _ _ _ _ _ _).
      assert (C1 : forallb (fun ev => negb (is_generation_step ev)) cls = true) by done.
      assert (C2 : existsb is_generation_send cls = false) by done.
      assert (C3 : existsb is_nsfw_check cls = false) by done.
      assert (C4 : existsb merge_wanted cls = wants_merge L)
        by (subst cls; cbn; by destruct (wants_merge L)).
      assert (C5 : existsb editing_wanted cls = wants_editing L)
        by (subst cls; cbn; by destruct (wants_editing L)).
      clearbody cls.
      destruct (wants_merge L) eqn:Hm.
      { eapply wp_mono; [|apply (dispatch_without_generation rt m L Hg)].
        cbv beta. intros t' _ Ht' _.
        destruct (outside_generation_spec _ Ht') as [T1 T2].
        rewrite !forallb_app, !existsb_app, P1, P2, C1, C2, C4, T1, T2.
        split; [done|]. split; [done|]. intros _. left. apply orb_true_r. }
      destruct (wants_editing L) eqn:He.
      { eapply wp_mono; [|apply (dispatch_without_generation rt m L Hg)].
        cbv beta. intros t' _ Ht' _.
        destruct (outside_generation_spec _ Ht') as [T1 T2].
        rewrite !forallb_app, !existsb_app, P1, P2, C1, C2, C5, T1, T2.
        split; [done|]. split; [done|]. intros _. right. apply orb_true_r. }
      eapply wp_mono; [|apply (dispatch_without_intent rt m L Hg He Hm)].
      cbv beta. intros t' _ Ht' _.
      assert (Ht1 : forallb outside_generation t' = true
                    /\ existsb is_nsfw_check t' = false).
      { clear -Ht'. induction t' as [|ev t' IH]; [done|]. cbn [forallb existsb] in *.
        apply andb_true_iff in Ht' as [Hev Ht']. destruct (IH Ht') as [-> ->].
        apply andb_true_iff in Hev as [-> Hn]. by destruct (is_nsfw_check ev). }
      destruct Ht1 as [Ht1 T3].
      destruct (outside_generation_spec _ Ht1) as [T1 T2].
      rewrite !forallb_app, !existsb_app, P1, P2, P3, C1, C2, C3, T1, T2, T3.
      split; [done|]. split; [done|]. done.
    + eapply wp_mono; [|apply (dispatch_calls rt m L)].
      cbn. intros t' _ Ht' [Hi|Hf]; exfalso.
      * unfold has_any_images in Hany. rewrite (rd_current _ _ _ _ _ HL), Hi in Hany. done.
      * rewrite existsb_app in Hf. cbn in Hf.
        rewrite (rd_fetched _ _ _ _ _ HL), (dispatch_call_not_fetched rt _ Ht') in Hf.
        unfold has_any_images in Hany. apply orb_false_iff in Hany as [_ Hany].
        by rewrite Hany in Hf.
Qed.

(** C6.  When there is an image at hand the classifier's [wants_generation]
    is false whatever the heuristic says about the text, and with that flag
    false the generation block makes not one call.  So a message that
    carries an image, or whose resolved reply target does, never enters the
    generation branch: no generation call is made, none of the branch's
    notices is sent (that of its NSFW pre-check, that of a rejected picture,
    the "Generation Failed" notices), and an NSFW pre-check is made only for
    a merge or an edit that the heuristics asked for. *)
Theorem images_foreclose_generation (rt : PyRuntime) (cfg : Config) (w : oracle)
    (st : BotState) (m : Message) :
  (forall n clean cur ref total rmsg s L,
     cur || ref = true ->
     (run w n (classify (R:=unit) clean cur ref total rmsg s)).2.1 = Normal L ->
     wants_generation L = false) /\
  (forall n L s,
     wants_generation L = false ->
     run w n (handle_generation m L s) = ([], (Normal tt, s))) /\
  (let t := trace_of w (on_message rt cfg m st) in
   has_images_in_message rt m = true \/ existsb (fetched_with_images rt) t = true ->
   existsb is_generation_step t = false /\
   existsb is_generation_send t = false /\
   (existsb is_nsfw_check t = true ->
    existsb merge_wanted t = true \/ existsb editing_wanted t = true)).
Proof.
  split; [|split].
  - intros n clean cur ref total rmsg s L. apply classify_with_images.
  - intros n L s. apply generation_skipped.
  - intros t Himg.
    destruct (wp_run _ _ w 0%nat (on_message_images rt cfg m st) Himg)
      as (H1 & H2 & H3).
    split; [by apply forallb_negb_existsb|]. split; [exact H2|exact H3].
Qed.

(** C6 at a concrete message: "gacha draw this again" with a picture, the
    generation heuristic answering yes.  The message is classified, and
    neither a generation call nor any NSFW pre-check is made. *)
Lemma images_foreclose_generation_witness :
  let m := Scenario.photo_draw_request in
  let t := trace_of Scenario.generation_world
             (on_message Sample.runtime Sample.config m Sample.fresh_state) in
  has_images_in_message Sample.runtime m = true /\
  existsb is_classification t = true /\
  existsb is_nsfw_check t = false /\
  existsb is_generation_step t = false /\
  existsb is_generation_send t = false /\
  (existsb is_nsfw_check t = true ->
   existsb merge_wanted t = true \/ existsb editing_wanted t = true).
Proof.
  intros m t. split; [reflexivity|]. split; [reflexivity|]. split; [reflexivity|].
  apply (proj2 (proj2 (images_foreclose_generation Sample.runtime Sample.config
                         Scenario.generation_world Sample.fresh_state m))).
  left. reflexivity.
Defined.

(** ** C8: editing requested without any image *)

Lemma count_images_zero (rt : PyRuntime) (msg : Message) :
  has_images_in_message rt msg = false -> count_images_in_message rt msg = 0%nat.
Proof.
  unfold has_images_in_message, count_images_in_message.
  induction (attachments msg) as [|a l IH]; cbn [existsb List.filter length]; [done|].
  destruct (is_image rt a); cbn [orb length]; [done|]. exact IH.
Qed.

Lemma before_dispatch_not_classified (t : list event) :
  forallb before_dispatch t = true -> existsb classified t = false.
Proof.
  induction t as [|ev t IH]; cbn; [done|]. intros H.
  apply andb_true_iff in H as [Hev Ht]. rewrite (IH Ht), orb_false_r.
  destruct ev as [X c r]. destruct c; try done. by destruct r.
Qed.

Lemma prelude_plain (t : list event) :
  forallb is_prelude t = true ->
  existsb editing_wanted t = false /\ existsb is_capability t = false /\
  existsb is_send t = false.
Proof.
  induction t as [|ev t IH]; cbn; [done|]. intros H.
  apply andb_true_iff in H as [Hev Ht]. destruct (IH Ht) as (-> & -> & ->).
  by destruct ev as [X [] r].
Qed.

Lemma dispatch_call_not_editing_wanted (t : list event) :
  forallb is_dispatch_call t = true -> existsb editing_wanted t = false.
Proof.
  induction t as [|ev t IH]; cbn; [done|]. intros H.
  apply andb_true_iff in H as [Hev Ht]. rewrite (IH Ht), orb_false_r.
  by destruct ev as [X [] r].
Qed.

Lemma on_message_edit_without_image (rt : PyRuntime) (cfg : Config) (m : Message)
    (st : BotState) :
  wp (on_message rt cfg m st)
    (fun t cs =>
       has_images_in_message rt m = false ->
       existsb (fetched_with_images rt) t = false ->
       existsb classified t = true ->
       existsb editing_wanted t = true ->
       existsb is_capability t = false /\
       exists pre ans,
         t = (pre ++ [Ev (Send (channel_id m)
                            (send_embed no_image_embed true None (Some 30))) ans])%list
         /\ existsb is_send pre = false
         /\ cs.1 = match ans with Ok _ => Returned tt | Fail e => Raised e end).
Proof.
  apply on_message_cases.
  - intros t c s0 Ht _ _ _ _ Hc. by rewrite (before_dispatch_not_classified t Ht) in Hc.
  - intros pre g L HL.
    destruct (prelude_plain pre (rd_pre _ _ _ _ _ HL)) as (Pe & Pc & Ps).
    destruct (wants_editing L) eqn:Hed; cycle 1.
    { eapply wp_mono; [|apply (dispatch_calls rt m L)].
      cbn. intros t' cs Ht' _ _ _ He. exfalso.
      rewrite existsb_app, Pe in He. cbn in He.
      by rewrite (dispatch_call_not_editing_wanted _ Ht') in He. }
    destruct (has_any_images L) eqn:Hany.
    { apply wp_True. intros t' cs Hm Hf. exfalso.
      rewrite existsb_app in Hf. apply orb_false_iff in Hf as [Hf _].
      rewrite (rd_fetched _ _ _ _ _ HL) in Hf.
      unfold has_any_images in Hany.
      by rewrite (rd_current _ _ _ _ _ HL), Hm, Hf in Hany. }
    assert (Htotal : total_image_count L = 0%nat).
    { unfold has_any_images in Hany. apply orb_false_iff in Hany as [Hc Hr].
      rewrite (rd_current _ _ _ _ _ HL) in Hc.
      rewrite (rd_total _ _ _ _ _ HL). rewrite (rd_ref _ _ _ _ _ HL) in Hr.
      destruct (ref_msg L); rewrite ?Hr; by apply count_images_zero. }
    unfold dispatch, handle_merge, handle_batch_edit, handle_single_edit,
      handle_missing_images, channel_send, when.
    rewrite Hed, Htotal, Hany.
    set (cls := classification_events _ _ _ _ _ _ _).
    assert (Hcls : existsb is_capability cls = false /\ existsb is_send cls = false)
      by done.
    destruct Hcls as [Hc1 Hc2]. clearbody cls.
    set (notice := Send (channel_id m) (send_embed no_image_embed true None (Some 30))).
    assert (Hshape : forall (ans : reply Z) (r : ctl unit unit),
      r = match ans with Ok _ => Returned tt | Fail e => Raised e end ->
      existsb is_capability (pre ++ cls ++ [Ev notice ans])%list = false /\
      exists pre0 ans0,
        (pre ++ cls ++ [Ev notice ans])%list = (pre0 ++ [Ev notice ans0])%list
        /\ existsb is_send pre0 = false
        /\ r = match ans0 with Ok _ => Returned tt | Fail e => Raised e end).
    { intros ans r ->. split.
      - by rewrite !existsb_app, Pc, Hc1.
      - exists (pre ++ cls)%list, ans. by rewrite <- app_assoc, existsb_app, Ps, Hc2. }
    destruct (wants_merge L); cbn.
    all: intros [z|e]; cbn; intros _ _ _ _; by apply Hshape.
Qed.

(** C8.  A message that went through classification with the editing
    heuristic answering yes, and that has no image of its own nor in a
    resolved reply target, gets the "No Image Found" notice, removed after 30
    seconds, as the only message sent, and no capability is called. *)
Theorem edit_without_image_gets_notice (rt : PyRuntime) (cfg : Config) (w : oracle)
    (st : BotState) (m : Message) :
  let p := on_message rt cfg m st in
  let t := trace_of w p in
  has_images_in_message rt m = false ->
  existsb (fetched_with_images rt) t = false ->
  existsb classified t = true ->
  existsb editing_wanted t = true ->
  existsb is_capability t = false /\
  exists pre ans,
    t = (pre ++ [Ev (Send (channel_id m)
                       (send_embed no_image_embed true None (Some 30))) ans])%list
    /\ existsb is_send pre = false
    /\ outcome w p = match ans with Ok _ => Returned tt | Fail e => Raised e end.
Proof.
  intros p t. exact (wp_run _ _ w 0%nat (on_message_edit_without_image rt cfg m st)).
Qed.

(** C8 at a concrete message: "gacha edit this" without any attachment. *)
Lemma edit_without_image_gets_notice_witness :
  let m := Sample.guild_message "gacha edit this" in
  let p := on_message Sample.runtime Sample.config m Sample.fresh_state in
  let t := trace_of Scenario.editing_world p in
  has_images_in_message Sample.runtime m = false /\
  existsb (fetched_with_images Sample.runtime) t = false /\
  existsb classified t = true /\
  existsb editing_wanted t = true /\
  existsb is_capability t = false /\
  exists pre ans,
    t = (pre ++ [Ev (Send 5 (send_embed no_image_embed true None (Some 30))) ans])%list
    /\ existsb is_send pre = false
    /\ outcome Scenario.editing_world p
       = match ans with Ok _ => Returned tt | Fail e => Raised e end.
Proof.
  intros m p t.
  split; [reflexivity|]. split; [reflexivity|]. split; [reflexivity|].
  split; [reflexivity|].
  exact (edit_without_image_gets_notice Sample.runtime Sample.config
           Scenario.editing_world Sample.fresh_state m eq_refl eq_refl eq_refl eq_refl).
Defined.

(** ** C5: lifetimes of the dispatcher's notices *)

(** A property of the calls made before dispatch and of the calls of the
    dispatcher is a property of every call of the handler. *)
Lemma on_message_safe (rt : PyRuntime) (cfg : Config) (m : Message) (st : BotState)
    (P : event -> bool) :
  (forall ev, is_prelude ev || is_process_commands ev || is_classification ev = true ->
              P ev = true) ->
  (forall L, safe P (dispatch rt m L)) ->
  wp (on_message rt cfg m st) (fun t _ => forallb P t = true).
Proof.
  intros Hpre Hdisp.
  assert (Hbefore : forall t, forallb before_dispatch t = true -> forallb P t = true).
  { intros t. rewrite !forallb_forall. intros H ev Hev. specialize (H ev Hev).
    apply Hpre. unfold before_dispatch in H.
    destruct (is_prelude ev), (is_process_commands ev), (is_classification ev); done. }
  apply on_message_cases.
  - intros t c s0 Ht _ _. by apply Hbefore.
  - intros pre g L HL. eapply wp_mono; [|apply (Hdisp L)].
    cbv beta. intros t' _ Ht'.
    rewrite !forallb_app, Ht', (Hbefore pre), andb_true_r.
    + unfold classification_events. cbn [forallb andb]. by rewrite !Hpre.
    + apply prelude_before_dispatch, (rd_pre _ _ _ _ _ HL).
Qed.

Lemma dispatch_notice_lifetimes (rt : PyRuntime) (m : Message) (L : Locals) :
  safe notice_lifetime_ok (dispatch rt m L).
Proof.
  unfold_dispatch. safe_auto.
  apply holds_perform. intros r. unfold partial_success_embed.
  by destruct (3 <? length _)%nat.
Qed.

(** C5, as the code has it.  Every notice the handler sends to the channel
    is removed after 30 seconds (the NSFW notices, the capability failures,
    the corrective notices, the generation failure and also the partial
    batch summary), save the notices that follow a refused send (the
    platform's explicit-content rejection and the other "Failed to send"
    notices), which carry no lifetime. *)
Theorem notice_lifetimes (rt : PyRuntime) (cfg : Config) (w : oracle)
    (st : BotState) (m : Message) :
  forallb notice_lifetime_ok (trace_of w (on_message rt cfg m st)) = true.
Proof.
  apply (wp_run _ (fun t _ => forallb notice_lifetime_ok t = true) w 0%nat).
  apply on_message_safe.
  - by intros [X [] r].
  - intros L. apply dispatch_notice_lifetimes.
Qed.

(** C5 as stated fails.  When the platform refuses the edited picture as
    explicit, the "Content Blocked" notice is sent without a lifetime; and
    when one of two edits fails, the partial summary is sent with a
    lifetime of 30 seconds. *)
Lemma rejection_notice_stays_and_summary_expires :
  let p1 := on_message Sample.runtime Sample.config Scenario.photo_edit_request
              Sample.fresh_state in
  let p2 := on_message Sample.runtime Sample.config Scenario.photos_edit_request
              Sample.fresh_state in
  last (trace_of Scenario.rejecting_world p1)
  = Some (Ev (Send 5 (send_embed
                        (content_blocked_embed "The edited image contains" advice_prompt)
                        true (Some true) None))
             (Ok 9002)) /\
  last (trace_of Scenario.half_failing_world p2)
  = Some (Ev (Send 5 (send_embed
                        (partial_success_embed ["Image 2: model overloaded"])
                        false None (Some 30)))
             (Ok 9001)).
Proof. vm_compute. split; reflexivity. Qed.

(** ** C10: seeds of the edit calls *)

Lemma seeded_weaken (prev : option Z) (t : list event) :
  seeded None t = true -> seeded prev t = true.
Proof.
  destruct t as [|ev t]; [done|]. cbn [seeded].
  destruct (edit_seed ev); [done|]. done.
Qed.

Lemma seeded_app (prev : option Z) (t1 t2 : list event) :
  seeded prev t1 = true -> seeded None t2 = true -> seeded prev (t1 ++ t2) = true.
Proof.
  revert prev. induction t1 as [|ev t1 IH]; intros prev H1 H2.
  - by apply seeded_weaken.
  - cbn [app seeded] in *. apply andb_true_iff in H1 as [Hev H1].
    by rewrite Hev, IH.
Qed.

#[export] Instance seeded_closed : Closed (fun t => seeded None t = true).
Proof. split; [done|]. intros t1 t2. apply seeded_app. Qed.

Lemma seed_of_entropy_range (e : Z) :
  100000 <= seed_of_entropy e <= 999999.
Proof.
  unfold seed_of_entropy.
  pose proof (Z.mod_pos_bound e (999999 - 100000 + 1)). lia.
Qed.

(** The draw of a seed followed by the edit call that uses it. *)
Lemma holds_randint_edit {R A} (prompt url : string)
    (k : Z -> option string * string * option string -> M R A) :
  (forall seed res, holds (fun t => seeded None t = true) (k seed res)) ->
  holds (fun t => seeded None t = true)
    (bind (randint 100000 999999)
       (fun seed => bind (perform (GenerateImg2ImgWithRetry prompt url seed)) (k seed))).
Proof.
  intros Hk s. unfold randint. cbn. intros [e|exn]; cbn; [|done].
  pose proof (seed_of_entropy_range e) as Hr. unfold seed_of_entropy in Hr.
  intros [res|exn]; cbn.
  - eapply wp_mono; [|apply Hk]. cbn. intros t _ ->.
    rewrite Z.eqb_refl. cbn.
    rewrite andb_true_r. apply andb_true_iff. split; apply Z.leb_le; lia.
  - rewrite Z.eqb_refl. cbn.
    rewrite andb_true_r. apply andb_true_iff. split; apply Z.leb_le; lia.
Qed.

Ltac seeded_step :=
  lazymatch goal with
  | |- holds _ (bind (randint _ _) _) =>
      apply holds_randint_edit; intros ? ?
  | _ => safe_step
  end.

Lemma dispatch_seeded (rt : PyRuntime) (m : Message) (L : Locals) :
  holds (fun t => seeded None t = true) (dispatch rt m L).
Proof.
  unfold dispatch, process_commands, handle_merge, handle_batch_edit, handle_single_edit,
    handle_missing_images, handle_generation, handle_web_search,
    handle_image_analysis, analysis_body, nsfw_check, send_rejected, edit_one,
    unbound_name, ping_enabled_for, store_metadata, channel_send, the_guild.
  repeat (seeded_step; cbv beta zeta).
Qed.

Lemma before_dispatch_seeded (prev : option Z) (t : list event) :
  forallb (fun ev => is_prelude ev || is_process_commands ev || is_classification ev) t
  = true ->
  seeded prev t = true.
Proof.
  revert prev. induction t as [|ev t IH]; intros prev; cbn [forallb seeded]; [done|].
  intros H. apply andb_true_iff in H as [Hev Ht]. rewrite (IH _ Ht), andb_true_r.
  by destruct ev as [X [] r].
Qed.

Lemma on_message_seeded (rt : PyRuntime) (cfg : Config) (m : Message) (st : BotState) :
  wp (on_message rt cfg m st) (fun t _ => seeded None t = true).
Proof.
  assert (Hbefore : forall t, forallb before_dispatch t = true -> seeded None t = true).
  { intros t Ht. apply before_dispatch_seeded.
    rewrite forallb_forall in Ht. apply forallb_forall. intros ev Hev.
    specialize (Ht ev Hev). unfold before_dispatch in Ht.
    destruct (is_prelude ev), (is_process_commands ev), (is_classification ev); done. }
  apply on_message_cases.
  - intros t c s0 Ht _ _. by apply Hbefore.
  - intros pre g L HL. eapply wp_mono; [|apply (dispatch_seeded rt m L)].
    cbv beta. intros t' _ Ht'.
    apply seeded_app; [|apply seeded_app; [done|exact Ht']].
    apply Hbefore, prelude_before_dispatch, (rd_pre _ _ _ _ _ HL).
Qed.

Lemma nsfw_check_wp (rt : PyRuntime) (m : Message) (prompt what : string) (s : BotState) :
  wp (nsfw_check m prompt what s)
    (fun t cs => (forall id, existsb (file_sent id) t = false) /\
                 edit_seeds t = [] /\ cs.2 = s).
Proof.
  unfold nsfw_check, try_except, channel_send, when. cbn.
  intros [nsfw|e]; cbn; [|done].
  destruct (String.eqb nsfw "NSFW"); cbn; [|done].
  intros [id|e]; cbn; done.
Qed.

Ltac none_sent H :=
  let id := fresh "id" in
  let Hid := fresh "Hid" in
  intros id Hid; exfalso; eapply H; [|exact Hid]; intros ?; reflexivity.

Lemma single_edit_records_seed (rt : PyRuntime) (m : Message) (L : Locals)
    (st : BotState) :
  wp (handle_single_edit rt m L st)
    (fun t cs =>
       forall id, existsb (file_sent id) t = true ->
       exists seed url,
         edit_seeds t = [seed] /\
         image_metadata cs.2 !! Py.str id
         = Some (MetaImg2Img (clean_message_content L) seed url)).
Proof.
  unfold handle_single_edit, when.
  destruct (_ && _); [|done]. cbn.
  intros [[]|e]; cbn; [|done].
  destruct (pick_image_url rt m L) as [image_url|]; cbn; [|done].
  destruct (Py.truthy image_url); cbn; [|done].
  apply wp_pbind. eapply wp_mono; [|apply (nsfw_check_wp rt)].
  intros t1 [[[]|r|e] s1] (F1 & S1 & E1); cbn in E1; subst s1; cbn.
  2,3: intros id; by rewrite app_nil_r, F1.
  unfold ping_enabled_for, the_guild, try_except, channel_send, store_metadata,
    send_rejected.
  assert (Hnone : forall t2,
            (forall id, existsb (file_sent id) t2 = false) ->
            forall id, existsb (file_sent id) (t1 ++ t2) = true -> False).
  { intros t2 H2 id Hid. by rewrite existsb_app, F1, H2 in Hid. }
  intros [e|exn]; cbn;
    [|none_sent Hnone].
  intros [[[[img_data|] final_url] error]|exn]; cbn;
    [| |none_sent Hnone].
  - destruct (guild m) as [g|]; cbn;
      [|none_sent Hnone].
    intros [sent|exn]; cbn.
    + intros id Hid. rewrite existsb_app, F1 in Hid. cbn in Hid.
      rewrite orb_false_r in Hid. apply Z.eqb_eq in Hid as ->.
      eexists _, image_url. split.
      * unfold edit_seeds in *. by rewrite omap_app, S1.
      * apply lookup_insert_eq.
    + destruct (is_http exn); cbn;
        [|none_sent Hnone].
      destruct (http_code exn =? 20009); cbn; intros [z|exn']; cbn;
        none_sent Hnone.
  - intros [z|exn]; cbn;
      none_sent Hnone.
Qed.

(** C10.  In every execution of the handler each edit call, of the batch
    branch as of the single-image branch, comes right after a draw of its
    own and is given the seed [random.randint(100000, 999999)] makes of that
    draw, an integer from 100000 to 999999.  In the single-image branch,
    when the edited picture is sent as message [id], the one edit call's
    seed is the seed recorded under [id] in the metadata store. *)
Theorem edit_seeds_fresh_and_recorded (rt : PyRuntime) (cfg : Config) (w : oracle) :
  (forall st m, seeded None (trace_of w (on_message rt cfg m st)) = true) /\
  (forall n m L st id,
     let r := run w n (handle_single_edit rt m L st) in
     existsb (file_sent id) r.1 = true ->
     exists seed url,
       edit_seeds r.1 = [seed] /\
       image_metadata r.2.2 !! Py.str id
       = Some (MetaImg2Img (clean_message_content L) seed url)).
Proof.
  split.
  - intros st m. exact (wp_run _ _ w 0%nat (on_message_seeded rt cfg m st)).
  - intros n m L st id r.
    exact (wp_run _ _ w n (single_edit_records_seed rt m L st) id).
Qed.

(** C10 at a concrete message: "gacha edit this" with one picture, the draw
    answering 1234567. *)
Lemma edit_seeds_fresh_and_recorded_witness :
  let t := trace_of Scenario.editing_world
             (on_message Sample.runtime Sample.config Scenario.photo_edit_request
                Sample.fresh_state) in
  let r := run Scenario.editing_world 0
             (handle_single_edit Sample.runtime Scenario.photo_edit_request
                Scenario.photo_edit_locals Sample.fresh_state) in
  (edit_seeds t = [434567] /\ seeded None t = true) /\
  (existsb (file_sent 9001) r.1 = true /\
   exists seed url,
     edit_seeds r.1 = [seed] /\
     image_metadata r.2.2 !! "9001"
     = Some (MetaImg2Img "gacha edit this" seed url)).
Proof.
  intros t r.
  pose proof (edit_seeds_fresh_and_recorded Sample.runtime Sample.config
                Scenario.editing_world) as [Hseeded Hrecorded].
  split; [split; [reflexivity|apply Hseeded]|].
  split; [reflexivity|].
  exact (Hrecorded 0%nat Scenario.photo_edit_request Scenario.photo_edit_locals
           Sample.fresh_state 9001 eq_refl).
Defined.

(** * Further properties of the handler *)

(** ** The NSFW pre-check *)

(** X1. The pre-check never raises, and it ends the handler only when the prompt
    was classified "NSFW" and the notice was delivered: a failing classifier
    and a failing send of the notice both let the request go on. *)
Theorem nsfw_check_outcome (rt : PyRuntime) (w : oracle) (n : nat) (m : Message)
    (prompt what : string) (s : BotState) :
  let notice := Send (channel_id m) (send_embed (nsfw_embed what) true None (Some 30)) in
  run w n (nsfw_check m prompt what s)
  = match w n _ (ClassifyPrompt prompt) with
    | Ok verdict =>
        if String.eqb verdict "NSFW"
        then match w (S n) _ notice with
             | Ok id => ([Ev (ClassifyPrompt prompt) (Ok verdict); Ev notice (Ok id)],
                         (Returned tt, s))
             | Fail e => ([Ev (ClassifyPrompt prompt) (Ok verdict); Ev notice (Fail e)],
                          (Normal tt, s))
             end
        else ([Ev (ClassifyPrompt prompt) (Ok verdict)], (Normal tt, s))
    | Fail e => ([Ev (ClassifyPrompt prompt) (Fail e)], (Normal tt, s))
    end.
Proof.
  intros notice. unfold nsfw_check, try_except, channel_send, when. cbn.
  destruct (w n string (ClassifyPrompt prompt)) as [verdict|e]; cbn; [|done].
  destruct (String.eqb verdict "NSFW"); cbn; [|done].
  fold notice. by destruct (w (S n) Z notice).
Qed.

(** Every call of the pre-check is the classification of the prompt or the
    send of the NSFW notice. *)
Lemma nsfw_check_calls (m : Message) (prompt what : string) (s : BotState) :
  wp (nsfw_check m prompt what s)
    (fun t cs =>
       cs.2 = s /\
       forall P : event -> bool,
         (forall r, P (Ev (ClassifyPrompt prompt) r) = true) ->
         (forall r, P (Ev (Send (channel_id m)
                             (send_embed (nsfw_embed what) true None (Some 30))) r) = true) ->
         forallb P t = true).
Proof.
  unfold nsfw_check, try_except, channel_send, when. cbn.
  intros [nsfw|e]; cbn; [|by split; [|intros P -> _]].
  destruct (String.eqb nsfw "NSFW"); cbn; [|by split; [|intros P -> _]].
  intros [id|e]; cbn; split; try done; by intros P -> ->.
Qed.

(** ** Text-to-image generation *)

(** When the generated picture is sent as message [id], the seed and the
    parameters that [generate_image] returned, with the prompt, are what the
    metadata store holds under [id]; the block made one successful
    generation call. *)
Lemma generation_records_answer (m : Message) (L : Locals) (st : BotState) :
  wp (handle_generation m L st)
    (fun t cs =>
       forall id, existsb (file_sent id) t = true ->
       exists seed ai_params,
         omap generation_answer t = [(clean_message_content L, seed, ai_params)] /\
         image_metadata cs.2 !! Py.str id
         = Some (MetaGeneration (clean_message_content L) seed ai_params)).
Proof.
  unfold handle_generation, when.
  destruct (wants_generation L); [|done]. cbn.
  apply wp_pbind. eapply wp_mono; [|apply nsfw_check_calls].
  intros t1 [c1 s1] [E1 H1]. cbn in E1. subst s1.
  assert (F1 : forall id, existsb (file_sent id) t1 = false).
  { intros id. apply forallb_negb_existsb, H1; [done|]. by intros [z|e]. }
  assert (G1 : omap generation_answer t1 = []).
  { assert (forallb (fun ev => negb (is_some (generation_answer ev))) t1 = true) as Hn
      by (by apply H1).
    clear -Hn. induction t1 as [|ev t1 IH]; [done|]. cbn in Hn.
    apply andb_true_iff in Hn as [Hev Hn]. cbn. rewrite (IH Hn).
    by destruct (generation_answer ev). }
  assert (Hnone : forall t2,
            (forall id, existsb (file_sent id) t2 = false) ->
            forall id, existsb (file_sent id) (t1 ++ t2) = true -> False).
  { intros t2 H2 id Hid. by rewrite existsb_app, F1, H2 in Hid. }
  destruct c1 as [[]|r|e]; cbn; [|none_sent Hnone..].
  unfold ping_enabled_for, the_guild, try_except, channel_send, store_metadata,
    send_rejected.
  intros [[]|e]; cbn; [|none_sent Hnone].
  intros [result|e]; cbn; [|none_sent Hnone].
  destruct result as [|[| |img_data] seed final_url ai_params]; cbn.
  1,2,3: intros [z|e]; cbn; none_sent Hnone.
  destruct (guild m) as [g|]; cbn; [|none_sent Hnone].
  intros [sent|exn]; cbn.
  - intros id Hid. rewrite existsb_app, F1 in Hid. cbn in Hid.
    rewrite orb_false_r in Hid. apply Z.eqb_eq in Hid as ->.
    exists seed, ai_params. split.
    + by rewrite omap_app, G1.
    + apply lookup_insert_eq.
  - destruct (is_http exn); cbn; [|none_sent Hnone].
    destruct (http_code exn =? 20009); cbn; intros [z|exn']; cbn; none_sent Hnone.
Qed.

(** X2. A generated picture's prompt, seed and parameters can be read back from
    the metadata store under the id of the message that carried it. *)
Theorem generation_metadata_round_trip (w : oracle) (n : nat) (m : Message)
    (L : Locals) (st : BotState) (id : Z) :
  let r := run w n (handle_generation m L st) in
  existsb (file_sent id) r.1 = true ->
  exists seed ai_params,
    omap generation_answer r.1 = [(clean_message_content L, seed, ai_params)] /\
    image_metadata r.2.2 !! Py.str id
    = Some (MetaGeneration (clean_message_content L) seed ai_params).
Proof.
  intros r. exact (wp_run _ _ w n (generation_records_answer m L st) id).
Qed.

Lemma generation_metadata_round_trip_witness :
  let r := run Sample.calm_world 0
             (handle_generation (Sample.guild_message "gacha draw a cat")
                Scenario.draw_locals Sample.fresh_state) in
  existsb (file_sent 9001) r.1 = true /\
  exists seed ai_params,
    omap generation_answer r.1 = [("gacha draw a cat", seed, ai_params)] /\
    image_metadata r.2.2 !! "9001"
    = Some (MetaGeneration "gacha draw a cat" seed ai_params).
Proof.
  intros r. split; [reflexivity|].
  exact (generation_metadata_round_trip Sample.calm_world 0%nat
           (Sample.guild_message "gacha draw a cat") Scenario.draw_locals
           Sample.fresh_state 9001 eq_refl).
Defined.

(** ** Merge requests without enough images *)

Lemma dispatch_call_plain (t : list event) :
  forallb is_dispatch_call t = true ->
  existsb merge_wanted t = false /\ existsb editing_wanted t = false.
Proof.
  induction t as [|ev t IH]; cbn; [done|]. intros H.
  apply andb_true_iff in H as [Hev Ht]. destruct (IH Ht) as [-> ->].
  by destruct ev as [X [] r].
Qed.

Lemma prelude_not_merge_wanted (t : list event) :
  forallb is_prelude t = true -> existsb merge_wanted t = false.
Proof.
  induction t as [|ev t IH]; cbn; [done|]. intros H.
  apply andb_true_iff in H as [Hev Ht]. rewrite (IH Ht), orb_false_r.
  by destruct ev as [X [] r].
Qed.

Lemma before_dispatch_not_merge_wanted (t : list event) :
  forallb before_dispatch t = true -> existsb merge_wanted t = false.
Proof.
  induction t as [|ev t IH]; cbn; [done|]. intros H.
  apply andb_true_iff in H as [Hev Ht]. rewrite (IH Ht), orb_false_r.
  destruct ev as [X c r]. destruct c; try done. by destruct r.
Qed.

Lemma on_message_merge_shortfall (rt : PyRuntime) (cfg : Config) (m : Message)
    (st : BotState) :
  wp (on_message rt cfg m st)
    (fun t cs =>
       (count_images_in_message rt m < 2)%nat ->
       existsb (fetched_with_images rt) t = false ->
       existsb merge_wanted t = true ->
       existsb editing_wanted t = false ->
       existsb is_capability t = false /\
       exists pre ans,
         t = (pre ++ [Ev (Send (channel_id m)
                            (send_embed
                               (merge_shortfall_embed (count_images_in_message rt m))
                               true None (Some 30))) ans])%list
         /\ existsb is_send pre = false
         /\ cs.1 = match ans with Ok _ => Returned tt | Fail e => Raised e end).
Proof.
  apply on_message_cases.
  - intros t c s0 Ht _ _ _ _ Hm. by rewrite (before_dispatch_not_merge_wanted t Ht) in Hm.
  - intros pre g L HL.
    destruct (prelude_plain pre (rd_pre _ _ _ _ _ HL)) as (Pe & Pc & Ps).
    pose proof (prelude_not_merge_wanted pre (rd_pre _ _ _ _ _ HL)) as Pm.
    destruct (wants_merge L) eqn:Hmg; cycle 1.
    { eapply wp_mono; [|apply (dispatch_calls rt m L)].
      cbv beta. intros t' cs Ht' _ _ Hm. exfalso.
      destruct (dispatch_call_plain _ Ht') as [Hm' _].
      rewrite !existsb_app, Pm, Hm' in Hm. cbn in Hm. rewrite ?orb_false_r in Hm. done. }
    destruct (wants_editing L) eqn:Hed.
    { apply wp_True. intros t' cs _ _ _ He. exfalso.
      rewrite !existsb_app in He. apply orb_false_iff in He as [_ He].
      apply orb_false_iff in He as [He _]. cbn in He. done. }
    destruct (ref_has_images L) eqn:Href.
    { apply wp_True. intros t' cs _ Hf. exfalso.
      rewrite existsb_app, (rd_fetched _ _ _ _ _ HL), Href in Hf. done. }
    assert (Htotal : total_image_count L = count_images_in_message rt m).
    { rewrite (rd_total _ _ _ _ _ HL). rewrite (rd_ref _ _ _ _ _ HL) in Href.
      destruct (ref_msg L); by rewrite ?Href. }
    destruct (decide (count_images_in_message rt m < 2)%nat) as [Hlt|Hge];
      [|apply wp_True; intros t' cs Hlt; by exfalso].
    unfold dispatch, handle_merge, handle_batch_edit, handle_single_edit,
      handle_missing_images, channel_send, when, merge_shortfall_embed.
    rewrite Hmg, Hed, Htotal.
    set (cls := classification_events _ _ _ _ _ _ _).
    assert (Hcls : existsb is_capability cls = false /\ existsb is_send cls = false)
      by done.
    destruct Hcls as [Hc1 Hc2]. clearbody cls.
    assert (Hshape : forall (c : call Z) (ans : reply Z) (r : ctl unit unit),
      is_capability (Ev c ans) = false ->
      r = match ans with Ok _ => Returned tt | Fail e => Raised e end ->
      existsb is_capability (pre ++ cls ++ [Ev c ans])%list = false /\
      exists pre0 ans0,
        (pre ++ cls ++ [Ev c ans])%list = (pre0 ++ [Ev c ans0])%list
        /\ existsb is_send pre0 = false
        /\ r = match ans0 with Ok _ => Returned tt | Fail e => Raised e end).
    { intros c ans r Hc ->. split.
      - rewrite !existsb_app, Pc, Hc1. cbn [existsb orb]. by rewrite Hc.
      - exists (pre ++ cls)%list, ans. by rewrite <- app_assoc, existsb_app, Ps, Hc2. }
    destruct (count_images_in_message rt m) as [|[|k]]; [| |lia]; cbn.
    all: intros [z|e]; cbn; intros _ _ _ _; by apply Hshape.
Qed.

(** X3. A message with fewer than two images (none resolved from a reply
    target), for which the merge heuristic answers yes and the editing
    heuristic no, gets the corrective notice as the only message sent: "Need
    at least 2 images to merge" with one image, "Insufficient Images" with
    none; it is removed after 30 seconds and no capability is called. *)
Theorem merge_shortfall_gets_notice (rt : PyRuntime) (cfg : Config) (w : oracle)
    (st : BotState) (m : Message) :
  let p := on_message rt cfg m st in
  let t := trace_of w p in
  (count_images_in_message rt m < 2)%nat ->
  existsb (fetched_with_images rt) t = false ->
  existsb merge_wanted t = true ->
  existsb editing_wanted t = false ->
  existsb is_capability t = false /\
  exists pre ans,
    t = (pre ++ [Ev (Send (channel_id m)
                       (send_embed (merge_shortfall_embed (count_images_in_message rt m))
                          true None (Some 30))) ans])%list
    /\ existsb is_send pre = false
    /\ outcome w p = match ans with Ok _ => Returned tt | Fail e => Raised e end.
Proof.
  intros p t. exact (wp_run _ _ w 0%nat (on_message_merge_shortfall rt cfg m st)).
Qed.

Lemma merge_shortfall_gets_notice_witness :
  let m := Scenario.photo_merge_request in
  let p := on_message Sample.runtime Sample.config m Sample.fresh_state in
  let t := trace_of Scenario.merge_world p in
  (count_images_in_message Sample.runtime m < 2)%nat /\
  existsb (fetched_with_images Sample.runtime) t = false /\
  existsb merge_wanted t = true /\
  existsb editing_wanted t = false /\
  existsb is_capability t = false /\
  exists pre ans,
    t = (pre ++ [Ev (Send 5 (send_embed (merge_shortfall_embed 1) true None (Some 30)))
                   ans])%list
    /\ existsb is_send pre = false
    /\ outcome Scenario.merge_world p
       = match ans with Ok _ => Returned tt | Fail e => Raised e end.
Proof.
  intros m p t.
  assert (Hlt : (count_images_in_message Sample.runtime m < 2)%nat)
    by (vm_compute; lia).
  split; [exact Hlt|]. split; [reflexivity|]. split; [reflexivity|].
  split; [reflexivity|].
  exact (merge_shortfall_gets_notice Sample.runtime Sample.config
           Scenario.merge_world Sample.fresh_state m Hlt eq_refl eq_refl eq_refl).
Defined.

Lemma dispatch_merge_calls (rt : PyRuntime) (m : Message) (L : Locals) :
  safe merge_call_ok (dispatch rt m L).
Proof.
  unfold dispatch. apply holds_bind; [typeclasses eauto| |intros _].
  - unfold handle_merge, when. destruct (_ && _); [|apply holds_ret; typeclasses eauto].
    apply holds_bind; [typeclasses eauto|by apply holds_perform|intros _].
    cbv zeta. destruct (2 <=? length _)%nat eqn:Hlen;
      [|apply holds_ret; typeclasses eauto].
    unfold nsfw_check, send_rejected, ping_enabled_for, store_metadata, channel_send,
      the_guild.
    safe_auto. apply holds_perform. intros r. cbn [forallb merge_call_ok].
    by rewrite Hlen.
  - unfold process_commands, handle_batch_edit, handle_single_edit, handle_missing_images,
      handle_generation, handle_web_search, handle_image_analysis, analysis_body,
      nsfw_check, send_rejected, edit_one, unbound_name, randint, ping_enabled_for,
      store_metadata, channel_send, the_guild.
    safe_auto.
Qed.

(** X4. In every execution of the handler, each call to the merge capability is
    given at least two image urls. *)
Theorem merge_calls_have_two_images (rt : PyRuntime) (cfg : Config) (w : oracle)
    (st : BotState) (m : Message) :
  forallb merge_call_ok (trace_of w (on_message rt cfg m st)) = true.
Proof.
  apply (wp_run _ (fun t _ => forallb merge_call_ok t = true) w 0%nat).
  apply on_message_safe.
  - by intros [X [] r].
  - intros L. apply dispatch_merge_calls.
Qed.

(** ** Batch editing *)

(** The loop over the images never raises; each image draws one seed and
    adds exactly one entry, an edited file or an error line. *)
Lemma edit_loop_accounts (prompt : string) (urls : list string) (i : nat)
    (acc : list File * list string) (s : BotState) :
  wp (for_enumerate (edit_one prompt) i urls acc s)
    (fun t cs =>
       cs.2 = s /\
       (forall id, existsb (file_sent id) t = false) /\
       exists files failed,
         cs.1 = Normal (files, failed) /\
         (length files + length failed = length acc.1 + length acc.2 + length urls)%nat /\
         length (List.filter is_draw t) = length urls /\
         (length (edit_seeds t) <= length urls)%nat).
Proof.
  revert i acc. induction urls as [|u urls IH]; intros i acc; cbn [for_enumerate].
  { cbn. split; [done|]. split; [done|]. exists acc.1, acc.2. by destruct acc. }
  apply wp_bind. unfold edit_one at 1. unfold try_except, randint. cbn.
  assert (Hfin : forall (acc' : list File * list string) (extra : nat)
                    (t' : list event)
                    (r : ctl unit (list File * list string) * BotState),
            (length acc'.1 + length acc'.2 = S (length acc.1 + length acc.2))%nat ->
            (extra <= 1)%nat ->
            (r.2 = s /\
             (forall id, existsb (file_sent id) t' = false) /\
             exists files failed,
               r.1 = Normal (files, failed) /\
               (length files + length failed
                = length acc'.1 + length acc'.2 + length urls)%nat /\
               length (List.filter is_draw t') = length urls /\
               (length (edit_seeds t') <= length urls)%nat) ->
            r.2 = s /\
            (forall id, existsb (file_sent id) t' = false) /\
            exists files failed,
              r.1 = Normal (files, failed) /\
              (length files + length failed
               = length acc.1 + length acc.2 + S (length urls))%nat /\
              S (length (List.filter is_draw t')) = S (length urls) /\
              (extra + length (omap edit_seed t') <= S (length urls))%nat).
  { intros acc' extra t' r Hacc Hex (E & F' & files & failed & Hr & Hlen & Hd & Hs).
    split; [done|]. split; [done|]. exists files, failed.
    unfold edit_seeds in Hs. repeat split; [done|lia..]. }
  intros [e|exn]; cbn.
  - intros [[[[img_data|] final_url] error]|exn']; cbn.
    + eapply wp_mono; [|apply IH]. cbv beta. intros t' r H.
      eapply (Hfin _ 1%nat); [| |exact H]; [cbn; rewrite ?length_app; cbn; lia|lia].
    + eapply wp_mono; [|apply IH]. cbv beta. intros t' r H.
      eapply (Hfin _ 1%nat); [| |exact H]; [cbn; rewrite ?length_app; cbn; lia|lia].
    + eapply wp_mono; [|apply IH]. cbv beta. intros t' r H.
      eapply (Hfin _ 1%nat); [| |exact H]; [cbn; rewrite ?length_app; cbn; lia|lia].
  - eapply wp_mono; [|apply IH]. cbv beta. intros t' r H.
    eapply (Hfin _ 0%nat); [| |exact H]; [cbn; rewrite ?length_app; cbn; lia|lia].
Qed.

Lemma batch_edit_records_counts (rt : PyRuntime) (m : Message) (L : Locals)
    (st : BotState) :
  wp (handle_batch_edit rt m L st)
    (fun t cs =>
       forall id, existsb (file_sent id) t = true ->
       exists edited failed,
         image_metadata cs.2 !! Py.str id
         = Some (MetaBatchEdit (clean_message_content L)
                   (collect_image_urls rt m (ref_msg L)) edited failed) /\
         (0 < edited)%nat /\
         (edited + failed = length (collect_image_urls rt m (ref_msg L)))%nat /\
         length (List.filter is_draw t) = length (collect_image_urls rt m (ref_msg L))).
Proof.
  unfold handle_batch_edit, when. cbv zeta.
  set (urls := collect_image_urls rt m (ref_msg L)). clearbody urls.
  destruct (_ && _ && _); [|done].
  destruct (2 <=? length urls)%nat; cbn; [|by intros [[]|e]].
  intros [[]|e]; cbn; [|done].
  apply wp_pbind. eapply wp_mono; [|apply nsfw_check_calls].
  intros t1 [c1 s1] [E1 H1]. cbn in E1. subst s1.
  assert (F1 : forall id, existsb (file_sent id) t1 = false).
  { intros id. apply forallb_negb_existsb, H1; [done|]. by intros [z|e]. }
  assert (D1 : List.filter is_draw t1 = []).
  { assert (forallb (fun ev => negb (is_draw ev)) t1 = true) as Hn by (by apply H1).
    clear -Hn. induction t1 as [|ev t1 IH]; [done|]. cbn in Hn.
    apply andb_true_iff in Hn as [Hev Hn]. cbn. rewrite (IH Hn).
    by destruct (is_draw ev). }
  destruct c1 as [[]|r|e]; cbn; [|intros id; by rewrite app_nil_r, F1..].
  apply wp_bind. eapply wp_mono; [|apply edit_loop_accounts].
  intros t2 [c2 s2] (E2 & F2 & files & failed & Hc2 & Hlen & Hd & _).
  cbn in E2, Hc2, Hlen. subst s2 c2. cbn.
  assert (Hnone : forall t3,
            (forall id, existsb (file_sent id) t3 = false) ->
            forall id, existsb (file_sent id) (t1 ++ t2 ++ t3) = true -> False).
  { intros t3 H3 id Hid. by rewrite !existsb_app, F1, F2, H3 in Hid. }
  unfold ping_enabled_for, the_guild, try_except, channel_send, store_metadata,
    send_rejected.
  destruct files as [|f files]; cbn.
  { intros [z|e]; cbn; none_sent Hnone. }
  destruct (guild m) as [g|]; cbn; [|none_sent Hnone].
  assert (Hgood : forall (t3 : list event) (meta : gmap string MetaEntry) (id sent : Z),
            meta !! Py.str sent
            = Some (MetaBatchEdit (clean_message_content L)
                      urls
                      (S (length files)) (length failed)) ->
            List.filter is_draw t3 = [] ->
            (existsb (file_sent id) (t1 ++ t2 ++ t3) = true -> sent = id) ->
            existsb (file_sent id) (t1 ++ t2 ++ t3) = true ->
            exists edited failed0,
              meta !! Py.str id
              = Some (MetaBatchEdit (clean_message_content L)
                        urls edited failed0) /\
              (0 < edited)%nat /\
              (edited + failed0 = length urls)%nat /\
              length (List.filter is_draw (t1 ++ t2 ++ t3))
              = length urls).
  { intros t3 meta id sent Hmeta D3 Hsent Hid. rewrite <- (Hsent Hid).
    exists (S (length files)), (length failed). split; [done|]. split; [lia|].
    split; [cbn in Hlen; lia|].
    by rewrite !List.filter_app, D1, D3, app_nil_r. }
  intros [sent|exn]; cbn.
  - destruct (bool_decide (failed = [])); cbn.
    + intros id. apply (Hgood [_] _ id sent); [apply lookup_insert_eq|done|].
      rewrite !existsb_app, F1, F2. cbn. rewrite orb_false_r.
      intros H. by apply Z.eqb_eq in H.
    + intros [z|e]; cbn; intros id.
      * apply (Hgood [_; _] _ id sent); [apply lookup_insert_eq|done|].
        rewrite !existsb_app, F1, F2. cbn. rewrite !orb_false_r.
        intros H. by apply Z.eqb_eq in H.
      * apply (Hgood [_; _] _ id sent); [apply lookup_insert_eq|done|].
        rewrite !existsb_app, F1, F2. cbn. rewrite !orb_false_r.
        intros H. by apply Z.eqb_eq in H.
  - destruct (is_http exn); cbn; [|none_sent Hnone].
    destruct (http_code exn =? 20009); cbn; intros [z|exn']; cbn; none_sent Hnone.
Qed.

(** X5. When the batch branch sends its edited pictures as message [id], the
    metadata stored under [id] counts every collected image once: the
    edited and the failed ones add up to the number of image urls, at least
    one was edited, and one seed was drawn per image. *)
Theorem batch_edit_accounts_for_every_image (rt : PyRuntime) (w : oracle) (n : nat)
    (m : Message) (L : Locals) (st : BotState) (id : Z) :
  let r := run w n (handle_batch_edit rt m L st) in
  let urls := collect_image_urls rt m (ref_msg L) in
  existsb (file_sent id) r.1 = true ->
  exists edited failed,
    image_metadata r.2.2 !! Py.str id
    = Some (MetaBatchEdit (clean_message_content L) urls edited failed) /\
    (0 < edited)%nat /\
    (edited + failed = length urls)%nat /\
    length (List.filter is_draw r.1) = length urls.
Proof.
  intros r urls. exact (wp_run _ _ w n (batch_edit_records_counts rt m L st) id).
Qed.

Lemma batch_edit_accounts_for_every_image_witness :
  let r := run Scenario.half_failing_world 0
             (handle_batch_edit Sample.runtime Scenario.photos_edit_request
                Scenario.photos_edit_locals Sample.fresh_state) in
  let urls := collect_image_urls Sample.runtime Scenario.photos_edit_request None in
  existsb (file_sent 9001) r.1 = true /\
  exists edited failed,
    image_metadata r.2.2 !! "9001"
    = Some (MetaBatchEdit "gacha edit this" urls edited failed) /\
    (0 < edited)%nat /\
    (edited + failed = length urls)%nat /\
    length (List.filter is_draw r.1) = length urls.
Proof.
  intros r urls. split; [reflexivity|].
  exact (batch_edit_accounts_for_every_image Sample.runtime Scenario.half_failing_world
           0%nat Scenario.photos_edit_request Scenario.photos_edit_locals
           Sample.fresh_state 9001 eq_refl).
Defined.

(** ** Collected image urls *)

Lemma image_urls_count (rt : PyRuntime) (msg : Message) :
  length (image_urls_of rt msg) = count_images_in_message rt msg.
Proof. unfold image_urls_of, count_images_in_message. apply length_map. Qed.

(** X6. The number of urls the merge and batch branches collect equals
    [total_image_count] as the handler computed it (the referenced message
    counting only when it has an image), so their inner test on the length
    of the list never differs from the outer test on the count. *)
Theorem collected_urls_match_count (rt : PyRuntime) (m : Message)
    (rmsg : option Message) :
  length (collect_image_urls rt m rmsg)
  = match rmsg with
    | Some r => if has_images_in_message rt r
                then (count_images_in_message rt m + count_images_in_message rt r)%nat
                else count_images_in_message rt m
    | None => count_images_in_message rt m
    end.
Proof.
  unfold collect_image_urls. rewrite length_app, !image_urls_count.
  destruct rmsg as [r|]; cbn [length]; [|lia].
  rewrite image_urls_count.
  destruct (has_images_in_message rt r) eqn:Hr; [done|].
  rewrite (count_images_zero rt r Hr). lia.
Qed.

(** ** Mention commands, further *)

Lemma no_keyword_no_command (rt : PyRuntime) (cfg : Config) (m : Message) :
  has_mention_keyword rt m = false ->
  mention_commands rt cfg m = ret tt.
Proof.
  unfold has_mention_keyword, mention_commands, when. intros H.
  apply orb_false_iff in H as [H Hw]. apply orb_false_iff in H as [Ha Hd].
  rewrite Ha, Hd, Hw. by destruct (mentions_bot m).
Qed.

(** X7. A mention command from an author who is neither the owner nor an
    administrator is answered with the "Admin Only" reply and nothing else:
    the memory is not even looked up and the state is unchanged. *)
Theorem unauthorized_mention_is_refused (rt : PyRuntime) (cfg : Config) (w : oracle)
    (st : BotState) (m : Message) (g : Guild) :
  guild m = Some g ->
  author_bot m = false ->
  author_id m ∉ blocked_users st ->
  mentions_bot m = true ->
  has_mention_keyword rt m = true ->
  is_admin cfg m = false ->
  let p := on_message rt cfg m st in
  let answer := w 0%nat _ (Reply admin_only_embed) in
  trace_of w p = [Ev (Reply admin_only_embed) answer] /\
  final_state w p = st /\
  outcome w p = match answer with Ok _ => Returned tt | Fail e => Raised e end.
Proof.
  intros Hg Hbot Hblocked Hmention Hkey Hadmin p answer. subst p answer.
  unfold final_state, outcome, trace_of, result_of.
  unfold on_message, when, the_guild.
  rewrite Hg, Hbot. cbn. rewrite (bool_decide_eq_false_2 _ Hblocked). cbn.
  unfold mention_commands, when, mention_activate, mention_deactivate, mention_wack,
    message_reply, has_mention_keyword in *.
  rewrite Hmention, Hadmin. cbv zeta.
  destruct (Py.contains "activate" _); cbn.
  { by destruct (w 0%nat unit _). }
  destruct (Py.contains "deactivate" _); cbn.
  { by destruct (w 0%nat unit _). }
  destruct (Py.contains "wack" _); cbn; [|done].
  by destruct (w 0%nat unit _).
Qed.

Lemma unauthorized_mention_is_refused_witness :
  let m := Scenario.member_activate_request in
  let p := on_message Sample.runtime Sample.config m Sample.fresh_state in
  let answer := Sample.calm_world 0%nat _ (Reply admin_only_embed) in
  guild m = Some Sample.lobby /\
  author_bot m = false /\
  (author_id m ∉ blocked_users Sample.fresh_state) /\
  mentions_bot m = true /\
  has_mention_keyword Sample.runtime m = true /\
  is_admin Sample.config m = false /\
  trace_of Sample.calm_world p = [Ev (Reply admin_only_embed) answer] /\
  final_state Sample.calm_world p = Sample.fresh_state /\
  outcome Sample.calm_world p
  = match answer with Ok _ => Returned tt | Fail e => Raised e end.
Proof.
  intros m p answer.
  assert (Hnb : author_id m ∉ blocked_users Sample.fresh_state).
  { apply not_elem_of_empty. }
  split; [reflexivity|]. split; [reflexivity|]. split; [exact Hnb|].
  split; [reflexivity|]. split; [reflexivity|]. split; [reflexivity|].
  exact (unauthorized_mention_is_refused Sample.runtime Sample.config
           Sample.calm_world Sample.fresh_state m Sample.lobby
           eq_refl eq_refl Hnb eq_refl eq_refl eq_refl).
Defined.

(** The loop of "wack" only consults and resets the memory, leaves the
    state alone, and counts exactly the resets it made. *)
Lemma wack_loop_counts (g : Guild) (l : list Channel) (i b : nat) (s : BotState) :
  wp (for_enumerate (wack_channel g) i l b s)
    (fun t cs =>
       forallb is_memory_call t = true /\ cs.2 = s /\
       match cs.1 with
       | Normal cleared => cleared = (b + length (List.filter is_reset t))%nat
       | _ => True
       end).
Proof.
  revert i b. induction l as [|ch l IH]; intros i b; cbn [for_enumerate].
  { cbn. split; [done|]. split; [done|]. lia. }
  apply wp_bind. unfold wack_channel at 1. destruct (chan_is_text ch); cbn.
  - intros [[|]|e]; cbn; [|..].
    + intros [[]|e]; cbn; [|done].
      eapply wp_mono; [|apply IH]. cbv beta. intros t [c s'] (H1 & H2 & H3).
      cbn in *. rewrite H1. split; [done|]. split; [done|].
      destruct c; [lia|done..].
    + eapply wp_mono; [|apply IH]. cbv beta. intros t [c s'] (H1 & H2 & H3).
      cbn in *. rewrite H1. split; [done|]. split; [done|].
      destruct c; [lia|done..].
    + done.
  - eapply wp_mono; [|apply IH]. cbv beta. intros t [c s'] (H1 & H2 & H3).
    cbn in *. by rewrite ?H1.
Qed.

Lemma mention_commands_terminal (rt : PyRuntime) (cfg : Config) (m : Message)
    (s : BotState) :
  mentions_bot m = true ->
  has_mention_keyword rt m = true ->
  wp (mention_commands rt cfg m s)
    (fun t cs => forallb is_mention_step t = true /\ cs.2 = s /\
                 match cs.1 with Normal _ => False | _ => True end).
Proof.
  intros Hm Hk. unfold mention_commands, when, has_mention_keyword in *.
  rewrite Hm. cbv zeta.
  destruct (Py.contains "activate" _).
  { unfold mention_activate, message_reply. destruct (is_admin cfg m); cbn.
    - intros [[|]|e]; cbn; [|..].
      + intros [[]|e]; cbn; [|done]. intros [[]|e]; cbn; done.
      + intros [[]|e]; cbn; done.
      + done.
    - intros [[]|e]; cbn; done. }
  destruct (Py.contains "deactivate" _).
  { unfold mention_deactivate, message_reply. destruct (is_admin cfg m); cbn.
    - intros [[|]|e]; cbn; [|..].
      + intros [[|]|e]; cbn; [|..].
        * intros [[]|e]; cbn; [|done]. intros [[]|e]; cbn; done.
        * intros [[]|e]; cbn; done.
        * done.
      + intros [[]|e]; cbn; done.
      + done.
    - intros [[]|e]; cbn; done. }
  destruct (Py.contains "wack" _); [|done].
  unfold mention_wack, message_reply, the_guild. destruct (is_admin cfg m); cbn.
  - intros [[|]|e]; cbn; [|..].
    + destruct (guild m) as [g|]; cbn; [|done].
      apply wp_pbind, wp_bind. eapply wp_mono; [|apply wack_loop_counts].
      assert (Himp : forall t, forallb is_memory_call t = true ->
                               forallb is_mention_step t = true).
      { intros t. rewrite !forallb_forall. intros H ev Hev.
        unfold is_mention_step. by rewrite (H ev Hev). }
      intros t [[a|r|e] s'] (H1 & H2 & _); cbn in H2; subst s'; cbn;
        [|rewrite app_nil_r; auto..].
      intros [[]|e]; cbn; rewrite !forallb_app, (Himp _ H1); done.
    + intros [[]|e]; cbn; done.
    + done.
  - intros [[]|e]; cbn; done.
Qed.

(** X8. A message that mentions the bot and carries one of the keywords ends in
    the mention command: the handler only talks to the memory cog and
    replies, it leaves the state alone, and it never goes on to command
    processing, classification or dispatch. *)
Theorem mention_command_is_terminal (rt : PyRuntime) (cfg : Config) (w : oracle)
    (st : BotState) (m : Message) :
  mentions_bot m = true ->
  has_mention_keyword rt m = true ->
  let p := on_message rt cfg m st in
  forallb is_mention_step (trace_of w p) = true /\
  final_state w p = st /\
  outcome w p <> Normal tt.
Proof.
  intros Hm Hk p. subst p.
  assert (wp (on_message rt cfg m st)
            (fun t cs => forallb is_mention_step t = true /\ cs.2 = st /\
                         cs.1 <> Normal tt)) as H.
  { unfold on_message, when, the_guild.
    destruct (author_bot m || negb (is_some (guild m))); cbn; [done|].
    destruct (bool_decide (author_id m ∈ blocked_users st)); cbn; [done|].
    destruct (guild m) as [g|]; cbn; [|done].
    apply wp_pbind. eapply wp_mono; [|by apply mention_commands_terminal].
    intros t [[[]|r|e] s1] (H1 & E1 & N1); cbn in E1, N1; subst; cbn;
      rewrite ?app_nil_r; done. }
  exact (wp_run _ _ w 0%nat H).
Qed.

Lemma mention_command_is_terminal_witness :
  let m := Scenario.deactivate_request in
  let p := on_message Sample.runtime Sample.config m Sample.fresh_state in
  mentions_bot m = true /\
  has_mention_keyword Sample.runtime m = true /\
  forallb is_mention_step (trace_of Scenario.active_world p) = true /\
  final_state Scenario.active_world p = Sample.fresh_state /\
  outcome Scenario.active_world p <> Normal tt.
Proof.
  intros m p. split; [reflexivity|]. split; [reflexivity|].
  exact (mention_command_is_terminal Sample.runtime Sample.config
           Scenario.active_world Sample.fresh_state m eq_refl eq_refl).
Defined.

(** * Settings, banner and welcome *)

(** ** What [save_settings] writes, read back by [load_settings] *)

Lemma load_whitelist_items (m : gmap string (list Z)) :
  load_whitelist (map_to_list m) = m.
Proof.
  unfold load_whitelist. rewrite fold_left_insert, (right_id_L ∅ (∪)).
  rewrite <- (list_to_map_to_list m) at 2.
  apply list_to_map_proper.
  - rewrite fmap_reverse, reverse_Permutation. apply NoDup_fst_map_to_list.
  - apply reverse_Permutation.
Qed.

Lemma load_pinging_items (rt : PyRuntime) (m : gmap Z bool) :
  (forall k, is_Some (m !! k) -> int_of_str rt (Py.str k) = Some k) ->
  load_pinging rt ((fun kv => (Py.str kv.1, kv.2)) <$> map_to_list m) = m.
Proof.
  intros Hint. unfold load_pinging.
  assert (Hl : Forall (fun kv : Z * bool => int_of_str rt (Py.str kv.1) = Some kv.1)
                 (map_to_list m)).
  { apply Forall_forall. intros [k v] Hin. apply Hint.
    exists v. by apply elem_of_map_to_list. }
  transitivity (fold_left (fun acc (kv : Z * bool) => <[kv.1 := kv.2]> acc)
                  (map_to_list m) (∅ : gmap Z bool)).
  - generalize (∅ : gmap Z bool). induction Hl as [|[k v] l Hk Hl IH]; intros acc.
    + done.
    + cbn in *. rewrite Hk. apply IH.
  - rewrite fold_left_insert, (right_id_L ∅ (∪)).
    rewrite <- (list_to_map_to_list m) at 2.
    apply list_to_map_proper.
    + rewrite fmap_reverse, reverse_Permutation. apply NoDup_fst_map_to_list.
    + apply reverse_Permutation.
Qed.

(** X9. Saving and loading again restores the state: when [load_settings] reads
    the document that [save_settings] has written, the block list, the pause
    set, the pinging table and the whitelist are those that were saved,
    whatever they were in memory before the load; the metadata store and
    the prefixes are not touched.  The integer keys of the pinging table
    must be read back by [int] as they were written by [str]. *)
Theorem saved_settings_are_restored (rt : PyRuntime) (st st' : BotState) :
  (forall k, is_Some (pinging_enabled st !! k) -> int_of_str rt (Py.str k) = Some k) ->
  let st2 := apply_settings_file rt (Some (settings_document (saved_settings st))) st' in
  settings st2 = saved_settings st /\
  blocked_users st2 = blocked_users st /\
  paused_servers st2 = paused_servers st /\
  pinging_enabled st2 = pinging_enabled st /\
  whitelisted_channels st2 = whitelisted_channels st /\
  image_metadata st2 = image_metadata st' /\
  custom_prefixes st2 = custom_prefixes st'.
Proof.
  intros Hint st2. subst st2. unfold apply_settings_file. cbn.
  split; [done|]. split; [apply list_to_set_elements_L|].
  split; [apply list_to_set_elements_L|].
  split; [by apply load_pinging_items|].
  split; [apply load_whitelist_items|done].
Qed.

Lemma saved_settings_are_restored_witness :
  let st := Scenario.tuned_state in
  (forall k, is_Some (pinging_enabled st !! k) ->
             int_of_str Sample.runtime (Py.str k) = Some k) /\
  let st2 := apply_settings_file Sample.runtime
               (Some (settings_document (saved_settings st))) Sample.fresh_state in
  settings st2 = saved_settings st /\
  blocked_users st2 = blocked_users st /\
  paused_servers st2 = paused_servers st /\
  pinging_enabled st2 = pinging_enabled st /\
  whitelisted_channels st2 = whitelisted_channels st /\
  image_metadata st2 = image_metadata Sample.fresh_state /\
  custom_prefixes st2 = custom_prefixes Sample.fresh_state.
Proof.
  assert (H : forall k, is_Some (pinging_enabled Scenario.tuned_state !! k) ->
                        int_of_str Sample.runtime (Py.str k) = Some k).
  { intros k [v Hk]. change (({[ 77 := false ]} : gmap Z bool) !! k = Some v) in Hk.
    apply lookup_singleton_Some in Hk as [<- _]. reflexivity. }
  split; [exact H|].
  exact (saved_settings_are_restored Sample.runtime Scenario.tuned_state
           Sample.fresh_state H).
Defined.

(** ** Reloading *)

(** X10. Reading the same settings file twice is reading it once: the command
    gate reloads before every command, and a second reload of an unchanged
    file leaves the state of the first. *)
Theorem reload_is_idempotent (rt : PyRuntime) (file : option SettingsDoc)
    (st : BotState) :
  apply_settings_file rt file (apply_settings_file rt file st)
  = apply_settings_file rt file st.
Proof.
  unfold apply_settings_file.
  destruct file as [[lg pa bl im pi wl]|]; cbn; [|done].
  destruct st as [[slg spa sbl sim spi swl] ? ? ? ? ? ?]; cbn.
  unfold update_settings; cbn.
  by destruct lg, pa, bl, im, pi, wl.
Qed.

(** ** The command gate under every environment *)

Lemma global_command_check_wp (rt : PyRuntime) (ctx : Context) (st : BotState) :
  wp (global_command_check rt ctx st) (fun t cs =>
    match cs.1 with
    | Normal _ => False
    | Returned true => List.filter is_send t = []
    | Returned false =>
        exists ev, List.filter is_send t = [ev] /\ expiring_notice_sent ev = true
    | Raised e => exists ev, last t = Some ev /\ failed_with e ev
    end).
Proof.
  unfold global_command_check, load_settings, ctx_send, when, bind, perform,
    get_state, put_state, do_return, ret.
  destruct (ctx_guild ctx) as [g|]; cbn; [|done].
  intros [file|e]; cbn; [|eexists; split; [done|done]].
  set (st1 := apply_settings_file rt file st). clearbody st1.
  destruct (bool_decide (ctx_author ctx ∈ blocked_users st1)); cbn.
  { intros [id|e]; cbn; eexists; split; done. }
  destruct (bool_decide (guild_id g ∈ paused_servers st1)); cbn.
  { intros [id|e]; cbn; eexists; split; done. }
  destruct (has_whitelist st1 (Py.str (guild_id g))); cbn; [|done].
  destruct (in_whitelist st1 (Py.str (guild_id g)) (ctx_channel ctx)); cbn; [done|].
  intros [id|e]; cbn; eexists; split; done.
Qed.

(** X11. Whatever the environment answers, the command gate never ends without
    a verdict.  When it returns [True] it has sent nothing; when it returns
    [False] it has sent exactly one notice, which went out and removes
    itself; and when it raises, the exception is the one its last call was
    answered with (a failed read of the settings or a failed send), since
    the gate has no handler. *)
Theorem gate_verdict_matches_notice (rt : PyRuntime) (w : oracle) (st : BotState)
    (ctx : Context) :
  let p := global_command_check rt ctx st in
  match outcome w p with
  | Normal _ => False
  | Returned true => List.filter is_send (trace_of w p) = []
  | Returned false =>
      exists ev, List.filter is_send (trace_of w p) = [ev]
                 /\ expiring_notice_sent ev = true
  | Raised e => exists ev, last (trace_of w p) = Some ev /\ failed_with e ev
  end.
Proof.
  intros p. unfold outcome, trace_of, result_of.
  exact (wp_run _ _ w 0%nat (global_command_check_wp rt ctx st)).
Qed.

(** X12. With the settings file missing the gate forgets every block and pause:
    the reloaded state has an empty block list and pause set and the default
    settings, the whitelist and the pinging table in memory are kept, and the
    only refusal left is that of a channel outside the guild's whitelist. *)
Theorem missing_settings_file_lifts_blocks (rt : PyRuntime) (w : oracle)
    (st : BotState) (ctx : Context) (g : Guild) :
  ctx_guild ctx = Some g ->
  w 0%nat _ ReadSettingsFile = Ok None ->
  let p := global_command_check rt ctx st in
  let st1 := final_state w p in
  blocked_users st1 = ∅ /\ paused_servers st1 = ∅ /\
  whitelisted_channels st1 = whitelisted_channels st /\
  pinging_enabled st1 = pinging_enabled st /\
  settings st1 = default_settings /\
  (outcome w p = Returned true \/
   has_whitelist st (Py.str (guild_id g)) = true /\
   in_whitelist st (Py.str (guild_id g)) (ctx_channel ctx) = false /\
   exists ans,
     trace_of w p =
       [Ev ReadSettingsFile (Ok None);
        Ev (Send (ctx_channel ctx)
              (send_embed (not_whitelisted_embed g (ctx_channel ctx)) false None
                 (Some 30))) ans]).
Proof.
  intros Hg Hfile p st1. subst st1 p.
  unfold final_state, outcome, trace_of, result_of.
  unfold global_command_check, load_settings, ctx_send, when, bind, perform,
    get_state, put_state, do_return, ret.
  rewrite Hg. cbn. rewrite Hfile. cbn.
  unfold apply_settings_file. cbn.
  rewrite !bool_decide_eq_false_2 by set_solver. cbn.
  unfold has_whitelist, in_whitelist. cbn.
  destruct (whitelisted_channels st !! Py.str (guild_id g)) as [[|c l]|]; cbn;
    try (repeat split; by left).
  destruct (bool_decide (ctx_channel ctx ∈ c :: l)); cbn;
    [repeat split; by left|].
  destruct (w 1%nat Z _); cbn; repeat split; right; repeat split; eexists; done.
Qed.

Lemma missing_settings_file_lifts_blocks_witness :
  let w := Sample.calm_world in
  let st := Scenario.blocking_state in
  let ctx := Scenario.lobby_command in
  ctx_guild ctx = Some Sample.lobby /\
  w 0%nat _ ReadSettingsFile = Ok None /\
  let p := global_command_check Sample.runtime ctx st in
  let st1 := final_state w p in
  blocked_users st1 = ∅ /\ paused_servers st1 = ∅ /\
  whitelisted_channels st1 = whitelisted_channels st /\
  pinging_enabled st1 = pinging_enabled st /\
  settings st1 = default_settings /\
  (outcome w p = Returned true \/
   has_whitelist st (Py.str (guild_id Sample.lobby)) = true /\
   in_whitelist st (Py.str (guild_id Sample.lobby)) (ctx_channel ctx) = false /\
   exists ans,
     trace_of w p =
       [Ev ReadSettingsFile (Ok None);
        Ev (Send (ctx_channel ctx)
              (send_embed (not_whitelisted_embed Sample.lobby (ctx_channel ctx))
                 false None (Some 30))) ans]).
Proof.
  split; [reflexivity|]. split; [reflexivity|].
  apply (missing_settings_file_lifts_blocks Sample.runtime Sample.calm_world
           Scenario.blocking_state Scenario.lobby_command Sample.lobby);
    reflexivity.
Defined.

(** ** The whitelist as it is shown: [get_whitelist_str] *)

Lemma prefix_app (p t : string) : String.prefix p (p ++ t) = true.
Proof.
  induction p as [|a p IH]; [by destruct t|].
  change (String.prefix (String a p) (String a p ++ t))
    with (if Ascii.ascii_dec a a then String.prefix p (p ++ t) else false).
  destruct (Ascii.ascii_dec a a); [exact IH|done].
Qed.

Lemma prefix_self (p : string) : String.prefix p p = true.
Proof.
  induction p as [|a p IH]; [done|].
  change (String.prefix (String a p) (String a p))
    with (if Ascii.ascii_dec a a then String.prefix p p else false).
  destruct (Ascii.ascii_dec a a); [exact IH|done].
Qed.

Lemma contains_app_r (p s t : string) :
  Py.contains p t = true -> Py.contains p (s ++ t) = true.
Proof.
  intros H. induction s as [|a s IH]; [exact H|].
  cbn [String.append]. by apply contains_tail.
Qed.

Lemma contains_app_l (p t : string) : Py.contains p (p ++ t) = true.
Proof. apply prefix_contains, prefix_app. Qed.

Lemma join_contains (sep : string) (l : list string) (x : string) :
  x ∈ l -> Py.contains x (Py.join sep l) = true.
Proof.
  induction l as [|y l IH]; intros Hin; [by apply elem_of_nil in Hin|].
  apply elem_of_cons in Hin as [->|Hin].
  - destruct l as [|z l]; cbn [Py.join].
    + apply prefix_contains, prefix_self.
    + apply contains_app_l.
  - destruct l as [|z l]; [by apply elem_of_nil in Hin|].
    cbn [Py.join]. apply contains_app_r, contains_app_r. by apply IH.
Qed.

(** X13. The text shown for a guild's whitelist agrees with the command gate:
    it is "No channels whitelisted." exactly when the gate restricts no
    channel of the guild, and otherwise it mentions every channel that the
    gate admits. *)
Theorem whitelist_text_agrees_with_gate (st : BotState) (guild : Z) :
  (get_whitelist_str st guild = "No channels whitelisted."
   <-> has_whitelist st (Py.str guild) = false) /\
  forall channel,
    in_whitelist st (Py.str guild) channel = true ->
    has_whitelist st (Py.str guild) = true /\
    Py.contains (mention_channel channel) (get_whitelist_str st guild) = true.
Proof.
  unfold get_whitelist_str, has_whitelist, in_whitelist.
  destruct (whitelisted_channels st !! Py.str guild) as [[|c l]|]; cbn [fmap list_fmap].
  - split; [done|]. intros channel H. apply bool_decide_eq_true in H.
    by apply elem_of_nil in H.
  - split.
    + split; [|done]. intros H. exfalso.
      destruct l; cbn in H; discriminate H.
    + intros channel H. apply bool_decide_eq_true in H. split; [done|].
      apply join_contains.
      change (mention_channel channel ∈ mention_channel <$> c :: l).
      by apply list_elem_of_fmap_2.
  - split; [done|]. intros channel H. discriminate H.
Qed.

(** ** Centred banner lines: [center_text] *)

Lemma str_times_char {A} (c : A) (n : Z) :
  str_times [c] n = replicate (Z.to_nat n) c.
Proof.
  unfold str_times. induction (Z.to_nat n) as [|k IH]; [done|].
  cbn. f_equal. exact IH.
Qed.

(** X14. With a one-character filler, [center_text] never cuts the text: the
    result is the text between two runs of the filler, the right run equal to
    the left one or longer by one, and its length is the larger of the
    requested width and the length of the text. *)
Theorem center_text_pads_to_width {A} (text : list A) (width : Z) (c : A) :
  exists l r : nat,
    center_text text width [c] = (replicate l c ++ text ++ replicate r c)%list /\
    (l <= r <= l + 1)%nat /\
    Z.of_nat (length (center_text text width [c]))
    = Z.max width (Z.of_nat (length text)).
Proof.
  unfold center_text. rewrite !str_times_char.
  set (n := Z.of_nat (length text)).
  exists (Z.to_nat ((width - n) `div` 2)),
         (Z.to_nat (width - n - (width - n) `div` 2)).
  split; [done|].
  rewrite !length_app, !length_replicate. fold n.
  pose proof (Z.div_mod (width - n) 2 ltac:(lia)) as Hdm.
  pose proof (Z.mod_pos_bound (width - n) 2 ltac:(lia)) as Hm.
  split; lia.
Qed.

(** ** The welcome on joining a guild: [on_guild_join] *)

(** X15. The channel chosen for the welcome is one the bot may write to, and is a
    text channel of the guild or its system channel; none is chosen only if
    the bot may write to none of them; and as soon as the bot may write to
    some text channel, a text channel is chosen, one with a preferred name
    if the bot may write to any such channel. *)
Theorem welcome_channel_choice (rt : PyRuntime) (g : JoinedGuild) :
  (forall ch, welcome_channel rt g = Some ch ->
     tc_send_messages ch = true /\
     (ch ∈ text_channels g \/ system_channel g = Some ch)) /\
  (welcome_channel rt g = None ->
   forall ch, ch ∈ text_channels g \/ system_channel g = Some ch ->
              tc_send_messages ch = false) /\
  (forall c, c ∈ text_channels g -> tc_send_messages c = true ->
     exists ch, welcome_channel rt g = Some ch /\ ch ∈ text_channels g /\
                (is_preferred rt c = true -> is_preferred rt ch = true)).
Proof.
  unfold welcome_channel.
  destruct (List.find (fun ch => is_preferred rt ch && tc_send_messages ch)
              (text_channels g)) as [p|] eqn:Hp.
  { apply find_some in Hp as [Hin Hp]. apply andb_true_iff in Hp as [Hpref Hsend].
    apply list_elem_of_In in Hin.
    split; [intros ch [= <-]; auto|]. split; [done|].
    intros c _ _. exists p. auto. }
  pose proof (find_none _ _ Hp) as Hnone.
  destruct (List.find tc_send_messages (text_channels g)) as [q|] eqn:Hq.
  { apply find_some in Hq as [Hin Hsend]. apply list_elem_of_In in Hin.
    split; [intros ch [= <-]; auto|]. split; [done|].
    intros c Hc Hcs. exists q. split; [done|]. split; [done|].
    intros Hcp. apply list_elem_of_In in Hc.
    specialize (Hnone c Hc). cbn in Hnone. by rewrite Hcp, Hcs in Hnone. }
  pose proof (find_none _ _ Hq) as Hnone'.
  split; [|split].
  - intros ch Hch. destruct (system_channel g) as [s|]; [|done].
    destruct (tc_send_messages s) eqn:Hs; [|done].
    injection Hch as <-. auto.
  - intros Hsys ch [Hin|Hin].
    + apply Hnone'. by apply list_elem_of_In.
    + rewrite Hin in Hsys. by destruct (tc_send_messages ch).
  - intros c Hc Hcs. apply list_elem_of_In in Hc.
    specialize (Hnone' c Hc). congruence.
Qed.

Lemma on_guild_join_wp (rt : PyRuntime) (cfg : Config) (bot_user_name : string)
    (g : JoinedGuild) (st : BotState) :
  wp (on_guild_join rt cfg bot_user_name g st) (fun t cs =>
    cs.2 = st /\
    omap embed_sent_to t
    = match welcome_channel rt g with Some ch => [tc_id ch] | None => [] end /\
    omap bare_embed_sent t
    = match welcome_channel rt g with
      | Some ch =>
          [(tc_id ch,
            welcome_embed bot_user_name (jg_guild g) (guild_prefix cfg st (jg_guild g)))]
      | None => []
      end /\
    forallb (fun ev => is_some (embed_sent_to ev) || is_print ev) t = true /\
    match cs.1 with
    | Normal _ => True
    | Returned _ => False
    | Raised e => exists ev, last t = Some ev /\ is_print ev = true /\ failed_with e ev
    end).
Proof.
  unfold on_guild_join, try_except, any_exception, bind, perform, get_state, ret.
  destruct (welcome_channel rt g) as [ch|]; cbn.
  - intros [id|e]; cbn; intros [[]|e']; cbn; try intros [[]|e'']; cbn.
    all: repeat split; eauto.
    all: eexists; repeat split; done.
  - intros [[]|e]; cbn; try intros [[]|e']; cbn.
    all: repeat split; eauto.
    all: eexists; repeat split; done.
Qed.

(** X16. On joining a guild the handler greets at most once, in the channel
    chosen, with the welcome embed written for the guild's prefix and sent
    with no other argument, and does nothing else than print; it leaves the
    state alone.  A failure of the send is caught and reported by a print:
    the handler raises only if a print itself fails. *)
Theorem welcome_is_sent_to_the_chosen_channel (rt : PyRuntime) (cfg : Config)
    (bot_user_name : string) (w : oracle) (g : JoinedGuild) (st : BotState) :
  let p := on_guild_join rt cfg bot_user_name g st in
  final_state w p = st /\
  omap embed_sent_to (trace_of w p)
  = match welcome_channel rt g with Some ch => [tc_id ch] | None => [] end /\
  omap bare_embed_sent (trace_of w p)
  = match welcome_channel rt g with
    | Some ch =>
        [(tc_id ch,
          welcome_embed bot_user_name (jg_guild g) (guild_prefix cfg st (jg_guild g)))]
    | None => []
    end /\
  forallb (fun ev => is_some (embed_sent_to ev) || is_print ev) (trace_of w p) = true /\
  match outcome w p with
  | Normal _ => True
  | Returned _ => False
  | Raised e =>
      exists ev, last (trace_of w p) = Some ev /\ is_print ev = true /\ failed_with e ev
  end.
Proof.
  intros p. unfold final_state, outcome, trace_of, result_of.
  exact (wp_run _ _ w 0%nat (on_guild_join_wp rt cfg bot_user_name g st)).
Qed.

(** * The handler, further *)

(** ** Prefixed messages *)

(** X17. A message of a guild member that starts with the guild's prefix, or with
    a slash, is handed to command processing at once and exactly once:
    no trigger is looked at, nothing is classified and nothing is sent,
    whether the channel is activated or not.  (A mention command in the
    message would come first.)  The handler does nothing after the
    hand-over: the state after it is the one command processing leaves, and
    an exception that escapes command processing escapes the handler.  With
    the empty prefix this is every message. *)
Theorem prefixed_message_goes_to_commands (rt : PyRuntime) (cfg : Config)
    (w : oracle) (st : BotState) (m : Message) (g : Guild) :
  guild m = Some g ->
  author_bot m = false ->
  author_id m ∉ blocked_users st ->
  mentions_bot m && has_mention_keyword rt m = false ->
  is_prefixed rt (guild_prefix cfg st g) m = true ->
  let p := on_message rt cfg m st in
  let answer := w 0%nat _ ProcessCommands in
  trace_of w p = [Ev ProcessCommands answer] /\
  final_state w p = match answer with
                    | Ok (Some st', _) => st'
                    | _ => st
                    end /\
  outcome w p = match answer with
                | Ok (_, None) => Returned tt
                | Ok (_, Some e) => Raised e
                | Fail e => Raised e
                end.
Proof.
  intros Hg Hbot Hblocked Hmention Hprefix p answer. subst p answer.
  unfold final_state, outcome, trace_of, result_of.
  unfold on_message, when, the_guild.
  rewrite Hg, Hbot. cbn. rewrite (bool_decide_eq_false_2 _ Hblocked). cbn.
  assert (Hmc : mention_commands rt cfg m = ret tt).
  { apply andb_false_iff in Hmention as [Hmb|Hkey].
    - unfold mention_commands, when. by rewrite Hmb.
    - by apply no_keyword_no_command. }
  rewrite Hmc. cbn.
  unfold dynamic_detection, when. cbv zeta.
  unfold is_prefixed in Hprefix. unfold Py.startswith. unfold Py.startswith in Hprefix.
  rewrite Hprefix. cbn.
  by destruct (w 0%nat _ ProcessCommands) as [[[st'|] [e|]]|e].
Qed.

Lemma prefixed_message_goes_to_commands_witness :
  let m := Sample.guild_message "gacha draw a cat" in
  let st := Scenario.empty_prefix_state in
  let w := Scenario.commands_world in
  guild m = Some Sample.lobby /\
  author_bot m = false /\
  (author_id m ∉ blocked_users st) /\
  mentions_bot m && has_mention_keyword Sample.runtime m = false /\
  is_prefixed Sample.runtime (guild_prefix Sample.config st Sample.lobby) m = true /\
  let p := on_message Sample.runtime Sample.config m st in
  let answer := w 0%nat _ ProcessCommands in
  trace_of w p = [Ev ProcessCommands answer] /\
  final_state w p = match answer with
                    | Ok (Some st', _) => st'
                    | _ => st
                    end /\
  outcome w p = match answer with
                | Ok (_, None) => Returned tt
                | Ok (_, Some e) => Raised e
                | Fail e => Raised e
                end.
Proof.
  assert (Hnb : author_id (Sample.guild_message "gacha draw a cat")
                ∉ blocked_users Scenario.empty_prefix_state).
  { apply not_elem_of_empty. }
  split; [reflexivity|]. split; [reflexivity|]. split; [exact Hnb|].
  split; [reflexivity|]. split; [reflexivity|].
  apply (prefixed_message_goes_to_commands Sample.runtime Sample.config
           Scenario.commands_world Scenario.empty_prefix_state
           (Sample.guild_message "gacha draw a cat") Sample.lobby);
    [reflexivity|reflexivity|exact Hnb|reflexivity|reflexivity].
Defined.

(** ** A granted merge *)

Lemma merge_granted_wanted (t : list event) :
  existsb merge_granted t = true -> existsb merge_wanted t = true.
Proof.
  induction t as [|[X c r] t IH]; [done|]. cbn [existsb].
  intros H. apply orb_true_iff in H as [H|H].
  - apply orb_true_iff. left. destruct c; try done. by destruct r as [[|]|].
  - apply orb_true_iff. right. by apply IH.
Qed.

Lemma collected_urls_total (rt : PyRuntime) (m : Message) (pre : list event)
    (g : bool) (L : Locals) :
  reaches_dispatch rt m pre g L ->
  length (collect_image_urls rt m (ref_msg L)) = total_image_count L.
Proof.
  intros HL. rewrite (rd_total _ _ _ _ _ HL).
  unfold collect_image_urls. rewrite length_app, !image_urls_count.
  destruct (ref_msg L) as [r|]; cbn [length]; [|lia].
  rewrite image_urls_count.
  destruct (has_images_in_message rt r) eqn:Hr; [done|].
  rewrite (count_images_zero rt r Hr). lia.
Qed.

Lemma handle_merge_terminal (rt : PyRuntime) (m : Message) (L : Locals)
    (st : BotState) :
  wants_merge L && (2 <=? total_image_count L)%nat = true ->
  length (collect_image_urls rt m (ref_msg L)) = total_image_count L ->
  wp (handle_merge rt m L st)
    (fun t cs => forallb is_merge_step t = true /\
                 match cs.1 with Normal _ => False | _ => True end).
Proof.
  intros Hcond Hlen. unfold handle_merge, when. rewrite Hcond, Hlen.
  apply andb_true_iff in Hcond as [_ ->]. cbn.
  intros [[]|e]; cbn; [|done].
  apply wp_pbind. eapply wp_mono; [|apply nsfw_check_calls].
  intros t1 [c1 s1] [E1 H1]. cbn in E1. subst s1.
  assert (M1 : forallb is_merge_step t1 = true) by (by apply H1).
  destruct c1 as [[]|r|e]; cbn; rewrite ?app_nil_r; try done.
  unfold ping_enabled_for, the_guild, try_except, channel_send, store_metadata,
    send_rejected.
  intros [[[img final_url] error]|e]; cbn; [|by rewrite forallb_app, M1].
  destruct img as [img_data|], error as [error|]; cbn.
  1,3,4: intros [z|e]; cbn; by rewrite forallb_app, M1.
  destruct (guild m) as [g|]; cbn; [|by rewrite forallb_app, M1].
  intros [sent|exn]; cbn; [by rewrite forallb_app, M1|].
  destruct (is_http exn); cbn; [|by rewrite forallb_app, M1].
  destruct (http_code exn =? 20009); cbn; intros [z|exn']; cbn;
    by rewrite forallb_app, M1.
Qed.

Lemma on_message_granted_merge (rt : PyRuntime) (cfg : Config) (m : Message)
    (st : BotState) :
  wp (on_message rt cfg m st)
    (fun t cs =>
       existsb merge_granted t = true ->
       forallb (fun ev => is_prelude ev || is_classification ev || is_merge_step ev) t
       = true /\
       match cs.1 with Normal _ => False | _ => True end).
Proof.
  apply on_message_cases.
  - intros t c s0 Ht _ _ Hm. apply merge_granted_wanted in Hm.
    by rewrite (before_dispatch_not_merge_wanted t Ht) in Hm.
  - intros pre g L HL.
    pose proof (rd_pre _ _ _ _ _ HL) as Hpre.
    pose proof (prelude_not_merge_wanted pre Hpre) as Pm.
    assert (Hshape : forall t',
      forallb is_merge_step t' = true ->
      forallb (fun ev => is_prelude ev || is_classification ev || is_merge_step ev)
        (pre ++ classification_events (clean_message_content L) (has_any_images L)
                  (total_image_count L) g (wants_editing L) (wants_web_search L)
                  (wants_merge L) ++ t')%list = true).
    { intros t' Ht'. rewrite !forallb_app. apply andb_true_iff. split.
      - clear -Hpre. induction pre as [|ev pre IH]; [done|]. cbn in *.
        apply andb_true_iff in Hpre as [-> Hpre]. cbn. by apply IH.
      - apply andb_true_iff. split; [done|].
        clear -Ht'. induction t' as [|ev t' IH]; [done|]. cbn in *.
        apply andb_true_iff in Ht' as [-> Ht']. rewrite !orb_true_r. cbn. by apply IH. }
    destruct (wants_merge L && (2 <=? total_image_count L)%nat) eqn:Hcond.
    + unfold dispatch. apply wp_bind.
      eapply wp_mono;
        [|apply (handle_merge_terminal rt m L st Hcond (collected_urls_total _ _ _ _ _ HL))].
      intros t' [[[]|r|e] s'] [Ht' Hc]; cbn in Hc; [done|..]; intros _; cbn;
        (split; [by apply Hshape|done]).
    + eapply wp_mono; [|apply (dispatch_calls rt m L)].
      cbv beta. intros t' cs Ht' Hm. exfalso.
      destruct (dispatch_call_plain _ Ht') as [Hm' _].
      rewrite !existsb_app in Hm.
      apply orb_true_iff in Hm as [Hm|Hm].
      { apply merge_granted_wanted in Hm. by rewrite Pm in Hm. }
      apply orb_true_iff in Hm as [Hm|Hm].
      { cbn in Hm. rewrite orb_false_r in Hm.
        destruct (wants_merge L); [|done]. cbn in Hcond. by rewrite Hcond in Hm. }
      apply merge_granted_wanted in Hm. by rewrite Hm' in Hm.
Qed.

(** X18. A merge request with two images or more is served by the merge branch
    alone and ends the handler: once the merge heuristic has said yes for a
    count of two or more, the handler calls nothing but the merge branch
    (typing indicator, NSFW check, the merge call, sends), so no edit, no
    generation, no web search, no image analysis and no command processing,
    and it does not run to its end: it returns or raises inside the
    branch. *)
Theorem granted_merge_is_exclusive (rt : PyRuntime) (cfg : Config) (w : oracle)
    (st : BotState) (m : Message) :
  let p := on_message rt cfg m st in
  existsb merge_granted (trace_of w p) = true ->
  forallb (fun ev => is_prelude ev || is_classification ev || is_merge_step ev)
    (trace_of w p) = true /\
  match outcome w p with Normal _ => False | _ => True end.
Proof.
  intros p. exact (wp_run _ _ w 0%nat (on_message_granted_merge rt cfg m st)).
Qed.

Lemma granted_merge_is_exclusive_witness :
  let p := on_message Sample.runtime Sample.config Scenario.photos_edit_request
             Sample.fresh_state in
  existsb merge_granted (trace_of Scenario.merge_world p) = true /\
  forallb (fun ev => is_prelude ev || is_classification ev || is_merge_step ev)
    (trace_of Scenario.merge_world p) = true /\
  match outcome Scenario.merge_world p with Normal _ => False | _ => True end.
Proof.
  split; [reflexivity|].
  apply (granted_merge_is_exclusive Sample.runtime Sample.config Scenario.merge_world
           Sample.fresh_state Scenario.photos_edit_request).
  reflexivity.
Defined.

(** ** The web answer *)

#[export] Instance web_answer_closed :
  Closed (fun t => omap long_message t = omap ai_response t).
Proof.
  split; [done|]. intros t1 t2 H1 H2. by rewrite !omap_app, H1, H2.
Qed.

Lemma dispatch_web_answer (rt : PyRuntime) (m : Message) (L : Locals) (g : Guild) :
  guild m = Some g ->
  holds (fun t => omap long_message t = omap ai_response t) (dispatch rt m L).
Proof.
  intros Hg. unfold dispatch.
  apply holds_bind; [typeclasses eauto| |intros _].
  { unfold handle_merge, nsfw_check, send_rejected, ping_enabled_for, store_metadata,
      channel_send, the_guild. safe_auto. }
  apply holds_bind; [typeclasses eauto| |intros _].
  { unfold handle_batch_edit, nsfw_check, send_rejected, edit_one, randint,
      ping_enabled_for, store_metadata, channel_send, the_guild. safe_auto. }
  apply holds_bind; [typeclasses eauto| |intros _].
  { unfold handle_single_edit, nsfw_check, send_rejected, randint,
      ping_enabled_for, store_metadata, channel_send, the_guild. safe_auto. }
  apply holds_bind; [typeclasses eauto| |intros _].
  { unfold handle_missing_images, channel_send. safe_auto. }
  apply holds_bind; [typeclasses eauto| |intros _].
  { unfold handle_generation, nsfw_check, send_rejected, ping_enabled_for,
      store_metadata, channel_send, the_guild. safe_auto. }
  apply holds_bind; [typeclasses eauto| |intros _].
  { intros s. unfold handle_web_search, when, ping_enabled_for, the_guild.
    rewrite Hg. destruct (wants_web_search L); cbn; [|done].
    intros [[]|e]; cbn; [|done].
    intros [results|e]; cbn; [|done].
    destruct (Py.truthy results); cbn; [|done].
    intros [files|e]; cbn; [|done].
    intros [now|e]; cbn; [|done].
    intros [[[response|] error]|e]; cbn; [| |done]; [|done].
    destruct (Py.truthy response && negb (Py.truthy_opt error)); cbn; [|done].
    by intros [[]|e]. }
  apply holds_bind; [typeclasses eauto| |intros _].
  { unfold handle_image_analysis, analysis_body, unbound_name, ping_enabled_for,
      channel_send, the_guild. safe_auto. }
  unfold process_commands. safe_auto.
Qed.

Lemma on_message_web_answer (rt : PyRuntime) (cfg : Config) (m : Message)
    (st : BotState) :
  wp (on_message rt cfg m st)
    (fun t _ => omap long_message t = omap ai_response t).
Proof.
  destruct (guild m) as [g|] eqn:Hg; cycle 1.
  { unfold on_message, when. rewrite Hg. by destruct (author_bot m). }
  assert (Hbefore : forall t, forallb before_dispatch t = true ->
                              omap long_message t = omap ai_response t).
  { induction t as [|[X c r] t IH]; [done|]. cbn [forallb]. intros H.
    apply andb_true_iff in H as [Hev H]. specialize (IH H).
    destruct c; cbn in Hev |- *; done. }
  apply on_message_cases.
  - intros t c s0 Ht _ _. by apply Hbefore.
  - intros pre g0 L HL. eapply wp_mono; [|apply (dispatch_web_answer rt m L g Hg)].
    cbv beta. intros t' _ Ht'. rewrite !omap_app, Ht'.
    by rewrite (Hbefore pre (prelude_before_dispatch _ (rd_pre _ _ _ _ _ HL))).
Qed.

(** X19. The handler sends a web answer exactly when the chat model has answered
    without an error, and what it sends is the model's response, unchanged:
    the texts handed to [send_long_message] are, in order, the non-empty
    responses that [generate_ai_response] returned with no error. *)
Theorem web_answer_is_the_model_response (rt : PyRuntime) (cfg : Config)
    (w : oracle) (st : BotState) (m : Message) :
  omap long_message (trace_of w (on_message rt cfg m st))
  = omap ai_response (trace_of w (on_message rt cfg m st)).
Proof.
  exact (wp_run _ _ w 0%nat (on_message_web_answer rt cfg m st)).
Qed.

(** ** What the handler leaves of the state *)

Section Tracks.

Context (st : BotState) {R : Type}.

Lemma tracks_ret {A} (a : A) : tracks st (ret (R:=R) a).
Proof. intros s t0 Hs. cbn. by rewrite app_nil_r. Qed.

Lemma tracks_do_return {A} (r : R) : tracks st (do_return (A:=A) r).
Proof. intros s t0 Hs. cbn. by rewrite app_nil_r. Qed.

Lemma tracks_raise {A} (e : exn) : tracks st (raise (R:=R) (A:=A) e).
Proof. intros s t0 Hs. cbn. by rewrite app_nil_r. Qed.

Lemma tracks_get_state : tracks st (get_state (R:=R)).
Proof. intros s t0 Hs. cbn. by rewrite app_nil_r. Qed.

Lemma tracks_perform {X} (c : call X) :
  (forall r, commands_left (Ev c r) = None) -> tracks st (perform (R:=R) c).
Proof.
  intros Hc s t0 Hs r. unfold reference_state.
  assert (E : omap commands_left (t0 ++ [Ev c r])%list = omap commands_left t0).
  { rewrite omap_app. pose proof (Hc r) as H.
    change (omap commands_left [Ev c r])
      with (match commands_left (Ev c r) with Some x => [x] | None => [] end).
    rewrite H. apply app_nil_r. }
  destruct r; cbn; by rewrite E.
Qed.

Lemma tracks_process_commands : tracks st (process_commands (R:=R)).
Proof.
  intros s t0 Hs. unfold process_commands. cbn.
  assert (Hnone : forall r : reply (option BotState * option exn),
            commands_left (Ev ProcessCommands r) = None ->
            same_configuration (reference_state st (t0 ++ [Ev ProcessCommands r])%list) s).
  { intros r Hr. unfold reference_state. rewrite omap_app.
    change (omap commands_left [Ev ProcessCommands r])
      with (match commands_left (Ev ProcessCommands r) with
            | Some x => [x] | None => [] end).
    rewrite Hr. by rewrite app_nil_r. }
  assert (Hsome : forall s' e,
            same_configuration
              (reference_state st (t0 ++ [Ev ProcessCommands (Ok (Some s', e))])%list) s').
  { intros s' e. unfold reference_state. rewrite omap_app. cbn.
    rewrite last_snoc. by repeat split. }
  intros [[[s'|] [e|]]|e]; cbn; auto.
Qed.

Lemma tracks_bind {A B} (m : M R A) (k : A -> M R B) :
  tracks st m -> (forall a, tracks st (k a)) -> tracks st (bind m k).
Proof.
  intros Hm Hk s t0 Hs. apply wp_bind. eapply wp_mono; [|by apply Hm].
  intros t [[a|r|e] s'] Hs'; cbn in *; auto.
  eapply wp_mono; [|by apply Hk]. cbn. intros t' cs H.
  by rewrite app_assoc.
Qed.

Lemma tracks_try_except {A} (body : M R A) (catches : exn -> bool)
    (handler : exn -> M R A) :
  tracks st body -> (forall e, tracks st (handler e)) ->
  tracks st (try_except body catches handler).
Proof.
  intros Hm Hh s t0 Hs. apply wp_try_except. eapply wp_mono; [|by apply Hm].
  intros t [[a|r|e] s'] Hs'; cbn in *; auto.
  destruct (catches e); auto.
  eapply wp_mono; [|by apply Hh]. cbn. intros t' cs H.
  by rewrite app_assoc.
Qed.

Lemma tracks_when (cond : bool) (body : M R unit) :
  tracks st body -> tracks st (when cond body).
Proof. intros Hb. destruct cond; cbn; [done|apply tracks_ret]. Qed.

Lemma tracks_for_enumerate {A B} (f : nat -> A -> B -> M R B) (i : nat)
    (l : list A) (b : B) :
  (forall i x b, tracks st (f i x b)) -> tracks st (for_enumerate f i l b).
Proof.
  intros Hf. revert i b. induction l as [|x l IH]; intros i b; cbn.
  - apply tracks_ret.
  - apply tracks_bind; [apply Hf|]. intros b'. apply IH.
Qed.

Lemma tracks_store_metadata (sent_id : Z) (entry : MetaEntry) :
  tracks st (store_metadata (R:=R) sent_id entry).
Proof. intros s t0 Hs. cbn. rewrite app_nil_r. exact Hs. Qed.

End Tracks.

Ltac tracks_step :=
  lazymatch goal with
  | |- tracks _ (bind _ _) => apply tracks_bind; [|intros ?]
  | |- tracks _ (ret _) => apply tracks_ret
  | |- tracks _ (do_return _) => apply tracks_do_return
  | |- tracks _ (raise _) => apply tracks_raise
  | |- tracks _ get_state => apply tracks_get_state
  | |- tracks _ (store_metadata _ _) => apply tracks_store_metadata
  | |- tracks _ process_commands => apply tracks_process_commands
  | |- tracks _ (perform _) => apply tracks_perform; intros ?; reflexivity
  | |- tracks _ (when _ _) => apply tracks_when
  | |- tracks _ (try_except _ _ _) => apply tracks_try_except; [|intros ?]
  | |- tracks _ (for_enumerate _ _ _ _) => apply tracks_for_enumerate; intros ? ? ?
  | |- tracks _ (match ?x with _ => _ end) => destruct x
  end.

Lemma on_message_tracks (rt : PyRuntime) (cfg : Config) (m : Message) (st : BotState) :
  tracks st (on_message rt cfg m).
Proof.
  unfold on_message, mention_commands, mention_activate, mention_deactivate,
    mention_wack, wack_channel, message_reply, dynamic_detection, fetch_reference,
    should_respond_check, classify.
  unfold dispatch, handle_merge, handle_batch_edit, handle_single_edit,
    handle_missing_images, handle_generation, handle_web_search,
    handle_image_analysis, analysis_body, nsfw_check, send_rejected, edit_one,
    unbound_name, randint, ping_enabled_for, channel_send, the_guild.
  repeat (tracks_step; cbv beta zeta).
Qed.

(** X20. The message handler itself changes nothing of the state but the
    metadata store.  Under every environment the settings, the pinging table,
    the block list, the pause set, the whitelist and the prefixes are after
    the handler what they were before it, unless the handler handed the
    message over to command processing and that changed the state: then they
    are what command processing left. *)
Theorem on_message_keeps_configuration (rt : PyRuntime) (cfg : Config) (w : oracle)
    (st : BotState) (m : Message) :
  let p := on_message rt cfg m st in
  same_configuration (reference_state st (trace_of w p)) (final_state w p).
Proof.
  intros p. subst p. unfold final_state, trace_of, result_of.
  apply (wp_run _ (fun t cs => same_configuration (reference_state st ([] ++ t)%list) cs.2)
           w 0%nat).
  apply on_message_tracks. by repeat split.
Qed.

(** * Commands, files and shutdown *)

(** ** Reasoning about their executions *)

Lemma swp_mono {A} (p : sprog A) (Q Q' : list sevent -> A -> Prop) :
  (forall t a, Q t a -> Q' t a) -> swp p Q -> swp p Q'.
Proof.
  revert Q Q'. induction p as [a|X c k IH]; cbn; intros Q Q' HQ Hp.
  - by apply HQ.
  - intros r. eapply IH; [|apply Hp]. cbn. intros t a. apply HQ.
Qed.

Lemma swp_run {A} (p : sprog A) (Q : list sevent -> A -> Prop) (w : soracle) (n : nat) :
  swp p Q -> Q (srun w n p).1 (srun w n p).2.
Proof.
  revert Q n. induction p as [a|X c k IH]; cbn; intros Q n Hp; [done|].
  specialize (IH _ _ (S n) (Hp (w n X c))).
  by destruct (srun w (S n) (k (w n X c))).
Qed.

Lemma swp_pbind {A B} (p : sprog A) (k : A -> sprog B) (Q : list sevent -> B -> Prop) :
  swp p (fun t a => swp (k a) (fun t' b => Q (t ++ t')%list b)) -> swp (spbind p k) Q.
Proof.
  revert Q. induction p as [a|X c f IH]; cbn; intros Q Hp; [done|].
  intros r. apply IH, Hp.
Qed.

Lemma swp_bind {R A B} (m : SM R A) (k : A -> SM R B) (s : BotState)
    (Q : list sevent -> ctl R B * BotState -> Prop) :
  swp (m s) (fun t cs =>
               match cs with
               | (Normal a, s') => swp (k a s') (fun t' r => Q (t ++ t')%list r)
               | (Returned r, s') => Q t (Returned r, s')
               | (Raised e, s') => Q t (Raised e, s')
               end) ->
  swp (sbind m k s) Q.
Proof.
  intros Hm. unfold sbind. apply swp_pbind. eapply swp_mono; [|exact Hm].
  intros t [[a|r|e] s']; cbn; rewrite ?app_nil_r; auto.
Qed.

(** ** Saving and loading the prefixes *)

Lemma save_prefixes_swp {R} (st : BotState) :
  swp (save_prefixes (R:=R) st) (fun t cs =>
    cs.2 = st /\
    Forall (eq (custom_prefixes st)) (omap prefix_write t) /\
    existsb is_command_send t = false /\
    omap settings_write t = [] /\
    match cs.1 with
    | Normal _ => existsb print_failed t = false
    | Returned _ => False
    | Raised e => existsb print_failed t = true
    end).
Proof.
  unfold save_prefixes, stry_except, any_exception, sbind, sperform, lift. cbn.
  intros [[]|e]; cbn.
  - intros [[]|e]; cbn.
    + repeat split; auto.
    + intros [[]|e']; cbn; repeat split; auto.
  - intros [[]|e']; cbn; repeat split; auto.
Qed.

(** ** The [setprefix] command *)

Lemma set_prefix_accepts (cfg : Config) (len : string -> nat) (inv : Invocation)
    (p : string) (g : Guild) (st : BotState) :
  ctx_guild (inv_ctx inv) = Some g ->
  (len p <= 5)%nat ->
  swp (set_prefix cfg len inv (Some p) st) (fun t cs =>
    cs.2 = with_prefixes st (<[Py.str (guild_id g) := p]> (custom_prefixes st)) /\
    Forall (eq (<[Py.str (guild_id g) := p]> (custom_prefixes st)))
      (omap prefix_write t)).
Proof.
  intros Hg Hlen. unfold set_prefix, swhen, ctx_the_guild, ctx_send_text.
  rewrite Hg. replace (5 <? len p)%nat with false by (symmetry; apply Nat.ltb_ge; lia).
  unfold sbind at 1 2 3 4. unfold lift at 1 2 3 4. cbn.
  apply swp_pbind. eapply swp_mono; [|apply save_prefixes_swp].
  intros t1 [c1 s1] (E1 & W1 & _ & _ & _). cbn in E1, W1. subst s1.
  destruct c1 as [[]|r|e]; cbn; rewrite ?app_nil_r; [|done..].
  unfold sbind, sperform, lift. cbn.
  intros [z|e]; cbn; [|by rewrite omap_app, app_nil_r].
  destruct (s_logger (settings st)); cbn.
  - intros [[]|e]; cbn; by rewrite omap_app, app_nil_r.
  - by rewrite omap_app, app_nil_r.
Qed.

(** X21. A new prefix of five code points or less takes effect in memory at
    once and for that guild alone, whatever happens to the file: after the
    command, under every environment, [get_prefix] gives the new prefix for
    the messages of the guild and what it gave before for those of any other
    guild; and whatever was written to the prefix file is the new table. *)
Theorem set_prefix_takes_effect (cfg : Config) (len : string -> nat) (w : soracle)
    (st : BotState) (inv : Invocation) (p : string) (g : Guild) :
  ctx_guild (inv_ctx inv) = Some g ->
  (len p <= 5)%nat ->
  let run := set_prefix cfg len inv (Some p) st in
  let st' := sfinal_state w run in
  (forall m g', guild m = Some g' ->
     get_prefix cfg st' m
     = if bool_decide (guild_id g' = guild_id g) then p else get_prefix cfg st m) /\
  Forall (eq (custom_prefixes st')) (omap prefix_write (strace_of w run)).
Proof.
  intros Hg Hlen run st'. subst run st'. unfold sfinal_state, strace_of.
  pose proof (swp_run _ _ w 0%nat (set_prefix_accepts cfg len inv p g st Hg Hlen))
    as [Hst Hw].
  cbv beta in Hst, Hw. rewrite Hst. cbn [custom_prefixes with_prefixes]. split; [|exact Hw].
  intros m g' Hm. unfold get_prefix, guild_prefix. rewrite Hm.
  cbn [custom_prefixes with_prefixes].
  destruct (decide (guild_id g' = guild_id g)) as [->|Hne].
  - by rewrite bool_decide_eq_true_2, lookup_insert_eq.
  - rewrite bool_decide_eq_false_2 by done.
    rewrite lookup_insert_ne; [done|].
    intros Heq. apply Hne. symmetry. by apply (inj Py.str).
Qed.

Lemma set_prefix_takes_effect_witness :
  let run := set_prefix Sample.config String.length Desk.setprefix_invocation
               (Some "!") Sample.fresh_state in
  let st' := sfinal_state Desk.failing_world run in
  ctx_guild (inv_ctx Desk.setprefix_invocation) = Some Sample.lobby /\
  (String.length "!" <= 5)%nat /\
  (forall m g', guild m = Some g' ->
     get_prefix Sample.config st' m
     = if bool_decide (guild_id g' = guild_id Sample.lobby) then "!"
       else get_prefix Sample.config Sample.fresh_state m) /\
  Forall (eq (custom_prefixes st')) (omap prefix_write (strace_of Desk.failing_world run)).
Proof.
  split; [reflexivity|]. split; [cbn; lia|].
  apply (set_prefix_takes_effect Sample.config String.length Desk.failing_world
           Sample.fresh_state Desk.setprefix_invocation "!" Sample.lobby);
    [reflexivity|cbn; lia].
Defined.

Lemma set_prefix_short (cfg : Config) (len : string -> nat) (inv : Invocation)
    (new_prefix : option string) (st : BotState) :
  prefixes_short len st ->
  swp (set_prefix cfg len inv new_prefix st) (fun t cs =>
    prefixes_short len cs.2 /\
    forall p, new_prefix = Some p -> (5 < len p)%nat ->
      cs.2 = st /\
      exists ans,
        t = [SEv (Plain (Send (ctx_channel (inv_ctx inv))
                           (send_plain "Prefix must be 5 characters or less."))) ans]).
Proof.
  intros Hshort. destruct new_prefix as [p|].
  - destruct (decide (5 < len p)%nat) as [Hlong|Hok].
    + unfold set_prefix, swhen, ctx_send_text.
      replace (5 <? len p)%nat with true by (symmetry; by apply Nat.ltb_lt).
      unfold sbind, sperform, lift. cbn.
      intros [z|e]; cbn; (split; [done|]); intros p' _ _; split; eauto.
    + destruct (ctx_guild (inv_ctx inv)) as [g|] eqn:Hg.
      * eapply swp_mono;
          [|apply (set_prefix_accepts cfg len inv p g st Hg); lia].
        intros t cs [-> _]. split.
        -- unfold prefixes_short. cbn. apply map_Forall_insert_2; [lia|done].
        -- intros p' [= <-] Hlong. lia.
      * unfold set_prefix, swhen, ctx_the_guild.
        replace (5 <? len p)%nat with false by (symmetry; apply Nat.ltb_ge; lia).
        rewrite Hg. cbn. split; [done|]. intros p' [= <-] Hlong. lia.
  - unfold set_prefix, ctx_the_guild, ctx_send_text.
    destruct (ctx_guild (inv_ctx inv)) as [g|]; cbn; [|by split].
    intros [z|e]; cbn; by split.
Qed.

(** X22. The command never stores a prefix of more than five code points: if
    all custom prefixes are that short before the command, they are after
    it, whatever the argument and the environment.  A longer prefix is
    refused with the one message that says so, and nothing is changed or
    written. *)
Theorem set_prefix_keeps_prefixes_short (cfg : Config) (len : string -> nat)
    (w : soracle) (st : BotState) (inv : Invocation) (new_prefix : option string) :
  prefixes_short len st ->
  let run := set_prefix cfg len inv new_prefix st in
  prefixes_short len (sfinal_state w run) /\
  forall p, new_prefix = Some p -> (5 < len p)%nat ->
    sfinal_state w run = st /\
    exists ans,
      strace_of w run
      = [SEv (Plain (Send (ctx_channel (inv_ctx inv))
                       (send_plain "Prefix must be 5 characters or less."))) ans].
Proof.
  intros Hshort run. subst run. unfold sfinal_state, strace_of.
  exact (swp_run _ _ w 0%nat (set_prefix_short cfg len inv new_prefix st Hshort)).
Qed.

Lemma set_prefix_keeps_prefixes_short_witness :
  let run := set_prefix Sample.config String.length Desk.setprefix_invocation
               (Some "please") Scenario.empty_prefix_state in
  prefixes_short String.length Scenario.empty_prefix_state /\
  prefixes_short String.length (sfinal_state Desk.quiet_world run) /\
  forall p, Some "please" = Some p -> (5 < String.length p)%nat ->
    sfinal_state Desk.quiet_world run = Scenario.empty_prefix_state /\
    exists ans,
      strace_of Desk.quiet_world run
      = [SEv (Plain (Send (ctx_channel (inv_ctx Desk.setprefix_invocation))
                       (send_plain "Prefix must be 5 characters or less."))) ans].
Proof.
  assert (H : prefixes_short String.length Scenario.empty_prefix_state).
  { apply map_Forall_singleton. cbn. lia. }
  split; [exact H|].
  exact (set_prefix_keeps_prefixes_short Sample.config String.length Desk.quiet_world
           Scenario.empty_prefix_state Desk.setprefix_invocation (Some "please") H).
Defined.

(** ** Loading the prefixes *)

(** X23. What [load_prefixes] leaves in memory: with no prefix file the table is
    left as it is; a file that is read replaces the table; and when the
    check for the file or its reading fails, the failure is reported by a
    print and the table is emptied, so that every guild is back to the
    default prefix (unless the print itself fails, which leaves the table
    and raises). *)
Theorem load_prefixes_outcome (w : soracle) (st : BotState) :
  let run := load_prefixes (R:=unit) st in
  let warning (e : exn) : syscall unit :=
    Plain (Print (Fore.YELLOW ++ "⚠️ Warning: Could not load custom prefixes: "
                  ++ exn_str e ++ Fore.RESET_ALL)) in
  let warned (e : exn) (n : nat) :=
    last (strace_of w run) = Some (SEv (warning e) (w n _ (warning e))) /\
    match w n _ (warning e) with
    | Ok _ => sfinal_state w run = with_prefixes st ∅ /\ soutcome w run = Normal tt
    | Fail e' => sfinal_state w run = st /\ soutcome w run = Raised e'
    end in
  match w 0%nat _ PrefixFileExists with
  | Ok false =>
      sfinal_state w run = st /\ soutcome w run = Normal tt /\
      strace_of w run = [SEv PrefixFileExists (Ok false)]
  | Ok true =>
      match w 1%nat _ ReadPrefixFile with
      | Ok doc => sfinal_state w run = with_prefixes st doc /\ soutcome w run = Normal tt
      | Fail e => warned e 2%nat
      end
  | Fail e => warned e 1%nat
  end.
Proof.
  intros run warning warned. subst run warning warned.
  unfold sfinal_state, soutcome, strace_of.
  unfold load_prefixes, stry_except, any_exception, set_custom_prefixes, swhen,
    sbind, sperform, lift. cbn.
  destruct (w 0%nat bool PrefixFileExists) as [[|]|e]; cbn.
  - destruct (w 1%nat _ ReadPrefixFile) as [doc|e]; cbn; [done|].
    by destruct (w 2%nat unit _).
  - done.
  - by destruct (w 1%nat unit _).
Qed.

(** ** Shutdown *)

Lemma save_settings_swp {R} (st : BotState) :
  swp (save_settings (R:=R) st) (fun t cs =>
    cs.2 = with_settings st (saved_settings st) /\
    exists ans,
      t = [SEv (WriteSettingsFile (saved_settings st)) ans] /\
      cs.1 = match ans with Ok _ => Normal tt | Fail e => Raised e end).
Proof.
  unfold save_settings, sbind, sperform, lift. cbn.
  intros [[]|e]; cbn; (split; [done|]); eexists; (split; [reflexivity|done]).
Qed.

Lemma save_all_swp (st : BotState) :
  swp (save_all st) (fun t cs =>
    existsb print_failed t = false ->
    cs.2 = with_settings st (saved_settings st) /\
    exists ok : bool,
      omap settings_write t = [(saved_settings st, ok)] /\
      if ok
      then cs.1 = Normal tt /\ Forall (eq (custom_prefixes st)) (omap prefix_write t)
      else (exists e, cs.1 = Raised e) /\ omap prefix_write t = []).
Proof.
  unfold save_all. apply swp_bind.
  eapply swp_mono; [|apply save_settings_swp].
  intros t1 [c1 s1] (E1 & ans & -> & C1). cbn in E1, C1. subst s1 c1.
  destruct ans as [[]|e]; cbn.
  - apply swp_bind. eapply swp_mono; [|apply save_prefixes_swp].
    intros t2 [c2 s2] (E2 & W2 & _ & S2 & C2). cbn in E2, W2, C2. subst s2.
    destruct c2 as [[]|r|e]; cbn; [|done|].
    + intros [[]|e]; cbn; intros Hp; (split; [done|]).
      * exists true. rewrite !omap_app, S2. cbn. rewrite app_nil_r. done.
      * rewrite !existsb_app in Hp. cbn in Hp. rewrite !orb_true_r in Hp. done.
    + intros Hp. rewrite C2 in Hp. done.
  - intros _. split; [done|]. exists false. split; [done|]. split; [eauto|done].
Qed.

Lemma close_sessions_swp (st : BotState) :
  swp (close_sessions st) (fun t cs =>
    cs.2 = st /\ omap settings_write t = [] /\ omap prefix_write t = [] /\
    match cs.1 with
    | Normal _ => True
    | Returned _ => False
    | Raised _ => existsb print_failed t = true
    end).
Proof.
  unfold close_sessions, stry_except, any_exception, swhen, sbind, sperform, lift. cbn.
  intros [[|]|e]; cbn.
  - intros [[]|e]; cbn; intros [[]|e']; cbn; try done.
    intros [[]|e'']; cbn; done.
  - done.
  - intros [[]|e']; cbn; done.
Qed.

Lemma cleanup_swp (st : BotState) :
  swp (cleanup st) (fun t cs =>
    existsb print_failed t = false ->
    cs.2 = with_settings st (saved_settings st) /\
    exists ok : bool,
      omap settings_write t = [(saved_settings st, ok)] /\
      if ok
      then cs.1 = Normal tt /\ Forall (eq (custom_prefixes st)) (omap prefix_write t)
      else (exists e, cs.1 = Raised e) /\ omap prefix_write t = []).
Proof.
  unfold cleanup. apply swp_bind.
  eapply swp_mono; [|apply close_sessions_swp].
  intros t1 [c1 s1] (E1 & S1 & W1 & C1). cbn in E1, C1. subst s1.
  destruct c1 as [imported|r|e]; [|done|by intros Hp; rewrite C1 in Hp].
  assert (Hrest : forall t2 : list sevent,
    omap settings_write t2 = [] -> omap prefix_write t2 = [] ->
    swp (save_all st) (fun t3 cs =>
      existsb print_failed (t1 ++ t2 ++ t3)%list = false ->
      cs.2 = with_settings st (saved_settings st) /\
      exists ok : bool,
        omap settings_write (t1 ++ t2 ++ t3)%list = [(saved_settings st, ok)] /\
        if ok
        then cs.1 = Normal tt
             /\ Forall (eq (custom_prefixes st)) (omap prefix_write (t1 ++ t2 ++ t3)%list)
        else (exists e, cs.1 = Raised e) /\ omap prefix_write (t1 ++ t2 ++ t3)%list = [])).
  { intros t2 S2 W2. eapply swp_mono; [|apply save_all_swp].
    intros t3 cs H Hp. rewrite !existsb_app in Hp.
    apply orb_false_iff in Hp as [_ Hp]. apply orb_false_iff in Hp as [_ Hp].
    rewrite !omap_app, S1, S2, W1, W2. cbn [app]. by apply H. }
  apply swp_bind. unfold swhen.
  destruct imported; cbn [negb].
  - cbn. eapply swp_mono; [|apply (Hrest [] eq_refl eq_refl)].
    intros t3 cs H. exact H.
  - unfold sperform. cbn. intros [[]|e]; cbn.
    + eapply swp_mono;
        [|apply (Hrest [SEv (Plain (Print (Fore.YELLOW
                     ++ "⚠ No shutdown_cleanup_task found in ai.py, skipping session close"
                     ++ Fore.RESET_ALL))) (Ok tt)] eq_refl eq_refl)].
      intros t3 cs H. exact H.
    + intros Hp. rewrite existsb_app in Hp. cbn in Hp. by rewrite orb_true_r in Hp.
Qed.

(** X24. At shutdown the settings are saved whatever became of the AI sessions,
    and a settings file that cannot be written leaves the prefixes unsaved.
    Under every environment in which no print fails, [cleanup] writes the
    settings file exactly once, with the dictionary [save_settings] builds
    from the state; if that write goes through, [cleanup] ends normally and
    whatever it writes to the prefix file is the prefix table; if it fails,
    [cleanup] raises and the prefix file is not written at all. *)
Theorem cleanup_saves_settings_first (w : soracle) (st : BotState) :
  let run := cleanup st in
  existsb print_failed (strace_of w run) = false ->
  sfinal_state w run = with_settings st (saved_settings st) /\
  exists ok : bool,
    omap settings_write (strace_of w run) = [(saved_settings st, ok)] /\
    if ok
    then soutcome w run = Normal tt
         /\ Forall (eq (custom_prefixes st)) (omap prefix_write (strace_of w run))
    else (exists e, soutcome w run = Raised e)
         /\ omap prefix_write (strace_of w run) = [].
Proof.
  intros run. subst run. unfold sfinal_state, soutcome, strace_of.
  exact (swp_run _ _ w 0%nat (cleanup_swp st)).
Qed.

Lemma cleanup_saves_settings_first_witness :
  let w := Desk.failing_world in
  let run := cleanup Scenario.tuned_state in
  existsb print_failed (strace_of w run) = false /\
  sfinal_state w run
  = with_settings Scenario.tuned_state (saved_settings Scenario.tuned_state) /\
  exists ok : bool,
    omap settings_write (strace_of w run) = [(saved_settings Scenario.tuned_state, ok)] /\
    if ok
    then soutcome w run = Normal tt
         /\ Forall (eq (custom_prefixes Scenario.tuned_state))
              (omap prefix_write (strace_of w run))
    else (exists e, soutcome w run = Raised e)
         /\ omap prefix_write (strace_of w run) = [].
Proof.
  split; [reflexivity|].
  apply (cleanup_saves_settings_first Desk.failing_world Scenario.tuned_state).
  reflexivity.
Defined.

(** ** Errors of commands *)

Lemma on_command_error_swp (inv : Invocation) (error : CommandError) (st : BotState) :
  swp (on_command_error inv error st) (fun t cs =>
    cs.2 = st /\
    (existsb print_failed t = false ->
     length (List.filter is_command_send t) = (if is_silenced error then 0 else 1)%nat /\
     length (List.filter is_command_print t)
     = (if s_logger (settings st) then 1 else 0)%nat)).
Proof.
  unfold on_command_error, swhen, ctx_send_text, ctx_send, sbind, sperform, lift,
    perform, bind.
  cbn. destruct (s_logger (settings st)); cbn.
  - intros [[]|e]; cbn; [|by split].
    destruct error; cbn; try done; intros [z|e]; cbn; done.
  - destruct error; cbn; try done; intros [z|e]; cbn; done.
Qed.

(** X25. The global error handler answers an error of a command at most once and
    changes nothing: unknown commands and failed checks (missing permissions
    among them) get no message at all, every other error gets exactly one;
    and a line is printed exactly when the logger is on.  (If the print of
    that line fails, the handler raises before it answers.) *)
Theorem command_errors_are_answered_once (w : soracle) (st : BotState)
    (inv : Invocation) (error : CommandError) :
  let run := on_command_error inv error st in
  sfinal_state w run = st /\
  (existsb print_failed (strace_of w run) = false ->
   length (List.filter is_command_send (strace_of w run))
   = (if is_silenced error then 0 else 1)%nat /\
   length (List.filter is_command_print (strace_of w run))
   = (if s_logger (settings st) then 1 else 0)%nat).
Proof.
  intros run. subst run. unfold sfinal_state, strace_of.
  exact (swp_run _ _ w 0%nat (on_command_error_swp inv error st)).
Qed.

(** * Names and objects *)

Lemma store_prefix_ids (stores : list (string * string)) (s : Names) :
  custom_prefixes_id (fold_left store_prefix stores s) = custom_prefixes_id s /\
  bot_custom_prefixes_id (fold_left store_prefix stores s) = bot_custom_prefixes_id s /\
  settings_id (fold_left store_prefix stores s) = settings_id s /\
  bot_settings_id (fold_left store_prefix stores s) = bot_settings_id s.
Proof.
  revert s. induction stores as [|kv stores IH]; intros s; [done|].
  cbn [fold_left]. destruct (IH (store_prefix s kv)) as (-> & -> & -> & ->). done.
Qed.

Lemma store_prefix_tables (stores : list (string * string)) (s : Names) :
  global_table (fold_left store_prefix stores s)
  = fold_left (fun t kv => <[kv.1 := kv.2]> t) stores (global_table s) /\
  (bot_custom_prefixes_id s <> custom_prefixes_id s ->
   bot_table (fold_left store_prefix stores s) = bot_table s).
Proof.
  revert s. induction stores as [|kv stores IH]; intros s; [done|].
  cbn [fold_left]. destruct (IH (store_prefix s kv)) as [Hg Hb]. split.
  - rewrite Hg. f_equal. unfold global_table, store_prefix. cbn.
    by rewrite lookup_insert_eq.
  - intros Hne. rewrite Hb by done.
    unfold bot_table, store_prefix. cbn. by rewrite lookup_insert_ne.
Qed.

(** X26. Once start-up has read a prefix file, [bot.custom_prefixes] is no
    longer the table in use.  After the module is imported and [on_ready] has
    run, [bot.settings] is the [settings] dictionary whatever the files; the
    prefixes set afterwards by [setprefix] are all in the table that
    [get_prefix] reads; but [bot.custom_prefixes] is that table only if there
    was no prefix file: if the file was read, or could not be read, the
    attribute still names the empty dictionary of the import, and no prefix
    set afterwards shows in it. *)
Theorem start_up_detaches_bot_prefixes (prefix_file : PrefixFile)
    (settings_file_exists : bool) (stores : list (string * string)) :
  let s := fold_left store_prefix stores
             (on_ready_names prefix_file settings_file_exists module_start) in
  bot_settings_id s = settings_id s /\
  global_table s
  = fold_left (fun t kv => <[kv.1 := kv.2]> t) stores
      (match prefix_file with PrefixDocument doc => doc | _ => ∅ end) /\
  match prefix_file with
  | NoPrefixFile =>
      bot_custom_prefixes_id s = custom_prefixes_id s /\ bot_table s = global_table s
  | _ => bot_custom_prefixes_id s <> custom_prefixes_id s /\ bot_table s = ∅
  end.
Proof.
  intros s. subst s.
  set (s0 := on_ready_names prefix_file settings_file_exists module_start).
  destruct (store_prefix_ids stores s0) as (Ec & Eb & Es & Ebs).
  destruct (store_prefix_tables stores s0) as [Hg Hb].
  split; [rewrite Es, Ebs; by destruct prefix_file, settings_file_exists|].
  split; [rewrite Hg; by destruct prefix_file, settings_file_exists|].
  assert (Hsame : bot_custom_prefixes_id s0 = custom_prefixes_id s0 ->
                  bot_table (fold_left store_prefix stores s0)
                  = global_table (fold_left store_prefix stores s0)).
  { intros H. unfold bot_table, global_table. by rewrite Ec, Eb, H. }
  rewrite Ec, Eb.
  destruct prefix_file.
  - assert (H : bot_custom_prefixes_id s0 = custom_prefixes_id s0)
      by (by destruct settings_file_exists).
    split; [exact H|by apply Hsame].
  - assert (Hne : bot_custom_prefixes_id s0 <> custom_prefixes_id s0)
      by (by destruct settings_file_exists).
    split; [done|]. rewrite (Hb Hne). by destruct settings_file_exists.
  - assert (Hne : bot_custom_prefixes_id s0 <> custom_prefixes_id s0)
      by (by destruct settings_file_exists).
    split; [done|]. rewrite (Hb Hne). by destruct settings_file_exists.
Qed.

(** X27. A reload that finds no settings file leaves [bot.settings] behind: in a
    state where the attribute names the [settings] dictionary and the next
    identity is new, [load_settings] makes [settings] a new dictionary that
    the attribute does not name; with a file, the dictionary is updated in
    place and the attribute still names it. *)
Theorem reload_without_file_detaches_bot_settings (s : Names) (file_exists : bool) :
  bot_settings_id s = settings_id s ->
  (settings_id s < next_id s)%nat ->
  let s' := load_settings_names file_exists s in
  (bot_settings_id s' = settings_id s' <-> file_exists = true) /\
  (settings_id s' < next_id s')%nat /\
  custom_prefixes_id s' = custom_prefixes_id s /\
  bot_custom_prefixes_id s' = bot_custom_prefixes_id s.
Proof.
  intros Hsame Hlt s'. subst s'. destruct file_exists; cbn.
  - by rewrite Hsame.
  - split; [|by auto with lia]. split; [|done]. rewrite Hsame. lia.
Qed.

Lemma reload_without_file_detaches_bot_settings_witness :
  let s := on_ready_names NoPrefixFile false module_start in
  bot_settings_id s = settings_id s /\
  (settings_id s < next_id s)%nat /\
  let s' := load_settings_names false s in
  (bot_settings_id s' = settings_id s' <-> false = true) /\
  (settings_id s' < next_id s')%nat /\
  custom_prefixes_id s' = custom_prefixes_id s /\
  bot_custom_prefixes_id s' = bot_custom_prefixes_id s.
Proof.
  split; [reflexivity|]. split; [cbn; lia|].
  apply (reload_without_file_detaches_bot_settings
           (on_ready_names NoPrefixFile false module_start) false);
    [reflexivity|cbn; lia].
Defined.
